(** * GreenDisc/bot.py: the time-clock bot, embedded and verified

    The development follows the layout of [src/GreenDisc/bot.py]:
    the parts of the Python runtime the bot calls ([calendar], [datetime],
    string formatting), the persisted document, the calendar renderer, the
    publisher, the clock-event handler and the commands.

    Strings are byte strings holding the UTF-8 encoding of the Python [str];
    prefix tests, splitting at a space, joining and comparison agree on the
    two representations, and slicing counts code points ([Py.slice_ate]). *)

From Stdlib Require Import ZArith String Ascii List Bool Lia Decimal DecimalString.
From Stdlib Require Import Sorting.Sorted Sorting.Permutation.
Import ListNotations.

Local Open Scope string_scope.
Local Open Scope Z_scope.

(** ** The Python runtime used by the bot *)

Module Py.

(** [str(n)] of an integer. *)
Definition str_int (n : Z) : string := NilZero.string_of_int (Z.to_int n).

Definition repete (c : ascii) (n : nat) : string :=
  string_of_list_ascii (repeat c n).

(** [f"{n:0{w}d}"]: the sign first, then zeros up to width [w]. *)
Definition fmt_0d (w : nat) (n : Z) : string :=
  if n <? 0
  then let d := str_int (- n) in
       "-" ++ repete "0" (w - 1 - String.length d) ++ d
  else let d := str_int n in
       repete "0" (w - String.length d) ++ d.

(** [f"{n:{w}d}"]: right-justified with spaces. *)
Definition fmt_d (w : nat) (n : Z) : string :=
  let d := str_int n in repete " " (w - String.length d) ++ d.

(** [sep.join(l)]. *)
Definition join (sep : string) (l : list string) : string := String.concat sep l.

(** [s.startswith(p)]. *)
Definition startswith (s p : string) : bool := String.prefix p s.

(** [" " in s]. *)
Fixpoint tem_espaco (s : string) : bool :=
  match s with
  | EmptyString => false
  | String c r => if Ascii.eqb c " " then true else tem_espaco r
  end.

(** [s.split(" ")]: cut at every single space, empty pieces kept. *)
Fixpoint split_espaco (s : string) : list string :=
  match s with
  | EmptyString => [EmptyString]
  | String c r =>
      if Ascii.eqb c " " then EmptyString :: split_espaco r
      else match split_espaco r with
           | p :: ps => String c p :: ps
           | [] => [String c EmptyString]
           end
  end.

(** A UTF-8 continuation byte (10xxxxxx) belongs to the code point that
    started before it. *)
Definition continuacao (c : ascii) : bool :=
  let n := N_of_ascii c in (128 <=? n)%N && (n <? 192)%N.

(** [s[:n]], counted in code points. *)
Fixpoint slice_ate (n : nat) (s : string) : string :=
  match s with
  | EmptyString => EmptyString
  | String c r =>
      if continuacao c then String c (slice_ate n r)
      else match n with
           | O => EmptyString
           | S n' => String c (slice_ate n' r)
           end
  end.

(** *** [calendar] and [datetime.date] *)

Definition MINYEAR : Z := 1.
Definition MAXYEAR : Z := 9999.

Definition isleap (year : Z) : bool :=
  (year mod 4 =? 0) && (negb (year mod 100 =? 0) || (year mod 400 =? 0)).

(** [calendar.mdays], and [datetime._DAYS_IN_MONTH]. *)
Definition mdays (month : Z) : Z :=
  match month with
  | 1 => 31 | 2 => 28 | 3 => 31 | 4 => 30 | 5 => 31 | 6 => 30
  | 7 => 31 | 8 => 31 | 9 => 30 | 10 => 31 | 11 => 30 | 12 => 31
  | _ => 0
  end.

Definition monthlen (year month : Z) : Z :=
  mdays month + (if (month =? 2) && isleap year then 1 else 0).

Definition days_before_year (year : Z) : Z :=
  let y := year - 1 in y * 365 + y / 4 - y / 100 + y / 400.

(** [datetime._DAYS_BEFORE_MONTH], plus the leap day after February. *)
Definition days_before_month (year month : Z) : Z :=
  match month with
  | 1 => 0 | 2 => 31 | 3 => 59 | 4 => 90 | 5 => 120 | 6 => 151
  | 7 => 181 | 8 => 212 | 9 => 243 | 10 => 273 | 11 => 304 | 12 => 334
  | _ => 0
  end + (if (2 <? month) && isleap year then 1 else 0).

(** [date(year, month, day).toordinal()]. *)
Definition ymd2ord (year month day : Z) : Z :=
  days_before_year year + days_before_month year month + day.

(** [calendar.weekday]: Monday is 0; a year outside [datetime]'s range is
    replaced by one with the same calendar. *)
Definition weekday (year month day : Z) : Z :=
  let year := if (MINYEAR <=? year) && (year <=? MAXYEAR) then year
              else 2000 + year mod 400 in
  (ymd2ord year month day + 6) mod 7.

Inductive excecao : Type :=
| IllegalMonthError (month : Z)
| ValueError
| KeyError
| NotFound
| Forbidden
| HTTPException.

Inductive resultado (A : Type) : Type :=
| Ok (a : A)
| Levanta (e : excecao).
Arguments Ok {A} a.
Arguments Levanta {A} e.

(** [calendar.monthrange]. *)
Definition monthrange (year month : Z) : resultado (Z * Z) :=
  if negb ((1 <=? month) && (month <=? 12)) then Levanta (IllegalMonthError month)
  else Ok (weekday year month 1, monthlen year month).

(** [range(1, n + 1)]. *)
Definition range1 (n : Z) : list Z := map Z.of_nat (seq 1 (Z.to_nat n)).

(** [Calendar(firstweekday).itermonthdays], as a list. *)
Definition itermonthdays (firstweekday year month : Z) : resultado (list Z) :=
  match monthrange year month with
  | Levanta e => Levanta e
  | Ok (day1, ndays) =>
      let days_before := (day1 - firstweekday) mod 7 in
      let days_after := (firstweekday - day1 - ndays) mod 7 in
      Ok (repeat 0 (Z.to_nat days_before) ++ range1 ndays
          ++ repeat 0 (Z.to_nat days_after))%list
  end.

(** [range(0, n, 7)]. *)
Definition range_de_7 (n : nat) : list nat :=
  map (fun k => (7 * k)%nat) (seq 0 ((n + 6) / 7)).

(** [days[i:i+7]]. *)
Definition fatia7 {A} (days : list A) (i : nat) : list A := firstn 7 (skipn i days).

(** [Calendar(firstweekday).monthdayscalendar]. *)
Definition monthdayscalendar (firstweekday year month : Z) : resultado (list (list Z)) :=
  match itermonthdays firstweekday year month with
  | Levanta e => Levanta e
  | Ok days => Ok (map (fatia7 days) (range_de_7 (List.length days)))
  end.

(** *** [datetime] values and the two formats the bot uses *)

Record datetime : Type := mk_datetime
  { year : Z; month : Z; day : Z; hour : Z; minute : Z }.

(** [dt.strftime("%Y-%m-%d")] and [dt.strftime("%Y-%m-%d %H:%M")].  CPython
    hands the format to the C library, whose [%Y] is the year in decimal with
    no padding: four digits from year 1000 on, fewer before ([999-01-01]);
    [%m], [%d], [%H] and [%M] are two digits. *)
Definition strftime_Ymd (dt : datetime) : string :=
  str_int (year dt) ++ "-" ++ fmt_0d 2 (month dt) ++ "-" ++ fmt_0d 2 (day dt).

Definition strftime_YmdHM (dt : datetime) : string :=
  strftime_Ymd dt ++ " " ++ fmt_0d 2 (hour dt) ++ ":" ++ fmt_0d 2 (minute dt).

(** [datetime.strptime(s, "%Y-%m-%d")].  The format compiles to the regular
    expression [(\d\d\d\d)-(1[0-2]|0[1-9]|[1-9])-(3[0-1]|[1-2]\d|0[1-9]|[1-9]| [1-9])],
    matched at the start of [s] with ordered alternatives; text left over
    and a date that does not exist both raise [ValueError].

    The pattern is a [str] pattern, so [\d] matches every decimal digit of
    Unicode (category Nd), which [int] then reads with its value; a class
    such as [[1-9]] matches the ASCII digits it names and nothing else. *)

(** An ASCII digit, as the classes [[0-2]] and [[1-9]] see it. *)
Definition digito_ascii (c : ascii) : option Z :=
  let n := N_of_ascii c in
  if (48 <=? n)%N && (n <=? 57)%N then Some (Z.of_N n - 48) else None.

Definition digito_entre (lo hi : Z) (c : ascii) : option Z :=
  match digito_ascii c with
  | Some d => if (lo <=? d) && (d <=? hi) then Some d else None
  | None => None
  end.

Definition byte (c : ascii) : Z := Z.of_N (N_of_ascii c).

(** The code point at the head of a UTF-8 string, and what follows it.
    Bytes that are no UTF-8 (a stray continuation byte, a cut or overlong
    sequence) encode no [str] and give [None]. *)
Definition le_ponto (s : string) : option (Z * string) :=
  match s with
  | EmptyString => None
  | String a r =>
      let a := byte a in
      if a <? 128 then Some (a, r)
      else if a <? 192 then None
      else if a <? 224 then
        match r with
        | String b r =>
            let cp := (a - 192) * 64 + (byte b - 128) in
            if continuacao b && (128 <=? cp) then Some (cp, r) else None
        | _ => None
        end
      else if a <? 240 then
        match r with
        | String b (String c r) =>
            let cp := (a - 224) * 4096 + (byte b - 128) * 64 + (byte c - 128) in
            if continuacao b && continuacao c && (2048 <=? cp) then Some (cp, r)
            else None
        | _ => None
        end
      else if a <? 248 then
        match r with
        | String b (String c (String d r)) =>
            let cp := (a - 240) * 262144 + (byte b - 128) * 4096
                      + (byte c - 128) * 64 + (byte d - 128) in
            if continuacao b && continuacao c && continuacao d && (65536 <=? cp)
            then Some (cp, r) else None
        | _ => None
        end
      else None
  end.

(** The decimal digits of Unicode 14.0 (CPython 3.11's [unicodedata]): 66 runs
    of ten code points, each run holding the digits 0 to 9 in order.  The
    list gives the zero of every run. *)
Definition ZEROS_DECIMAIS : list Z :=
  [ 48; 1632; 1776; 1984; 2406; 2534; 2662; 2790; 2918; 3046; 3174; 3302; 3430;
    3558; 3664; 3792; 3872; 4160; 4240; 6112; 6160; 6470; 6608; 6784; 6800;
    6992; 7088; 7232; 7248; 42528; 43216; 43264; 43472; 43504; 43600; 44016;
    65296; 66720; 68912; 69734; 69872; 69942; 70096; 70384; 70736; 70864;
    71248; 71360; 71472; 71904; 72016; 72784; 73040; 73120; 92768; 92864;
    93008; 120782; 120792; 120802; 120812; 120822; 123200; 123632; 125264;
    130032 ].

(** [unicodedata.decimal(chr(cp))], [None] when [cp] is no decimal digit. *)
Definition valor_decimal (cp : Z) : option Z :=
  match find (fun z => (z <=? cp) && (cp <? z + 10)) ZEROS_DECIMAIS with
  | Some z => Some (cp - z)
  | None => None
  end.

(** [\d]: one decimal digit of any script, with its value. *)
Definition barra_d (s : string) : list (Z * string) :=
  match le_ponto s with
  | Some (cp, r) =>
      match valor_decimal cp with Some d => [(d, r)] | None => [] end
  | None => []
  end.

(** One character of a class of ASCII characters. *)
Definition alt1 (p : ascii -> option Z) (s : string) : list (Z * string) :=
  match s with
  | String a r => match p a with Some x => [(x, r)] | None => [] end
  | _ => []
  end.

(** Two digits in a row, read in base ten. *)
Definition dois (P Q : string -> list (Z * string)) (s : string) : list (Z * string) :=
  flat_map (fun '(x, r) => map (fun '(y, r') => (10 * x + y, r')) (Q r)) (P s).

Definition alt2 (p q : ascii -> option Z) : string -> list (Z * string) :=
  dois (alt1 p) (alt1 q).

Definition le_Y : string -> list (Z * string) :=
  dois (dois (dois barra_d barra_d) barra_d) barra_d.

Definition espaco (c : ascii) : option Z := if Ascii.eqb c " " then Some 0 else None.

Definition le_m (s : string) : list (Z * string) :=
  (alt2 (digito_entre 1 1) (digito_entre 0 2) s
   ++ alt2 (digito_entre 0 0) (digito_entre 1 9) s
   ++ alt1 (digito_entre 1 9) s)%list.

Definition le_d (s : string) : list (Z * string) :=
  (alt2 (digito_entre 3 3) (digito_entre 0 1) s
   ++ dois (alt1 (digito_entre 1 2)) barra_d s
   ++ alt2 (digito_entre 0 0) (digito_entre 1 9) s
   ++ alt1 (digito_entre 1 9) s
   ++ alt2 espaco (digito_entre 1 9) s)%list.

Definition le_hifen (s : string) : list string :=
  match s with
  | String c r => if Ascii.eqb c "-" then [r] else []
  | _ => []
  end.

(** All the ways the expression matches a prefix of [s], the preferred one
    first. *)
Definition casa_Ymd (s : string) : list (Z * Z * Z * string) :=
  flat_map (fun '(y, r1) =>
    flat_map (fun r2 =>
      flat_map (fun '(m, r3) =>
        flat_map (fun r4 =>
          map (fun '(d, r5) => (y, m, d, r5)) (le_d r4))
          (le_hifen r3))
        (le_m r2))
      (le_hifen r1))
    (le_Y s).

Definition strptime_Ymd (s : string) : resultado datetime :=
  match casa_Ymd s with
  | [] => Levanta ValueError
  | (y, m, d, resto) :: _ =>
      if negb (resto =? "")%string then Levanta ValueError
      else if (MINYEAR <=? y) && (d <=? monthlen y m)
           then Ok (mk_datetime y m d 0 0)
           else Levanta ValueError
  end.

(** *** [dict] with string keys: insertion-ordered, one entry per key *)

Abbreviation dict V := (list (string * V)) (only parsing).

Section Dict.
Context {V : Type}.

(** [d.get(k)]. *)
Fixpoint dict_get (k : string) (d : dict V) : option V :=
  match d with
  | [] => None
  | (k', v) :: r => if (k' =? k)%string then Some v else dict_get k r
  end.

(** [k in d]. *)
Definition dict_in (k : string) (d : dict V) : bool :=
  match dict_get k d with Some _ => true | None => false end.

(** [d[k] = v]: a key already there keeps its place, a new one goes last. *)
Fixpoint dict_set (k : string) (v : V) (d : dict V) : dict V :=
  match d with
  | [] => [(k, v)]
  | (k', v') :: r =>
      if (k' =? k)%string then (k, v) :: r else (k', v') :: dict_set k v r
  end.

Definition dict_keys (d : dict V) : list string := map fst d.

(** What every Python [dict] satisfies. *)
Definition dict_ok (d : dict V) : Prop := NoDup (dict_keys d).
End Dict.

(** [sorted(l)] on strings. *)
Fixpoint insere (k : string) (l : list string) : list string :=
  match l with
  | [] => [k]
  | x :: r => if String.leb k x then k :: l else x :: insere k r
  end.

Definition sorted (l : list string) : list string := fold_right insere [] l.

End Py.
Export Py.

(** ** The persisted document

    The layout documented at the top of [bot.py]:
    [registros[date][user_id] = {name, entrada, saida}] and
    [mensagens[month_key] = {message_id}].  A field that the code reads with
    [.get] may be missing, hence the options. *)

Record Info : Type := mk_info
  { name : option string; entrada : option string; saida : option string }.

Record MessageInfo : Type := mk_message_info { message_id : option Z }.

Abbreviation Usuarios := (dict Info) (only parsing).
Abbreviation Registros := (dict Usuarios) (only parsing).
Abbreviation Mensagens := (dict MessageInfo) (only parsing).

Record Dados : Type := mk_dados
  { registros : option Registros; mensagens : option Mensagens }.

(** [{"registros": {}, "mensagens": {}}] *)
Definition dados_vazios : Dados := mk_dados (Some []) (Some []).

(** [x.get(k, default)] on a value that may be missing. *)
Definition ou {A} (o : option A) (padrao : A) : A :=
  match o with Some a => a | None => padrao end.

(** Lines 65-66, [dt.strftime("%Y-%m")]; no handler calls it. *)
Definition get_month_key (dt : datetime) : string :=
  str_int (year dt) ++ "-" ++ fmt_0d 2 (month dt).

Definition get_date_str (dt : datetime) : string := strftime_Ymd dt.

(** ** Calendar renderer *)

Definition MESES_PT (mes : Z) : resultado string :=
  match mes with
  | 1 => Ok "Janeiro" | 2 => Ok "Fevereiro" | 3 => Ok "Março"
  | 4 => Ok "Abril" | 5 => Ok "Maio" | 6 => Ok "Junho"
  | 7 => Ok "Julho" | 8 => Ok "Agosto" | 9 => Ok "Setembro"
  | 10 => Ok "Outubro" | 11 => Ok "Novembro" | 12 => Ok "Dezembro"
  | _ => Levanta KeyError
  end.

Definition nl : string := String (ascii_of_nat 10) EmptyString.

Definition cerca : string := "```".
Definition cabecalho : string := "Seg Ter Qua Qui Sex Sáb Dom".
Definition aviso_sem_registros : string := "_Ainda não há registros de ponto neste mês._".
Definition titulo_registros : string := "**Registros de ponto por dia:**".
Definition sem_hora : string := "--:--".

(** One cell of the grid: blank for a day outside the month, else [f"{day:2d} "]. *)
Definition celula (day : Z) : string :=
  if day =? 0 then "   " else fmt_d 2 day ++ " ".

Definition linha_semana (week : list Z) : string := join " " (map celula week).

(** Lines 100-113: the fenced grid. *)
Definition grade (weeks : list (list Z)) : list string :=
  ([cerca; cabecalho] ++ map linha_semana weeks ++ [cerca])%list.

(** Lines 116-119: the records of the month, keyed by date. *)
Definition filtra_mes (month_key : string) (registros : Registros) : Registros :=
  fold_left (fun acc '(data_str, usuarios) =>
               if startswith data_str month_key
               then dict_set data_str usuarios acc else acc)
            registros [].

(** Lines 137-140: keep [HH:MM] of a stamped time. *)
Definition so_hora (t : string) : string :=
  if negb (t =? sem_hora)%string && tem_espaco t
  then slice_ate 5 (nth 1 (split_espaco t) EmptyString)
  else t.

(** Lines 133-141: the line of one user. *)
Definition linha_usuario (u : string * Info) : string :=
  let '(user_id, info) := u in
  let nome := ou (name info) user_id in
  let entrada := so_hora (ou (entrada info) sem_hora) in
  let saida := so_hora (ou (saida info) sem_hora) in
  "- " ++ nome ++ ": entrada " ++ entrada ++ " | saída " ++ saida.

Definition linha_dia (dia month : Z) : string :=
  nl ++ "__Dia " ++ fmt_0d 2 dia ++ "/" ++ fmt_0d 2 month ++ "__".

(** Lines 127-141: the loop over the sorted dates. *)
Fixpoint detalhes (month : Z) (registros_mes : Registros) (datas : list string)
  : resultado (list string) :=
  match datas with
  | [] => Ok []
  | data_str :: resto =>
      match strptime_Ymd data_str with
      | Levanta e => Levanta e
      | Ok dt =>
          match dict_get data_str registros_mes with
          | None => Levanta KeyError
          | Some usuarios =>
              match detalhes month registros_mes resto with
              | Levanta e => Levanta e
              | Ok mais =>
                  Ok (linha_dia (day dt) month :: map linha_usuario usuarios ++ mais)%list
              end
          end
      end
  end.

(** The list [linhas] when the function returns. *)
Definition linhas_calendario (year month : Z) (registros : Registros)
  : resultado (list string) :=
  let month_key := fmt_0d 4 year ++ "-" ++ fmt_0d 2 month in
  match monthdayscalendar 0 year month with
  | Levanta e => Levanta e
  | Ok weeks =>
      let registros_mes := filtra_mes month_key registros in
      match registros_mes with
      | [] => Ok (grade weeks ++ [aviso_sem_registros])%list
      | _ :: _ =>
          match detalhes month registros_mes (sorted (dict_keys registros_mes)) with
          | Levanta e => Levanta e
          | Ok ds => Ok (grade weeks ++ titulo_registros :: ds)%list
          end
      end
  end.

Definition renderizar_calendario (year month : Z) (registros : Registros)
  : resultado string :=
  match linhas_calendario year month registros with
  | Levanta e => Levanta e
  | Ok linhas => Ok (join nl linhas)
  end.

(** ** The world the handlers act on

    The data file, the calendar channel of the chat platform and the trace of
    what the bot did, oldest event first.  A handler is a function from world
    to outcome and world: an exception leaves the world as it was when raised. *)

Record Embed : Type := mk_embed { title : string; description : string }.

Inductive Evento : Type :=
| EvPrint (texto : string)
| EvArquivoCriado
| EvArquivoLido
| EvArquivoEscrito (dados : Dados)
| EvFetchChannel
| EvFetchMessage (id : Z)
| EvMsgEdit (id : Z) (embed : Embed)
| EvCanalSend (id : Z) (embed : Embed)
| EvCtxSend (texto : string)
| EvCtxSendEmbed (embed : Embed)
| EvResposta (texto : string).

(** What the platform answers to each kind of call, when it refuses it. *)
Record Falhas : Type := mk_falhas
  { falha_fetch_channel : option excecao;
    falha_fetch_message : option excecao;
    falha_edit : option excecao;
    falha_send : option excecao;
    falha_ctx_send : option excecao;
    falha_resposta : option excecao }.

Definition sem_falhas : Falhas := mk_falhas None None None None None None.

Record Mundo : Type := mk_mundo
  { arquivo : option Dados;             (* data/ponto_data.json, [None] when absent *)
    canal_em_cache : bool;              (* [client.get_channel] finds the channel *)
    canal_mensagens : list (Z * Embed); (* the messages of the calendar channel *)
    proximo_id : Z;                     (* identifier of the next message created *)
    falhas : Falhas;
    eventos : list Evento }.

Definition M (A : Type) : Type := Mundo -> resultado A * Mundo.

Definition ret {A} (a : A) : M A := fun w => (Ok a, w).
Definition levanta {A} (e : excecao) : M A := fun w => (Levanta e, w).
Definition bind {A B} (m : M A) (k : A -> M B) : M B :=
  fun w => match m w with
           | (Ok a, w') => k a w'
           | (Levanta e, w') => (Levanta e, w')
           end.
Definition eleva {A} (r : resultado A) : M A := fun w => (r, w).

Notation "x <- m ;; k" := (bind m (fun x => k))
  (at level 61, m at next level, right associativity).
Notation "m ;;; k" := (bind m (fun _ => k))
  (at level 61, right associativity).

Definition registra (ev : Evento) : M unit :=
  fun w => (Ok tt, mk_mundo (arquivo w) (canal_em_cache w) (canal_mensagens w)
                            (proximo_id w) (falhas w) (eventos w ++ [ev])).

Definition poe_arquivo (d : Dados) : M unit :=
  fun w => (Ok tt, mk_mundo (Some d) (canal_em_cache w) (canal_mensagens w)
                            (proximo_id w) (falhas w) (eventos w)).

Definition poe_canal (ms : list (Z * Embed)) (prox : Z) : M unit :=
  fun w => (Ok tt, mk_mundo (arquivo w) (canal_em_cache w) ms prox
                            (falhas w) (eventos w)).

Definition le_mundo : M Mundo := fun w => (Ok w, w).

(** A platform call: refused with the configured error, or carried out. *)
Definition chamada {A} (falha : Falhas -> option excecao) (m : M A) : M A :=
  w <- le_mundo ;;
  match falha (falhas w) with
  | Some e => levanta e
  | None => m
  end.

(** ** Persistence (lines 47-62) *)

Definition garantir_arquivo : M unit :=
  w <- le_mundo ;;
  match arquivo w with
  | None => poe_arquivo dados_vazios ;;; registra EvArquivoCriado
  | Some _ => ret tt
  end.

Definition carregar_dados : M Dados :=
  garantir_arquivo ;;;
  registra EvArquivoLido ;;;
  w <- le_mundo ;;
  match arquivo w with
  | Some d => ret d
  | None => levanta ValueError
  end.

Definition salvar_dados (dados : Dados) : M unit :=
  poe_arquivo dados ;;; registra (EvArquivoEscrito dados).

(** ** The calendar channel *)

Fixpoint busca_mensagem (id : Z) (ms : list (Z * Embed)) : option Embed :=
  match ms with
  | [] => None
  | (i, e) :: r => if i =? id then Some e else busca_mensagem id r
  end.

Fixpoint troca_mensagem (id : Z) (novo : Embed) (ms : list (Z * Embed))
  : list (Z * Embed) :=
  match ms with
  | [] => []
  | (i, e) :: r => if i =? id then (i, novo) :: r else (i, e) :: troca_mensagem id novo r
  end.

(** [client.get_channel(ID)], then [client.fetch_channel(ID)] on a miss. *)
Definition obter_canal : M unit :=
  w <- le_mundo ;;
  if canal_em_cache w then ret tt
  else chamada falha_fetch_channel (registra EvFetchChannel).

(** [canal.fetch_message(id)]: [NotFound] when the message is gone. *)
Definition fetch_message (id : Z) : M Z :=
  chamada falha_fetch_message
    (registra (EvFetchMessage id) ;;;
     w <- le_mundo ;;
     match busca_mensagem id (canal_mensagens w) with
     | Some _ => ret id
     | None => levanta NotFound
     end).

(** [msg.edit(content=None, embed=embed)]. *)
Definition msg_edit (id : Z) (embed : Embed) : M unit :=
  chamada falha_edit
    (w <- le_mundo ;;
     match busca_mensagem id (canal_mensagens w) with
     | Some _ =>
         poe_canal (troca_mensagem id embed (canal_mensagens w)) (proximo_id w) ;;;
         registra (EvMsgEdit id embed)
     | None => levanta NotFound
     end).

(** [canal.send(embed=embed)]: the identifier of the message created. *)
Definition canal_send (embed : Embed) : M Z :=
  chamada falha_send
    (w <- le_mundo ;;
     let id := proximo_id w in
     poe_canal (canal_mensagens w ++ [(id, embed)]) (id + 1) ;;;
     registra (EvCanalSend id embed) ;;;
     ret id).

Definition ctx_send (texto : string) : M unit :=
  chamada falha_ctx_send (registra (EvCtxSend texto)).

Definition ctx_send_embed (embed : Embed) : M unit :=
  chamada falha_ctx_send (registra (EvCtxSendEmbed embed)).

Definition responde (texto : string) : M unit :=
  chamada falha_resposta (registra (EvResposta texto)).

(** [try: m  except discord.NotFound: pass]; [true] when [m] completed. *)
Definition tenta_not_found (m : M unit) : M bool :=
  fun w => match m w with
           | (Ok _, w') => (Ok true, w')
           | (Levanta NotFound, w') => (Ok false, w')
           | (Levanta e, w') => (Levanta e, w')
           end.

Section Bot.

(** [int(os.getenv("CALENDAR_CHANNEL_ID", "0"))] *)
Variable CALENDAR_CHANNEL_ID : Z.

Definition titulo_calendario (nome_mes : string) (year : Z) : string :=
  "Calendário de ponto - " ++ nome_mes ++ "/" ++ str_int year.

(** ** Calendar publisher (lines 146-191) *)

Definition atualizar_mensagem_calendario (year month : Z) : M unit :=
  if CALENDAR_CHANNEL_ID =? 0 then
    registra (EvPrint "CALENDAR_CHANNEL_ID não configurado no .env.")
  else
    dados <- carregar_dados ;;
    let regs := ou (registros dados) [] in
    let msgs := ou (mensagens dados) [] in
    let month_key := fmt_0d 4 year ++ "-" ++ fmt_0d 2 month in
    obter_canal ;;;
    descricao <- eleva (renderizar_calendario year month regs) ;;
    nome_mes <- eleva (MESES_PT month) ;;
    let titulo := titulo_calendario nome_mes year in
    editada <-
      match dict_get month_key msgs with
      | Some (mk_message_info (Some message_id)) =>
          tenta_not_found
            (msg <- fetch_message message_id ;;
             msg_edit msg (mk_embed titulo descricao))
      | _ => ret false
      end ;;
    if editada : bool then ret tt
    else
      id <- canal_send (mk_embed titulo descricao) ;;
      let msgs := dict_set month_key (mk_message_info (Some id)) msgs in
      salvar_dados (mk_dados (registros dados) (Some msgs)).

(** ** Clock-event handler (lines 211-245) *)

Definition info_inicial (nome : string) : Info :=
  mk_info (Some nome) (Some sem_hora) (Some sem_hora).

(** Lines 222-236 on the loaded [registros]. *)
Definition marca_ponto (date_str hora_str user_id nome tipo : string)
  (registros : Registros) : Registros :=
  let registros :=
    if dict_in date_str registros then registros
    else dict_set date_str [] registros in
  let usuarios := ou (dict_get date_str registros) [] in
  let usuarios :=
    if dict_in user_id usuarios then usuarios
    else dict_set user_id (info_inicial nome) usuarios in
  let info := ou (dict_get user_id usuarios) (info_inicial nome) in
  let info :=
    if (tipo =? "entrada")%string
    then mk_info (name info) (Some hora_str) (saida info)
    else mk_info (name info) (entrada info) (Some hora_str) in
  dict_set date_str (dict_set user_id info usuarios) registros.

Definition msg_conf (hora_str nome tipo : string) : string :=
  if (tipo =? "entrada")%string
  then "Entrada registrada para " ++ nome ++ " às **" ++ substring 11 5 hora_str ++ "**."
  else "Saída registrada para " ++ nome ++ " às **" ++ substring 11 5 hora_str ++ "**.".

(** Lines 212-239: load, stamp, save. *)
Definition gravar_ponto (agora : datetime) (user_id nome tipo : string) : M string :=
  let date_str := get_date_str agora in
  let hora_str := strftime_YmdHM agora in
  dados <- carregar_dados ;;
  let regs := ou (registros dados) [] in
  let regs := marca_ponto date_str hora_str user_id nome tipo regs in
  salvar_dados (mk_dados (Some regs) (mensagens dados)) ;;;
  ret (msg_conf hora_str nome tipo).

Definition registrar_ponto (agora : datetime) (user_id nome tipo : string) : M unit :=
  conf <- gravar_ponto agora user_id nome tipo ;;
  atualizar_mensagem_calendario (year agora) (month agora) ;;;
  responde conf.

(** ** Commands (lines 256-303) *)

Definition comando_ponto : M unit :=
  ctx_send "Controle de ponto - clique em **ENTRADA** ou **SAÍDA**:".

Definition comando_atualizar_calendario (agora : datetime) (ano mes : option Z) : M unit :=
  let ano := ou ano (year agora) in
  let mes := ou mes (month agora) in
  atualizar_mensagem_calendario ano mes ;;;
  nome_mes <- eleva (MESES_PT mes) ;;
  ctx_send ("Calendário de " ++ nome_mes ++ "/" ++ str_int ano ++ " atualizado.").

Definition comando_calendario (ano mes : Z) : M unit :=
  if (mes <? 1) || (12 <? mes) then
    ctx_send "Mês inválido. Use um valor entre 1 e 12. Ex.: `!calendario 2024 5`"
  else
    dados <- carregar_dados ;;
    let regs := ou (registros dados) [] in
    descricao <- eleva (renderizar_calendario ano mes regs) ;;
    nome_mes <- eleva (MESES_PT mes) ;;
    ctx_send_embed (mk_embed (titulo_calendario nome_mes ano) descricao).

(** ** The two buttons (lines 196-206) and the start-up event (lines 250-253) *)

Definition botao_entrada (agora : datetime) (user_id nome : string) : M unit :=
  registrar_ponto agora user_id nome "entrada".

Definition botao_saida (agora : datetime) (user_id nome : string) : M unit :=
  registrar_ponto agora user_id nome "saida".

Definition on_ready (bot_user : string) (bot_id : Z) : M unit :=
  registra (EvPrint ("Bot conectado como " ++ bot_user ++ " (ID: " ++ str_int bot_id ++ ")")) ;;;
  garantir_arquivo.

End Bot.

(** * Vocabulary of the properties *)

Definition dias_do_mes (year month : Z) : list Z :=
  (repeat 0 (Z.to_nat (weekday year month 1)) ++ range1 (monthlen year month)
   ++ repeat 0 (Z.to_nat ((0 - weekday year month 1 - monthlen year month) mod 7)))%list.

(** Calendar weeks (Monday to Sunday) that hold a day of the month. *)
Definition semanas_do_mes (year month : Z) : nat :=
  Z.to_nat ((weekday year month 1 + monthlen year month + 6) / 7).

(** A field of a grid row: three characters, blank or a day and a space. *)
Definition campo (c : string) : Prop :=
  String.length c = 3%nat
  /\ (c = "   " \/ exists d, 1 <= d <= 31 /\ c = fmt_d 2 d ++ " ").

(** A grid row: seven fields with one space between neighbours. *)
Definition linha_de_7_campos (r : string) : Prop :=
  exists campos,
    List.length campos = 7%nat /\ Forall campo campos /\ r = join " " campos.

(** [s] is not empty and starts with one of [cs]. *)
Definition comeca (cs : list ascii) (s : string) : Prop :=
  match s with
  | String c _ => In c cs
  | EmptyString => False
  end.

Definition inicio_de_campo : list ascii := [" "; "1"; "2"; "3"; "4"; "5"; "6"; "7"; "8"; "9"]%char.
Definition inicio_de_detalhe : list ascii := ["_"; "*"; "-"; ascii_of_nat 10]%char.

Definition celula_ok (d : Z) : bool :=
  (String.length (celula d) =? 3)%nat
  && match celula d with
     | String c _ => existsb (Ascii.eqb c) inicio_de_campo
     | EmptyString => false
     end.

(** The data file holds document [d]. *)
Definition guarda (w : Mundo) (d : Dados) : Prop := arquivo w = Some d.

(** [f"{year:04d}-{month:02d}"], the prefix that selects a month. *)
Definition chave_do_mes (year month : Z) : string :=
  fmt_0d 4 year ++ "-" ++ fmt_0d 2 month.

(** The rendering of May 2024 without records. *)
Definition maio_2024_vazio : string :=
  join nl
    [ "```";
      "Seg Ter Qua Qui Sex Sáb Dom";
      "         1   2   3   4   5 ";
      " 6   7   8   9  10  11  12 ";
      "13  14  15  16  17  18  19 ";
      "20  21  22  23  24  25  26 ";
      "27  28  29  30  31         ";
      "```";
      "_Ainda não há registros de ponto neste mês._" ].

(** [HH:MM] of a moment. *)
Definition hora_minuto (dt : datetime) : string :=
  fmt_0d 2 (hour dt) ++ ":" ++ fmt_0d 2 (minute dt).

(** [range(lo, lo + n)]. *)
Definition intervalo (lo : Z) (n : nat) : list Z := map (fun k => lo + Z.of_nat k) (seq 0 n).

Definition hora_minuto_ok (h m : Z) : bool :=
  let t := hora_minuto (mk_datetime 0 0 0 h m) in
  (slice_ate 5 t =? t)%string && negb (tem_espaco t).

(** The line the renderer writes for a user who clocked in at [dt] and has
    not clocked out. *)
Definition linha_so_entrada (nome : string) (dt : datetime) : string :=
  "- " ++ nome ++ ": entrada " ++ hora_minuto dt ++ " | saída --:--".

(** [m] keeps the invariant [I] of the world, whether it returns or raises,
    and what it returns satisfies [Q]. *)
Definition mantem {A} (I : Mundo -> Prop) (m : M A) (Q : A -> Prop) : Prop :=
  forall w, I w ->
    match m w with
    | (Ok a, w') => I w' /\ Q a
    | (Levanta _, w') => I w'
    end.

(** The world with one more event, another file, another channel. *)
Definition com_evento (ev : Evento) (w : Mundo) : Mundo :=
  mk_mundo (arquivo w) (canal_em_cache w) (canal_mensagens w)
           (proximo_id w) (falhas w) (eventos w ++ [ev]).

Definition com_arquivo (d : Dados) (w : Mundo) : Mundo :=
  mk_mundo (Some d) (canal_em_cache w) (canal_mensagens w)
           (proximo_id w) (falhas w) (eventos w).

Definition com_canal (ms : list (Z * Embed)) (prox : Z) (w : Mundo) : Mundo :=
  mk_mundo (arquivo w) (canal_em_cache w) ms prox (falhas w) (eventos w).

(** An invariant that no write to the platform or to the trace can break. *)
Record estavel (I : Mundo -> Prop) (evento_ok : Evento -> Prop) : Prop := mk_estavel
  { estavel_evento : forall ev w, evento_ok ev -> I w -> I (com_evento ev w);
    estavel_canal : forall ms prox w, I w -> I (com_canal ms prox w) }.

(** Events that are neither a log line nor a message to the user. *)
Definition silencioso (ev : Evento) : Prop :=
  match ev with
  | EvPrint _ | EvResposta _ | EvCtxSend _ | EvCtxSendEmbed _ => False
  | _ => True
  end.

(** The file holds a document whose records are [R]. *)
Definition guarda_registros (R : option Registros) (w : Mundo) : Prop :=
  exists d, guarda w d /\ registros d = R.

(** The record of [user_id] on [date_str], when there is one. *)
Definition registro_de (d : Dados) (date_str user_id : string) : option Info :=
  dict_get user_id (ou (dict_get date_str (ou (registros d) [])) []).

(** The document the handler saves at line 239. *)
Definition dados_marcados (agora : datetime) (user_id nome tipo : string) (d : Dados)
  : Dados :=
  mk_dados
    (Some (marca_ponto (get_date_str agora) (strftime_YmdHM agora) user_id nome tipo
             (ou (registros d) [])))
    (mensagens d).

(** The file holds records [R] and the trace grew from [ev0] by silent events. *)
Definition guarda_em_silencio (R : option Registros) (ev0 : list Evento) (w : Mundo)
  : Prop :=
  guarda_registros R w
  /\ exists evs, eventos w = (ev0 ++ evs)%list /\ Forall silencioso evs.

(** A fresh installation: no data file, the channel known and empty, and a
    platform that refuses nothing. *)
Definition mundo_novo : Mundo := mk_mundo None true [] 1000 sem_falhas [].

(** The same, with [canal.send] refused for lack of permission. *)
Definition mundo_sem_permissao : Mundo :=
  mk_mundo None true [] 1000 (mk_falhas None None None (Some Forbidden) None None) [].

Definition manha : datetime := mk_datetime 2025 11 28 9 0.
Definition tarde : datetime := mk_datetime 2025 11 28 18 5.

(** The platform refuses none of the calls of the publisher. *)
Definition plataforma_ok (w : Mundo) : Prop :=
  falha_fetch_channel (falhas w) = None
  /\ falha_fetch_message (falhas w) = None
  /\ falha_edit (falhas w) = None
  /\ falha_send (falhas w) = None.

(** Identifiers of new messages are fresh in the channel. *)
Definition ids_frescos (w : Mundo) : Prop :=
  forall id, proximo_id w <= id -> busca_mensagem id (canal_mensagens w) = None.

(** The world once the publisher holds the channel (lines 164-166). *)
Definition com_canal_obtido (w : Mundo) : Mundo :=
  if canal_em_cache w then w else com_evento EvFetchChannel w.

(** The messages created in the calendar channel by a stretch of the trace. *)
Fixpoint envios (evs : list Evento) : list (Z * Embed) :=
  match evs with
  | [] => []
  | EvCanalSend id embed :: r => (id, embed) :: envios r
  | _ :: r => envios r
  end.

(** The reference stored for a month. *)
Definition referencia (d : Dados) (year month : Z) : option MessageInfo :=
  dict_get (chave_do_mes year month) (ou (mensagens d) []).

(** What the publisher shows for a month. *)
Definition embed_do_mes (year month : Z) (d : Dados) : resultado Embed :=
  match renderizar_calendario year month (ou (registros d) []), MESES_PT month with
  | Ok descricao, Ok nome_mes => Ok (mk_embed (titulo_calendario nome_mes year) descricao)
  | Levanta e, _ => Levanta e
  | _, Levanta e => Levanta e
  end.

(** A world whose data file exists and is empty. *)
Definition mundo_novo_com_arquivo : Mundo :=
  mk_mundo (Some dados_vazios) true [] 1000 sem_falhas [].

(** The text of [!calendario] for a month outside 1..12. *)
Definition mes_invalido : string :=
  "Mês inválido. Use um valor entre 1 e 12. Ex.: `!calendario 2024 5`".

(** Events that are a message sent in reply to a command. *)
Definition resposta_de_comando (ev : Evento) : Prop :=
  match ev with
  | EvCtxSend _ | EvCtxSendEmbed _ => True
  | _ => False
  end.

(** The file holds a document with records [R] whose references, except the
    one of month key [chave], are those of [M]. *)
Definition guarda_outros_meses (R : option (list (string * list (string * Info))))
  (M : list (string * MessageInfo)) (chave : string) (w : Mundo) : Prop :=
  exists d,
    guarda w d /\ registros d = R
    /\ forall k, k <> chave -> dict_get k (ou (mensagens d) []) = dict_get k M.

(** A document whose reference for May 2024 names message 900. *)
Definition dados_maio : Dados :=
  mk_dados (Some []) (Some [("2024-05", mk_message_info (Some 900))]).

Definition embed_maio : Embed := mk_embed "Calendário de ponto - Maio/2024" maio_2024_vazio.

(** Worlds holding [dados_maio]: one where fetching a message is forbidden,
    one where message 900 exists and editing answers not-found. *)
Definition mundo_fetch_recusado : Mundo :=
  mk_mundo (Some dados_maio) true [] 1000
    (mk_falhas None (Some Forbidden) None None None None) [].

Definition mundo_edit_not_found : Mundo :=
  mk_mundo (Some dados_maio) true [(900, mk_embed "antigo" "")] 1000
    (mk_falhas None None (Some NotFound) None None None) [].

(** A date the calendar has: what [datetime] accepts. *)
Definition data_valida (dt : datetime) : Prop :=
  1 <= year dt <= 9999 /\ 1 <= month dt <= 12
  /\ 1 <= day dt <= monthlen (year dt) (month dt).

(** Checks run over the whole range of a field. *)
Definition ano_ok (y : Z) : bool :=
  match fmt_0d 4 y with
  | String a (String b (String c (String d EmptyString))) =>
      match digito_ascii a, digito_ascii b, digito_ascii c, digito_ascii d with
      | Some a, Some b, Some c, Some d => 10 * (10 * (10 * a + b) + c) + d =? y
      | _, _, _, _ => false
      end
  | _ => false
  end.

(** From year 1000 on, [%Y] and [{year:04d}] write the same four digits. *)
Definition ano_sem_zeros (y : Z) : bool := (str_int y =? fmt_0d 4 y)%string.

Definition dia_ok (d : Z) : bool :=
  match le_d (fmt_0d 2 d) with
  | (v, EmptyString) :: _ => v =? d
  | _ => false
  end.

Definition dois_digitos (n : Z) : bool :=
  match fmt_0d 2 n with
  | String a (String b EmptyString) =>
      match digito_ascii a, digito_ascii b with
      | Some x, Some y => 10 * x + y =? n
      | _, _ => false
      end
  | _ => false
  end.

(** The date keys of [regs] that the renderer of [(year, month)] parses. *)
Definition chave_no_mes (year month : Z) (regs : list (string * list (string * Info)))
  (k : string) : Prop :=
  In k (dict_keys regs) /\ startswith k (chave_do_mes year month) = true.

(** A moment the clock can show, in a year that [%Y] writes with four
    digits. *)
Definition momento_valido (dt : datetime) : Prop :=
  data_valida dt /\ 1000 <= year dt
  /\ 0 <= hour dt <= 23 /\ 0 <= minute dt <= 59.

(** The notice of line 156. *)
Definition aviso_sem_canal : string := "CALENDAR_CHANNEL_ID não configurado no .env.".

(** Events that write the data file or the calendar channel. *)
Definition escrita (ev : Evento) : Prop :=
  match ev with
  | EvArquivoEscrito _ | EvCanalSend _ _ | EvMsgEdit _ _ => True
  | _ => False
  end.

(** The confirmation of lines 233 and 236 with the time written out. *)
Definition confirmacao (agora : datetime) (nome tipo : string) : string :=
  (if (tipo =? "entrada")%string then "Entrada registrada para "
   else "Saída registrada para ")
  ++ nome ++ " às **" ++ hora_minuto agora ++ "**.".

(** The cells of the grid that show a day. *)
Definition dias_mostrados (weeks : list (list Z)) : list Z :=
  filter (fun d => negb (d =? 0)) (concat weeks).

(** The order of [sorted]: Python compares strings by code point, which is
    the order of their UTF-8 bytes. *)
Definition antes_ou_igual (a b : string) : Prop := String.leb a b = true.

(** The lines of one day (lines 128-141). *)
Definition bloco (month : Z) (rm : list (string * list (string * Info))) (k : string)
  : list string :=
  match strptime_Ymd k, dict_get k rm with
  | Ok dt, Some usuarios => linha_dia (day dt) month :: map linha_usuario usuarios
  | _, _ => []
  end.

(** Document [d] with one more reference, for a month that had none. *)
Definition com_referencia (d : Dados) (year month id : Z) : Dados :=
  mk_dados (registros d)
    (Some (ou (mensagens d) []
           ++ [(chave_do_mes year month, mk_message_info (Some id))])%list).

(** The month after [(year, month)]. *)
Definition mes_seguinte (year month : Z) : Z * Z :=
  if month =? 12 then (year + 1, 1) else (year, month + 1).

(** Blank cells before day 1 in the first week of a grid. *)
Fixpoint brancos_iniciais_semana (week : list Z) : Z :=
  match week with
  | 0 :: r => 1 + brancos_iniciais_semana r
  | _ => 0
  end.

Definition brancos_iniciais (weeks : list (list Z)) : Z :=
  brancos_iniciais_semana (hd [] weeks).

(** Days of the month in the last week of a grid. *)
Definition dias_na_ultima (weeks : list (list Z)) : Z :=
  Z.of_nat (List.length (filter (fun d => negb (d =? 0)) (last weeks []))).

Definition meses_encaixam (year month : Z) : bool :=
  let '(y', m') := mes_seguinte year month in
  match monthdayscalendar 0 year month, monthdayscalendar 0 y' m' with
  | Ok ws, Ok ws' => brancos_iniciais ws' =? dias_na_ultima ws mod 7
  | _, _ => false
  end.

(** Every character of [s] is an ASCII character. *)
Fixpoint so_ascii (s : string) : bool :=
  match s with
  | EmptyString => true
  | String c r => (N_of_ascii c <? 128)%N && so_ascii r
  end.

(** The lines of a text, [s.split("\n")]: the pieces between the line feeds
    with which the renderer joins its lines. *)
Fixpoint linhas_de (s : string) : list string :=
  match s with
  | EmptyString => [EmptyString]
  | String c r =>
      if Ascii.eqb c "010" then EmptyString :: linhas_de r
      else match linhas_de r with
           | l :: ls => String c l :: ls
           | [] => [String c EmptyString]
           end
  end.

(** ["\n" in s]. *)
Fixpoint tem_quebra (s : string) : bool :=
  match s with
  | EmptyString => false
  | String c r => if Ascii.eqb c "010" then true else tem_quebra r
  end.

(** No stored user id, name or time holds a line break. *)
Definition sem_quebras (regs : list (string * list (string * Info))) : Prop :=
  forall data usuarios user_id info,
    In (data, usuarios) regs -> In (user_id, info) usuarios ->
    tem_quebra user_id = false
    /\ tem_quebra (ou (name info) "") = false
    /\ tem_quebra (ou (entrada info) "") = false
    /\ tem_quebra (ou (saida info) "") = false.

(** The Gregorian calendar told without the tables of [calendar]: leap years,
    the days of a month, and the weekday of the first of the month by
    Zeller's congruence, with Monday as 0. *)
Definition bissexto (year : Z) : bool :=
  if year mod 400 =? 0 then true
  else if year mod 100 =? 0 then false
  else year mod 4 =? 0.

Definition dias_no_mes (year month : Z) : Z :=
  if month =? 2 then (if bissexto year then 29 else 28)
  else if (month =? 4) || (month =? 6) || (month =? 9) || (month =? 11) then 30
  else 31.

Definition primeiro_dia (year month : Z) : Z :=
  let m := if month <? 3 then month + 12 else month in
  let y := if month <? 3 then year - 1 else year in
  let K := y mod 100 in
  let J := y / 100 in
  (1 + 13 * (m + 1) / 5 + K + K / 4 + J / 4 + 5 * J + 5) mod 7.

(** Weeks from Monday to Sunday that hold a day of the month. *)
Definition semanas_do_calendario (year month : Z) : nat :=
  Z.to_nat ((primeiro_dia year month + dias_no_mes year month + 6) / 7).

Definition calendario_confere (year month : Z) : bool :=
  (weekday year month 1 =? primeiro_dia year month)
  && (monthlen year month =? dias_no_mes year month).

(** The start of a line of the detail part that is not empty. *)
Definition inicio_de_linha_de_detalhe : list ascii := ["_"; "*"; "-"]%char.

Definition linha_de_detalhe (l : string) : Prop :=
  l = "" \/ comeca inicio_de_linha_de_detalhe l.

(** February 2021 with one record whose stored name holds line breaks, the
    weekday header and the first row of the grid. *)
Definition nome_com_quebras : string :=
  "x" ++ nl ++ cabecalho ++ nl ++ " 1   2   3   4   5   6   7 " ++ nl ++ "y".

Definition registros_com_quebras : list (string * list (string * Info)) :=
  [("2021-02-01", [("42", mk_info (Some nome_com_quebras) None None)])].

(** How many lines of the text [s] are the line [l]. *)
Definition ocorrencias (l : string) (s : string) : nat :=
  List.length (filter (String.eqb l) (linhas_de s)).

(** * Properties *)

(** ** Lists and strings *)

Lemma In_fatia7 {A} (x : A) (l : list A) (i : nat) : In x (fatia7 l i) -> In x l.
Proof.
  unfold fatia7. intros H.
  rewrite <- (firstn_skipn i l). apply in_or_app. right.
  rewrite <- (firstn_skipn 7 (skipn i l)). apply in_or_app. now left.
Qed.

Lemma length_fatia7 {A} (l : list A) (k : nat) :
  (7 * k + 7 <= List.length l)%nat -> List.length (fatia7 l (7 * k)) = 7%nat.
Proof.
  intros H. unfold fatia7. rewrite length_firstn, length_skipn. lia.
Qed.

Lemma length_append (s t : string) :
  String.length (s ++ t) = (String.length s + String.length t)%nat.
Proof. induction s as [|c s IH]; simpl; [reflexivity | now rewrite IH]. Qed.

(** ** The month grid *)

Lemma weekday_bounds year month d : 0 <= weekday year month d < 7.
Proof. unfold weekday. apply Z.mod_pos_bound. lia. Qed.

Lemma monthlen_bounds year month :
  1 <= month <= 12 -> 28 <= monthlen year month <= 31.
Proof.
  intros H. unfold monthlen.
  assert (month = 1 \/ month = 2 \/ month = 3 \/ month = 4 \/ month = 5 \/ month = 6
          \/ month = 7 \/ month = 8 \/ month = 9 \/ month = 10 \/ month = 11
          \/ month = 12) as C by lia.
  repeat (destruct C as [-> | C]); try subst month; simpl;
    try destruct (isleap year); simpl; lia.
Qed.

Lemma itermonthdays_ok year month :
  1 <= month <= 12 -> itermonthdays 0 year month = Ok (dias_do_mes year month).
Proof.
  intros H. unfold itermonthdays, monthrange.
  replace ((1 <=? month) && (month <=? 12)) with true
    by (symmetry; apply andb_true_iff; split; apply Z.leb_le; lia).
  simpl. unfold dias_do_mes.
  rewrite Z.sub_0_r, (Z.mod_small (weekday year month 1)) by apply weekday_bounds.
  reflexivity.
Qed.

Lemma length_dias_do_mes year month :
  1 <= month <= 12 ->
  List.length (dias_do_mes year month) = (7 * semanas_do_mes year month)%nat.
Proof.
  intros H. unfold dias_do_mes, semanas_do_mes, range1.
  rewrite !length_app, !repeat_length, length_map, length_seq.
  pose proof (weekday_bounds year month 1) as Hw.
  pose proof (monthlen_bounds year month H) as Hn.
  set (w := weekday year month 1) in *. set (n := monthlen year month) in *.
  apply Nat2Z.inj. rewrite !Nat2Z.inj_add, Nat2Z.inj_mul, !Z2Nat.id.
  - change (Z.of_nat 7) with 7. Z.div_mod_to_equations. lia.
  - Z.div_mod_to_equations. lia.
  - apply Z.mod_pos_bound. lia.
  - lia.
  - lia.
Qed.

Lemma In_dias_do_mes year month d :
  1 <= month <= 12 -> In d (dias_do_mes year month) -> d = 0 \/ 1 <= d <= 31.
Proof.
  intros H Hin. unfold dias_do_mes in Hin.
  pose proof (monthlen_bounds year month H) as Hn.
  rewrite !in_app_iff in Hin. destruct Hin as [Hin | [Hin | Hin]].
  - left. now apply repeat_spec in Hin.
  - right. unfold range1 in Hin. apply in_map_iff in Hin.
    destruct Hin as [k [<- Hk]]. apply in_seq in Hk. lia.
  - left. now apply repeat_spec in Hin.
Qed.

Lemma monthdayscalendar_ok year month :
  1 <= month <= 12 ->
  exists weeks,
    monthdayscalendar 0 year month = Ok weeks
    /\ List.length weeks = semanas_do_mes year month
    /\ Forall (fun week => List.length week = 7%nat
                           /\ Forall (fun d => d = 0 \/ 1 <= d <= 31) week) weeks.
Proof.
  intros H. unfold monthdayscalendar. rewrite itermonthdays_ok by assumption.
  eexists. split; [reflexivity|].
  pose proof (length_dias_do_mes year month H) as Hlen.
  unfold range_de_7. rewrite Hlen.
  replace ((7 * semanas_do_mes year month + 6) / 7)%nat with (semanas_do_mes year month).
  2:{ apply Nat.div_unique with (r := 6%nat); lia. }
  split.
  - now rewrite !length_map, length_seq.
  - rewrite Forall_forall. intros week Hin.
    apply in_map_iff in Hin. destruct Hin as [i [<- Hi]].
    apply in_map_iff in Hi. destruct Hi as [k [<- Hk]]. apply in_seq in Hk.
    split.
    + apply length_fatia7. lia.
    + rewrite Forall_forall. intros d Hd.
      apply In_fatia7 in Hd. now apply In_dias_do_mes in Hd.
Qed.

Lemma In_range1 (d n : Z) : 1 <= d <= n -> In d (range1 n).
Proof.
  intros H. unfold range1. apply in_map_iff. exists (Z.to_nat d). split; [lia|].
  apply in_seq. lia.
Qed.

Lemma celula_ok_dia (d : Z) : d = 0 \/ 1 <= d <= 31 -> celula_ok d = true.
Proof.
  intros [-> | H]; [reflexivity|].
  assert (forallb celula_ok (range1 31) = true) as Hall by (vm_compute; reflexivity).
  rewrite forallb_forall in Hall. apply Hall, In_range1, H.
Qed.

Lemma celula_campo (d : Z) : d = 0 \/ 1 <= d <= 31 -> campo (celula d).
Proof.
  intros H. pose proof (celula_ok_dia d H) as Hok.
  unfold celula_ok in Hok. apply andb_true_iff in Hok. destruct Hok as [Hlen _].
  apply Nat.eqb_eq in Hlen. split; [exact Hlen|].
  destruct H as [-> | H]; [now left|].
  right. exists d. split; [exact H|]. unfold celula.
  destruct (Z.eqb_spec d 0); [lia | reflexivity].
Qed.

Lemma celula_comeca (d : Z) :
  d = 0 \/ 1 <= d <= 31 -> comeca inicio_de_campo (celula d).
Proof.
  intros H. pose proof (celula_ok_dia d H) as Hok.
  unfold celula_ok in Hok. apply andb_true_iff in Hok. destruct Hok as [_ Hc].
  unfold comeca. destruct (celula d) as [|c r]; [discriminate|].
  apply existsb_exists in Hc. destruct Hc as [x [Hx Heq]].
  apply Ascii.eqb_eq in Heq. now subst x.
Qed.

Lemma linha_semana_campos (week : list Z) :
  List.length week = 7%nat -> Forall (fun d => d = 0 \/ 1 <= d <= 31) week ->
  linha_de_7_campos (linha_semana week).
Proof.
  intros Hlen Hdias. exists (map celula week). split; [|split].
  - now rewrite length_map.
  - rewrite Forall_map. eapply Forall_impl; [|exact Hdias].
    intros d Hd. now apply celula_campo.
  - reflexivity.
Qed.

Lemma comeca_append cs s t : comeca cs s -> comeca cs (s ++ t).
Proof. destruct s; simpl; [contradiction | trivial]. Qed.

Lemma linha_de_7_campos_comeca (r : string) :
  linha_de_7_campos r -> comeca inicio_de_campo r.
Proof.
  intros [campos [Hlen [Hc ->]]].
  destruct campos as [|c [|c' campos]]; try discriminate.
  inversion Hc as [|? ? Hcampo _]; subst.
  unfold join. simpl. apply comeca_append.
  destruct Hcampo as [_ [-> | [d [Hd ->]]]].
  - simpl. now left.
  - pose proof (celula_comeca d (or_intror Hd)) as H. unfold celula in H.
    destruct (Z.eqb_spec d 0); [lia | exact H].
Qed.

Lemma detalhes_comeca month registros_mes datas ds :
  detalhes month registros_mes datas = Ok ds ->
  Forall (comeca inicio_de_detalhe) ds.
Proof.
  revert ds. induction datas as [|data_str resto IH]; intros ds H; simpl in H.
  - injection H as <-. constructor.
  - destruct (strptime_Ymd data_str) as [dt|]; [|discriminate].
    destruct (dict_get data_str registros_mes) as [usuarios|]; [|discriminate].
    destruct (detalhes month registros_mes resto) as [mais|]; [|discriminate].
    injection H as <-. constructor.
    + simpl. right. right. right. now left.
    + apply Forall_app. split; [|now apply IH].
      rewrite Forall_map. rewrite Forall_forall. intros [user_id info] _.
      simpl. right. right. now left.
Qed.

(** What [linhas] holds when the renderer returns. *)
Lemma linhas_calendario_forma year month regs linhas :
  linhas_calendario year month regs = Ok linhas ->
  exists weeks resto,
    monthdayscalendar 0 year month = Ok weeks
    /\ linhas = (cerca :: cabecalho :: map linha_semana weeks ++ cerca :: resto)%list
    /\ Forall (comeca inicio_de_detalhe) resto.
Proof.
  unfold linhas_calendario. intros H.
  destruct (monthdayscalendar 0 year month) as [weeks|]; [|discriminate].
  exists weeks.
  destruct (filtra_mes _ regs) as [|par registros_mes].
  - injection H as <-. exists [aviso_sem_registros]. split; [reflexivity|]. split.
    + unfold grade. simpl. now rewrite <- app_assoc.
    + constructor; [|constructor]. simpl. now left.
  - destruct (detalhes _ _ _) as [ds|] eqn:Hd; [|discriminate].
    injection H as <-. exists (titulo_registros :: ds). split; [reflexivity|]. split.
    + unfold grade. simpl. now rewrite <- app_assoc.
    + constructor; [simpl; right; now left|]. eapply detalhes_comeca, Hd.
Qed.

Lemma comeca_disjunto s :
  comeca inicio_de_campo s -> comeca inicio_de_detalhe s -> False.
Proof.
  destruct s as [|c r]; simpl; [trivial|].
  intros H1 H2.
  repeat (destruct H1 as [<- | H1]; [repeat (destruct H2 as [H2 | H2]; try discriminate H2); contradiction|]).
  contradiction.
Qed.

(** ** The renderer on a month without records *)

Lemma filtra_mes_nenhum (month_key : string) (regs : Registros) :
  (forall k, In k (dict_keys regs) -> startswith k month_key = false) ->
  filtra_mes month_key regs = [].
Proof.
  unfold filtra_mes. generalize (@nil (string * Usuarios)) as acc.
  induction regs as [|[k us] regs IH]; intros acc H; simpl; [reflexivity|].
  rewrite (H k) by (now left). apply IH. intros k' Hk'. apply H. now right.
Qed.

Lemma linhas_calendario_sem_registros (year month : Z) (regs : Registros) :
  1 <= month <= 12 ->
  (forall k, In k (dict_keys regs) -> startswith k (chave_do_mes year month) = false) ->
  exists weeks,
    monthdayscalendar 0 year month = Ok weeks
    /\ List.length weeks = semanas_do_mes year month
    /\ linhas_calendario year month regs
       = Ok (cerca :: cabecalho :: map linha_semana weeks ++ [cerca; aviso_sem_registros])%list.
Proof.
  intros Hm Hk.
  destruct (monthdayscalendar_ok year month Hm) as [weeks [Hw [Hlen _]]].
  exists weeks. split; [exact Hw|]. split; [exact Hlen|].
  unfold linhas_calendario. rewrite Hw.
  fold (chave_do_mes year month). rewrite filtra_mes_nenhum by exact Hk.
  unfold grade. simpl. now rewrite <- app_assoc.
Qed.

Lemma carregar_dados_guarda (w : Mundo) (d : Dados) :
  guarda w d ->
  carregar_dados w
  = (Ok d, mk_mundo (arquivo w) (canal_em_cache w) (canal_mensagens w)
                    (proximo_id w) (falhas w) (eventos w ++ [EvArquivoLido])).
Proof.
  unfold guarda. intros H.
  unfold carregar_dados, garantir_arquivo, bind, le_mundo, registra, ret. simpl.
  rewrite H. simpl. rewrite H. reflexivity.
Qed.

Lemma carregar_dados_ausente (w : Mundo) :
  arquivo w = None ->
  carregar_dados w
  = (Ok dados_vazios,
     mk_mundo (Some dados_vazios) (canal_em_cache w) (canal_mensagens w)
              (proximo_id w) (falhas w)
              (eventos w ++ [EvArquivoCriado; EvArquivoLido])).
Proof.
  intros H.
  unfold carregar_dados, garantir_arquivo, bind, le_mundo, registra, ret, poe_arquivo.
  simpl. rewrite H. simpl. now rewrite <- app_assoc.
Qed.

(** C7.  When no stored date key starts with the month's key (so for an
    empty store), the renderer does not raise: for a month in 1..12 and any
    year it returns the fence, the weekday header, one row per week, the fence
    and the fixed notice.  The command [!calendario 2024 5] on an empty store,
    absent or holding no record, raises nothing and sends exactly that text
    for May 2024 as the description of its embed. *)
Theorem calendario_sem_registros :
  (forall (year month : Z) (regs : Registros),
      1 <= month <= 12 ->
      (forall k, In k (dict_keys regs) ->
                 startswith k (chave_do_mes year month) = false) ->
      exists weeks,
        monthdayscalendar 0 year month = Ok weeks
        /\ List.length weeks = semanas_do_mes year month
        /\ renderizar_calendario year month regs
           = Ok (join nl (cerca :: cabecalho :: map linha_semana weeks
                               ++ [cerca; aviso_sem_registros])))
  /\ (forall (w : Mundo),
         arquivo w = None
         \/ (exists d, guarda w d /\ ou (registros d) [] = []) ->
         falha_ctx_send (falhas w) = None ->
         exists w',
           comando_calendario 2024 5 w = (Ok tt, w')
           /\ exists antes,
               eventos w'
               = (eventos w ++ antes
                    ++ [EvArquivoLido;
                        EvCtxSendEmbed
                          (mk_embed "Calendário de ponto - Maio/2024" maio_2024_vazio)])%list).
Proof.
  split.
  - intros year month regs Hm Hk.
    destruct (linhas_calendario_sem_registros year month regs Hm Hk)
      as [weeks [Hw [Hlen Hl]]].
    exists weeks. split; [exact Hw|]. split; [exact Hlen|].
    unfold renderizar_calendario. now rewrite Hl.
  - intros w Hvazio Hctx. unfold comando_calendario. simpl.
    destruct Hvazio as [Hnone | [d [Hd Hregs]]].
    + unfold bind at 1. rewrite carregar_dados_ausente by exact Hnone.
      eexists. split.
      * unfold bind, eleva, ctx_send_embed, chamada, bind, le_mundo, registra. simpl.
        rewrite Hctx. reflexivity.
      * exists [EvArquivoCriado]. simpl. rewrite <- !app_assoc. reflexivity.
    + unfold bind at 1. rewrite (carregar_dados_guarda w d Hd). rewrite Hregs.
      eexists. split.
      * unfold bind, eleva, ctx_send_embed, chamada, bind, le_mundo, registra. simpl.
        rewrite Hctx. reflexivity.
      * exists []. simpl. rewrite <- !app_assoc. reflexivity.
Qed.

Lemma calendario_sem_registros_witness :
  exists weeks,
    monthdayscalendar 0 2024 5 = Ok weeks
    /\ List.length weeks = semanas_do_mes 2024 5
    /\ renderizar_calendario 2024 5 [("2024-04-30", [])]
       = Ok (join nl (cerca :: cabecalho :: map linha_semana weeks
                           ++ [cerca; aviso_sem_registros])).
Proof.
  apply (proj1 calendario_sem_registros 2024 5 [("2024-04-30", [])]).
  - lia.
  - intros k [<- | []]. reflexivity.
Defined.

(** ** Stamped times *)

Lemma tem_espaco_append (s t : string) :
  tem_espaco (s ++ t) = tem_espaco s || tem_espaco t.
Proof.
  induction s as [|c s IH]; simpl; [reflexivity|].
  destruct (Ascii.eqb c " "); [reflexivity | exact IH].
Qed.

Lemma tem_espaco_repete_0 (n : nat) : tem_espaco (repete "0" n) = false.
Proof. induction n as [|n IH]; simpl; [reflexivity | exact IH]. Qed.

Lemma tem_espaco_uint (d : uint) : tem_espaco (NilEmpty.string_of_uint d) = false.
Proof. induction d; simpl; trivial. Qed.

Lemma tem_espaco_str_int (n : Z) : tem_espaco (str_int n) = false.
Proof.
  unfold str_int, NilZero.string_of_int, NilZero.string_of_uint.
  destruct (Z.to_int n) as [d | d]; destruct d; simpl; trivial; apply tem_espaco_uint.
Qed.

Lemma tem_espaco_fmt_0d (w : nat) (n : Z) : tem_espaco (fmt_0d w n) = false.
Proof.
  unfold fmt_0d. destruct (n <? 0); simpl;
    now rewrite tem_espaco_append, tem_espaco_repete_0, tem_espaco_str_int.
Qed.

Lemma tem_espaco_strftime_Ymd (dt : datetime) : tem_espaco (strftime_Ymd dt) = false.
Proof.
  unfold strftime_Ymd.
  rewrite !tem_espaco_append, !tem_espaco_fmt_0d, tem_espaco_str_int. reflexivity.
Qed.

Lemma split_espaco_sem_espaco (s : string) :
  tem_espaco s = false -> split_espaco s = [s].
Proof.
  induction s as [|c s IH]; simpl; [reflexivity|].
  destruct (Ascii.eqb c " "); [discriminate|]. intros H. now rewrite IH.
Qed.

Lemma split_espaco_append (s t : string) :
  tem_espaco s = false ->
  split_espaco (s ++ String " " t) = s :: split_espaco t.
Proof.
  induction s as [|c s IH]; simpl; [reflexivity|].
  destruct (Ascii.eqb c " "); [discriminate|]. intros H. now rewrite IH.
Qed.

Lemma In_intervalo (lo : Z) (n : nat) (x : Z) :
  lo <= x < lo + Z.of_nat n -> In x (intervalo lo n).
Proof.
  intros H. unfold intervalo. apply in_map_iff. exists (Z.to_nat (x - lo)).
  split; [lia|]. apply in_seq. lia.
Qed.

Lemma hora_minuto_ok_todos (h m : Z) :
  0 <= h <= 23 -> 0 <= m <= 59 -> hora_minuto_ok h m = true.
Proof.
  intros Hh Hm.
  assert (forallb (fun h => forallb (hora_minuto_ok h) (intervalo 0 60)) (intervalo 0 24)
          = true) as Hall by (vm_compute; reflexivity).
  rewrite forallb_forall in Hall.
  specialize (Hall h (In_intervalo 0 24 h ltac:(lia))).
  rewrite forallb_forall in Hall. apply Hall, In_intervalo. lia.
Qed.

(** Lines 137-138 on a time stamped by the handler: the hour and minute. *)
Lemma so_hora_carimbo (dt : datetime) :
  0 <= hour dt <= 23 -> 0 <= minute dt <= 59 ->
  so_hora (strftime_YmdHM dt) = hora_minuto dt.
Proof.
  intros Hh Hm. pose proof (hora_minuto_ok_todos _ _ Hh Hm) as Hok.
  unfold hora_minuto_ok in Hok. apply andb_true_iff in Hok.
  destruct Hok as [Hslice Hesp]. apply String.eqb_eq in Hslice.
  apply negb_true_iff in Hesp.
  change (hora_minuto (mk_datetime 0 0 0 (hour dt) (minute dt)))
    with (hora_minuto dt) in *.
  unfold so_hora, strftime_YmdHM. fold (hora_minuto dt).
  assert (tem_espaco (strftime_Ymd dt ++ " " ++ hora_minuto dt) = true) as Ht.
  { rewrite tem_espaco_append. simpl. apply orb_true_r. }
  rewrite Ht.
  destruct (String.eqb_spec (strftime_Ymd dt ++ " " ++ hora_minuto dt) sem_hora) as [E|_].
  - rewrite E in Ht. discriminate Ht.
  - simpl. change (" " ++ hora_minuto dt) with (String " " (hora_minuto dt)).
    rewrite split_espaco_append by apply tem_espaco_strftime_Ymd.
    rewrite split_espaco_sem_espaco by exact Hesp. simpl. exact Hslice.
Qed.

Lemma so_hora_sem_hora : so_hora sem_hora = sem_hora.
Proof. reflexivity. Qed.

(** ** Dictionaries *)

Section DictFacts.
Context {V : Type}.
Implicit Types (d : dict V) (k : string) (v : V).

Lemma dict_get_In k v d : dict_get k d = Some v -> In (k, v) d.
Proof.
  induction d as [|[k' v'] d IH]; simpl; [discriminate|].
  destruct (String.eqb_spec k' k) as [->|Hne].
  - intros [= ->]. now left.
  - intros H. right. now apply IH.
Qed.

Lemma dict_get_None k d : dict_get k d = None <-> ~ In k (dict_keys d).
Proof.
  induction d as [|[k' v'] d IH]; simpl.
  - split; [intros _ [] | reflexivity].
  - destruct (String.eqb_spec k' k) as [->|Hne].
    + split; [discriminate | intros H; exfalso; apply H; now left].
    + rewrite IH. split.
      * intros H [E | Hin]; [now apply Hne | now apply H].
      * intros H Hin. apply H. now right.
Qed.

Lemma In_dict_get k v d : dict_ok d -> In (k, v) d -> dict_get k d = Some v.
Proof.
  unfold dict_ok. induction d as [|[k' v'] d IH]; simpl; [intros _ []|].
  intros Hnd [E | Hin].
  - injection E as -> ->. now rewrite String.eqb_refl.
  - inversion Hnd as [|? ? Hnotin Hnd']; subst.
    destruct (String.eqb_spec k' k) as [->|Hne].
    + exfalso. apply Hnotin. apply in_map_iff. now exists (k, v).
    + now apply IH.
Qed.

Lemma dict_get_set_eq k v d : dict_get k (dict_set k v d) = Some v.
Proof.
  induction d as [|[k' v'] d IH]; simpl.
  - now rewrite String.eqb_refl.
  - destruct (String.eqb_spec k' k) as [->|Hne]; simpl.
    + now rewrite String.eqb_refl.
    + destruct (String.eqb_spec k' k); [contradiction | exact IH].
Qed.

Lemma dict_get_set_neq k k' v d :
  k' <> k -> dict_get k' (dict_set k v d) = dict_get k' d.
Proof.
  intros Hne. induction d as [|[k0 v0] d IH]; simpl.
  - destruct (String.eqb_spec k k'); [now subst | reflexivity].
  - destruct (String.eqb_spec k0 k) as [->|Hne0]; simpl.
    + destruct (String.eqb_spec k k'); [now subst | reflexivity].
    + destruct (String.eqb_spec k0 k'); [reflexivity | exact IH].
Qed.

Lemma dict_set_novo k v d :
  ~ In k (dict_keys d) -> dict_set k v d = (d ++ [(k, v)])%list.
Proof.
  induction d as [|[k' v'] d IH]; simpl; [reflexivity|].
  intros H. destruct (String.eqb_spec k' k) as [->|Hne].
  - exfalso. apply H. now left.
  - rewrite IH; [reflexivity|]. intros Hin. apply H. now right.
Qed.

Lemma dict_keys_set k v d :
  dict_keys (dict_set k v d)
  = if dict_in k d then dict_keys d else (dict_keys d ++ [k])%list.
Proof.
  unfold dict_in. induction d as [|[k' v'] d IH]; simpl; [reflexivity|].
  destruct (String.eqb_spec k' k) as [->|Hne]; simpl; [reflexivity|].
  rewrite IH. now destruct (dict_get k d).
Qed.

Lemma dict_ok_set k v d : dict_ok d -> dict_ok (dict_set k v d).
Proof.
  unfold dict_ok. intros H. rewrite dict_keys_set. unfold dict_in.
  destruct (dict_get k d) eqn:E; [exact H|].
  apply dict_get_None in E.
  apply NoDup_app; [exact H | repeat constructor; intros [] |].
  intros x Hx [<- | []]. contradiction.
Qed.
End DictFacts.

Lemma In_insere (x k : string) (l : list string) :
  In x (insere k l) <-> x = k \/ In x l.
Proof.
  induction l as [|y l IH]; simpl.
  - split; [intros [E | []]; now left | intros [E | []]; now left].
  - destruct (String.leb k y); simpl.
    + split; intros [E | H]; auto.
    + rewrite IH. split; intros H; decompose [or] H; auto.
Qed.

Lemma In_sorted (x : string) (l : list string) : In x (sorted l) <-> In x l.
Proof.
  induction l as [|y l IH]; simpl; [reflexivity|].
  rewrite In_insere, IH. split; intros [E | H]; auto.
Qed.

(** In a dictionary, the loop of lines 117-119 is a filter. *)
Lemma filtra_mes_filter (month_key : string) (regs : Registros) :
  dict_ok regs ->
  filtra_mes month_key regs
  = filter (fun '(data_str, _) => startswith data_str month_key) regs.
Proof.
  unfold filtra_mes.
  enough (forall acc : Registros,
             NoDup (dict_keys acc ++ dict_keys regs) ->
             fold_left (fun acc '(data_str, usuarios) =>
                          if startswith data_str month_key
                          then dict_set data_str usuarios acc else acc) regs acc
             = (acc ++ filter (fun '(data_str, _) => startswith data_str month_key) regs)%list)
    as H by (intros Hok; now apply (H [])).
  induction regs as [|[k us] regs IH]; intros acc Hnd; simpl.
  - now rewrite app_nil_r.
  - simpl in Hnd. destruct (startswith k month_key).
    + rewrite dict_set_novo.
      2:{ apply NoDup_remove_2 in Hnd. intros Hin. apply Hnd, in_or_app. now left. }
      rewrite IH.
      * now rewrite <- app_assoc.
      * unfold dict_keys. rewrite map_app. simpl. rewrite <- app_assoc. exact Hnd.
    + apply IH. now apply NoDup_remove_1 in Hnd.
Qed.

Lemma dict_ok_filter {V} (p : string * V -> bool) (d : dict V) :
  dict_ok d -> dict_ok (filter p d).
Proof.
  unfold dict_ok, dict_keys. induction d as [|[k v] d IH]; simpl; [trivial|].
  intros H. inversion H as [|? ? Hnotin Hnd]; subst.
  destruct (p (k, v)); simpl; [|now apply IH].
  constructor; [|now apply IH].
  intros Hin. apply Hnotin. apply in_map_iff in Hin. destruct Hin as [[k' v'] [E Hin]].
  apply filter_In in Hin. apply in_map_iff. exists (k', v'). tauto.
Qed.

(** The loop of lines 127-141 writes the line of every user of every date. *)
Lemma detalhes_In month registros_mes datas ds data_str usuarios u :
  detalhes month registros_mes datas = Ok ds ->
  In data_str datas -> dict_get data_str registros_mes = Some usuarios ->
  In u usuarios ->
  In (linha_usuario u) ds.
Proof.
  revert ds. induction datas as [|d resto IH]; intros ds H Hin Hget Hu; [destruct Hin|].
  simpl in H.
  destruct (strptime_Ymd d) as [dt|]; [|discriminate].
  destruct (dict_get d registros_mes) as [us|] eqn:Hd; [|discriminate].
  destruct (detalhes month registros_mes resto) as [mais|]; [|discriminate].
  injection H as <-. right. apply in_or_app.
  destruct (String.eqb_spec d data_str) as [->|Hne].
  - left. rewrite Hget in Hd. injection Hd as <-. now apply in_map.
  - right. apply IH; trivial. destruct Hin as [E | Hin]; [contradiction | exact Hin].
Qed.

Lemma linhas_calendario_In year month regs linhas data_str usuarios u :
  dict_ok regs ->
  In (data_str, usuarios) regs ->
  startswith data_str (chave_do_mes year month) = true ->
  In u usuarios ->
  linhas_calendario year month regs = Ok linhas ->
  In (linha_usuario u) linhas.
Proof.
  intros Hok Hin Hpre Hu H. unfold linhas_calendario in H.
  destruct (monthdayscalendar 0 year month) as [weeks|]; [|discriminate].
  fold (chave_do_mes year month) in H.
  rewrite filtra_mes_filter in H by exact Hok.
  match type of H with
  | context [filter ?f regs] => set (rm := filter f regs) in *
  end.
  assert (In (data_str, usuarios) rm) as Hrm.
  { apply filter_In. split; [exact Hin | exact Hpre]. }
  assert (dict_ok rm) as Hokrm by (now apply dict_ok_filter).
  clearbody rm.
  assert (exists par rm', rm = par :: rm') as [par [rm' Erm]]
    by (destruct rm as [|par rm']; [destruct Hrm | eauto]).
  rewrite Erm in H at 1.
  destruct (detalhes month rm (sorted (dict_keys rm))) as [ds|] eqn:Hd; [|discriminate].
  injection H as <-. apply (in_or_app (grade weeks)). right. right.
  eapply detalhes_In; [exact Hd | | | exact Hu].
  - apply In_sorted. apply in_map_iff. now exists (data_str, usuarios).
  - now apply In_dict_get.
Qed.

Lemma marca_ponto_vazio (date_str hora_str user_id nome : string) :
  marca_ponto date_str hora_str user_id nome "entrada" []
  = [(date_str, [(user_id, mk_info (Some nome) (Some hora_str) (Some sem_hora))])].
Proof.
  unfold marca_ponto. simpl. rewrite !String.eqb_refl. simpl.
  rewrite !String.eqb_refl. reflexivity.
Qed.

(** C8.  A record whose entry was stamped at [dt] by the handler (the text
    [YYYY-MM-DD HH:MM]) and whose exit is the placeholder [--:--], or missing,
    is rendered in its month as the line
    [- name: entrada HH:MM | saída --:--].  Concretely, after user alice
    clocks in at 2025-11-28 09:00 on an empty store, the rendering of
    November 2025 from the stored records ends with the line
    [- alice: entrada 09:00 | saída --:--]. *)
Theorem renderizar_so_entrada :
  (forall (year month : Z) (regs : Registros) (data_str : string)
          (usuarios : Usuarios) (user_id : string) (info : Info)
          (dt : datetime) (s : string),
      dict_ok regs ->
      In (data_str, usuarios) regs -> In (user_id, info) usuarios ->
      startswith data_str (chave_do_mes year month) = true ->
      0 <= hour dt <= 23 -> 0 <= minute dt <= 59 ->
      entrada info = Some (strftime_YmdHM dt) ->
      saida info = Some sem_hora \/ saida info = None ->
      renderizar_calendario year month regs = Ok s ->
      exists antes depois,
        s = join nl (antes ++ linha_so_entrada (ou (name info) user_id) dt :: depois))
  /\ (forall (w : Mundo) (user_id : string),
         arquivo w = None ->
         exists conf w' d antes,
           gravar_ponto (mk_datetime 2025 11 28 9 0) user_id "alice" "entrada" w
           = (Ok conf, w')
           /\ guarda w' d
           /\ renderizar_calendario 2025 11 (ou (registros d) [])
              = Ok (join nl (antes ++ ["- alice: entrada 09:00 | saída --:--"]))).
Proof.
  split.
  - intros year month regs data_str usuarios user_id info dt s
           Hok Hin Hu Hpre Hh Hm He Hs H.
    unfold renderizar_calendario in H.
    destruct (linhas_calendario year month regs) as [linhas|] eqn:Hl; [|discriminate].
    injection H as <-.
    pose proof (linhas_calendario_In _ _ _ _ _ _ _ Hok Hin Hpre Hu Hl) as Hlinha.
    assert (linha_usuario (user_id, info)
            = linha_so_entrada (ou (name info) user_id) dt) as E.
    { unfold linha_usuario, linha_so_entrada. rewrite He. simpl ou.
      rewrite so_hora_carimbo by assumption.
      destruct Hs as [-> | ->]; reflexivity. }
    rewrite E in Hlinha. apply in_split in Hlinha.
    destruct Hlinha as [antes [depois ->]]. now exists antes, depois.
  - intros w user_id Hnone. unfold gravar_ponto.
    unfold bind at 1. rewrite carregar_dados_ausente by exact Hnone.
    change (ou (registros dados_vazios) []) with (@nil (string * Usuarios)).
    rewrite marca_ponto_vazio.
    do 3 eexists.
    exists [ cerca; cabecalho;
             "                     1   2 "; " 3   4   5   6   7   8   9 ";
             "10  11  12  13  14  15  16 "; "17  18  19  20  21  22  23 ";
             "24  25  26  27  28  29  30 "; cerca; titulo_registros;
             nl ++ "__Dia 28/11__" ].
    split; [reflexivity|]. split; [reflexivity|]. reflexivity.
Qed.

Lemma renderizar_so_entrada_witness :
  exists antes depois,
    "```" ++ nl ++ "Seg Ter Qua Qui Sex Sáb Dom" ++ nl
      ++ "                     1   2 " ++ nl ++ " 3   4   5   6   7   8   9 " ++ nl
      ++ "10  11  12  13  14  15  16 " ++ nl ++ "17  18  19  20  21  22  23 " ++ nl
      ++ "24  25  26  27  28  29  30 " ++ nl ++ "```" ++ nl
      ++ "**Registros de ponto por dia:**" ++ nl ++ nl ++ "__Dia 28/11__" ++ nl
      ++ "- alice: entrada 09:00 | saída --:--"
    = join nl (antes
               ++ linha_so_entrada "alice" (mk_datetime 2025 11 28 9 0) :: depois).
Proof.
  apply (proj1 renderizar_so_entrada 2025 11
           [("2025-11-28",
             [("42", mk_info (Some "alice") (Some "2025-11-28 09:00") (Some "--:--"))])]
           "2025-11-28"
           [("42", mk_info (Some "alice") (Some "2025-11-28 09:00") (Some "--:--"))]
           "42" (mk_info (Some "alice") (Some "2025-11-28 09:00") (Some "--:--"))
           (mk_datetime 2025 11 28 9 0)).
  - repeat constructor. simpl. tauto.
  - now left.
  - now left.
  - reflexivity.
  - simpl; lia.
  - simpl; lia.
  - reflexivity.
  - now left.
  - reflexivity.
Defined.

(** ** Invariants of handlers *)

Section Mantem.
Context (I : Mundo -> Prop).

Lemma mantem_ret {A} (a : A) (Q : A -> Prop) : Q a -> mantem I (ret a) Q.
Proof. intros H w Hw. simpl. auto. Qed.

Lemma mantem_levanta {A} (e : excecao) (Q : A -> Prop) : mantem I (levanta e) Q.
Proof. intros w Hw. exact Hw. Qed.

Lemma mantem_eleva {A} (r : resultado A) (Q : A -> Prop) :
  (forall a, r = Ok a -> Q a) -> mantem I (eleva r) Q.
Proof. intros H w Hw. unfold eleva. destruct r; auto. Qed.

Lemma mantem_bind {A B} (m : M A) (k : A -> M B) (Q : A -> Prop) (R : B -> Prop) :
  mantem I m Q -> (forall a, Q a -> mantem I (k a) R) -> mantem I (bind m k) R.
Proof.
  intros Hm Hk w Hw. unfold bind. specialize (Hm w Hw).
  destruct (m w) as [[a|e] w']; [|exact Hm].
  destruct Hm as [Hw' Ha]. exact (Hk a Ha w' Hw').
Qed.

Lemma mantem_fraco {A} (m : M A) (Q Q' : A -> Prop) :
  mantem I m Q -> (forall a, Q a -> Q' a) -> mantem I m Q'.
Proof.
  intros Hm HQ w Hw. specialize (Hm w Hw).
  destruct (m w) as [[a|e] w']; [|exact Hm]. destruct Hm. auto.
Qed.

Lemma mantem_le_mundo : mantem I le_mundo I.
Proof. intros w Hw. simpl. auto. Qed.

Lemma mantem_chamada {A} (falha : Falhas -> option excecao) (m : M A) (Q : A -> Prop) :
  mantem I m Q -> mantem I (chamada falha m) Q.
Proof.
  intros Hm w Hw. unfold chamada, bind, le_mundo.
  destruct (falha (falhas w)); [exact Hw | exact (Hm w Hw)].
Qed.

Lemma mantem_tenta_not_found (m : M unit) (Q : unit -> Prop) :
  mantem I m Q -> mantem I (tenta_not_found m) (fun _ => True).
Proof.
  intros Hm w Hw. unfold tenta_not_found. specialize (Hm w Hw).
  destruct (m w) as [[a|e] w']; [tauto|]. destruct e; auto.
Qed.

Context (evento_ok : Evento -> Prop) (HI : estavel I evento_ok).

Lemma mantem_registra (ev : Evento) :
  evento_ok ev -> mantem I (registra ev) (fun _ => True).
Proof. intros Hev w Hw. simpl. split; [|trivial]. now apply (estavel_evento _ _ HI). Qed.

Lemma mantem_poe_canal ms prox : mantem I (poe_canal ms prox) (fun _ => True).
Proof. intros w Hw. simpl. split; [|trivial]. now apply (estavel_canal _ _ HI). Qed.

Lemma mantem_obter_canal :
  evento_ok EvFetchChannel -> mantem I obter_canal (fun _ => True).
Proof.
  intros Hev. unfold obter_canal.
  eapply mantem_bind; [apply mantem_le_mundo|]. intros w _.
  destruct (canal_em_cache w); [now apply mantem_ret|].
  now apply mantem_chamada, mantem_registra.
Qed.

Lemma mantem_fetch_message id :
  evento_ok (EvFetchMessage id) -> mantem I (fetch_message id) (fun _ => True).
Proof.
  intros Hev. unfold fetch_message. apply mantem_chamada.
  eapply mantem_bind; [now apply mantem_registra|]. intros _ _.
  eapply mantem_bind; [apply mantem_le_mundo|]. intros w _.
  destruct (busca_mensagem id (canal_mensagens w));
    [now apply mantem_ret | apply mantem_levanta].
Qed.

Lemma mantem_msg_edit id embed :
  evento_ok (EvMsgEdit id embed) -> mantem I (msg_edit id embed) (fun _ => True).
Proof.
  intros Hev. unfold msg_edit. apply mantem_chamada.
  eapply mantem_bind; [apply mantem_le_mundo|]. intros w _.
  destruct (busca_mensagem id (canal_mensagens w)); [|apply mantem_levanta].
  eapply mantem_bind; [apply mantem_poe_canal|]. intros _ _.
  now apply mantem_registra.
Qed.

Lemma mantem_canal_send embed :
  (forall id, evento_ok (EvCanalSend id embed)) ->
  mantem I (canal_send embed) (fun _ => True).
Proof.
  intros Hev. unfold canal_send. apply mantem_chamada.
  eapply mantem_bind; [apply mantem_le_mundo|]. intros w _.
  eapply mantem_bind; [apply mantem_poe_canal|]. intros _ _.
  eapply mantem_bind; [now apply mantem_registra|]. intros _ _.
  now apply mantem_ret.
Qed.
End Mantem.

(** ** Persistence *)

Lemma carregar_dados_inv (w w0 : Mundo) (d : Dados) :
  carregar_dados w = (Ok d, w0) ->
  guarda w0 d
  /\ canal_em_cache w0 = canal_em_cache w /\ canal_mensagens w0 = canal_mensagens w
  /\ proximo_id w0 = proximo_id w /\ falhas w0 = falhas w
  /\ (exists evs, eventos w0 = (eventos w ++ evs)%list /\ Forall silencioso evs).
Proof.
  destruct (arquivo w) as [d0|] eqn:Ha.
  - rewrite (carregar_dados_guarda w d0 Ha). intros [= <- <-]. simpl.
    repeat split; trivial. exists [EvArquivoLido]. split; [reflexivity|].
    repeat constructor.
  - rewrite (carregar_dados_ausente w Ha). intros [= <- <-]. simpl.
    repeat split; trivial. exists [EvArquivoCriado; EvArquivoLido].
    split; [reflexivity|]. repeat constructor.
Qed.

Lemma carregar_dados_nao_levanta (w : Mundo) :
  exists d w0, carregar_dados w = (Ok d, w0).
Proof.
  destruct (arquivo w) as [d0|] eqn:Ha.
  - rewrite (carregar_dados_guarda w d0 Ha). eauto.
  - rewrite (carregar_dados_ausente w Ha). eauto.
Qed.

Lemma salvar_dados_eq (d : Dados) (w : Mundo) :
  salvar_dados d w = (Ok tt, com_evento (EvArquivoEscrito d) (com_arquivo d w)).
Proof. reflexivity. Qed.

Lemma guarda_salvar (d : Dados) (w : Mundo) :
  guarda (com_evento (EvArquivoEscrito d) (com_arquivo d w)) d.
Proof. reflexivity. Qed.

(** ** The record write of the clock-event handler *)

Lemma gravar_ponto_eq (agora : datetime) (user_id nome tipo : string)
  (w w0 : Mundo) (d : Dados) :
  carregar_dados w = (Ok d, w0) ->
  gravar_ponto agora user_id nome tipo w
  = (Ok (msg_conf (strftime_YmdHM agora) nome tipo),
     let d' := dados_marcados agora user_id nome tipo d in
     com_evento (EvArquivoEscrito d') (com_arquivo d' w0)).
Proof.
  intros H. unfold gravar_ponto, bind. rewrite H. reflexivity.
Qed.

Lemma dict_get_garantido {V} (k : string) (v : V) (d : dict V) :
  dict_get k (if dict_in k d then d else dict_set k v d) = Some (ou (dict_get k d) v).
Proof.
  unfold dict_in. destruct (dict_get k d) as [x|] eqn:E; simpl; [exact E|].
  apply dict_get_set_eq.
Qed.

Lemma dict_get_garantido_outro {V} (k k' : string) (v : V) (d : dict V) :
  k' <> k -> dict_get k' (if dict_in k d then d else dict_set k v d) = dict_get k' d.
Proof.
  intros Hne. destruct (dict_in k d); [reflexivity|]. now apply dict_get_set_neq.
Qed.

(** Lines 222-236, read back through lookups. *)
Lemma marca_ponto_spec (date_str hora_str user_id nome tipo : string) (regs : Registros) :
  let usuarios := ou (dict_get date_str regs) [] in
  let base := ou (dict_get user_id usuarios) (info_inicial nome) in
  let info' := if (tipo =? "entrada")%string
               then mk_info (name base) (Some hora_str) (saida base)
               else mk_info (name base) (entrada base) (Some hora_str) in
  let regs' := marca_ponto date_str hora_str user_id nome tipo regs in
  (forall k, k <> date_str -> dict_get k regs' = dict_get k regs)
  /\ exists usuarios',
      dict_get date_str regs' = Some usuarios'
      /\ (forall u, u <> user_id -> dict_get u usuarios' = dict_get u usuarios)
      /\ dict_get user_id usuarios' = Some info'.
Proof.
  intros usuarios base info' regs'. subst regs'. unfold marca_ponto. cbv zeta.
  rewrite (dict_get_garantido date_str). cbn [ou]. fold usuarios.
  rewrite (dict_get_garantido user_id). cbn [ou]. fold base.
  fold info'.
  split.
  - intros k Hk. rewrite dict_get_set_neq by exact Hk.
    now apply dict_get_garantido_outro.
  - eexists. split; [apply dict_get_set_eq|]. split.
    + intros u Hu. rewrite dict_get_set_neq by exact Hu.
      now apply dict_get_garantido_outro.
    + apply dict_get_set_eq.
Qed.

Lemma gravar_ponto_efeito (w w0 : Mundo) (d : Dados) (agora : datetime)
  (user_id nome tipo : string) :
  carregar_dados w = (Ok d, w0) ->
  let date_str := get_date_str agora in
  let hora_str := strftime_YmdHM agora in
  let base := ou (registro_de d date_str user_id) (info_inicial nome) in
  exists conf w' d',
    gravar_ponto agora user_id nome tipo w = (Ok conf, w')
    /\ guarda w' d'
    /\ mensagens d' = mensagens d
    /\ (forall k, k <> date_str ->
                  dict_get k (ou (registros d') []) = dict_get k (ou (registros d) []))
    /\ (forall u, u <> user_id ->
                  registro_de d' date_str u = registro_de d date_str u)
    /\ exists info',
        registro_de d' date_str user_id = Some info'
        /\ name info' = name base
        /\ (tipo = "entrada" ->
            entrada info' = Some hora_str /\ saida info' = saida base)
        /\ (tipo = "saida" ->
            saida info' = Some hora_str /\ entrada info' = entrada base)
        /\ (registro_de d date_str user_id = None ->
            name base = Some nome /\ entrada base = Some sem_hora
            /\ saida base = Some sem_hora).
Proof.
  intros H date_str hora_str base.
  rewrite (gravar_ponto_eq agora user_id nome tipo w w0 d H).
  do 3 eexists. split; [reflexivity|]. split; [apply guarda_salvar|].
  unfold dados_marcados, registro_de. simpl registros. simpl mensagens. simpl ou.
  destruct (marca_ponto_spec date_str hora_str user_id nome tipo (ou (registros d) []))
    as [Houtros [usuarios' [Hdata [Hus Hinfo]]]].
  fold date_str hora_str. split; [reflexivity|]. split; [exact Houtros|].
  rewrite Hdata. simpl ou. split; [exact Hus|].
  eexists. split; [exact Hinfo|].
  fold (registro_de d date_str user_id). fold base.
  split; [now destruct (tipo =? "entrada")%string|].
  split; [intros ->; simpl; tauto|].
  split; [intros ->; simpl; tauto|].
  intros Hnone. unfold base. rewrite Hnone. simpl. tauto.
Qed.

(** C10.  Frame of the record write (lines 211-239).  When the load returns
    document [d], the handler saves a document [d'] that differs from [d] only
    in the record of [(date, user)]: the [mensagens] mapping is the same,
    every other date looks up the same, every other user of the date looks up
    the same, and the record of the user has the stamped field overwritten
    while its name and its other time are those of the record it had, or the
    display name and the placeholder when it had none. *)
Theorem gravar_ponto_moldura (w w0 : Mundo) (d : Dados) (agora : datetime)
  (user_id nome tipo : string) :
  carregar_dados w = (Ok d, w0) ->
  let date_str := get_date_str agora in
  let hora_str := strftime_YmdHM agora in
  let base := ou (registro_de d date_str user_id) (info_inicial nome) in
  exists conf w' d',
    gravar_ponto agora user_id nome tipo w = (Ok conf, w')
    /\ guarda w' d'
    /\ mensagens d' = mensagens d
    /\ (forall k, k <> date_str ->
                  dict_get k (ou (registros d') []) = dict_get k (ou (registros d) []))
    /\ (forall u, u <> user_id ->
                  registro_de d' date_str u = registro_de d date_str u)
    /\ exists info',
        registro_de d' date_str user_id = Some info'
        /\ name info' = name base
        /\ (tipo = "entrada" ->
            entrada info' = Some hora_str /\ saida info' = saida base)
        /\ (tipo = "saida" ->
            saida info' = Some hora_str /\ entrada info' = entrada base)
        /\ (registro_de d date_str user_id = None ->
            name base = Some nome /\ entrada base = Some sem_hora
            /\ saida base = Some sem_hora).
Proof.
  intros H date_str hora_str base.
  rewrite (gravar_ponto_eq agora user_id nome tipo w w0 d H).
  do 3 eexists. split; [reflexivity|]. split; [apply guarda_salvar|].
  unfold dados_marcados, registro_de. simpl registros. simpl mensagens. simpl ou.
  destruct (marca_ponto_spec date_str hora_str user_id nome tipo (ou (registros d) []))
    as [Houtros [usuarios' [Hdata [Hus Hinfo]]]].
  fold date_str hora_str. split; [reflexivity|]. split; [exact Houtros|].
  rewrite Hdata. simpl ou. split; [exact Hus|].
  eexists. split; [exact Hinfo|].
  fold (registro_de d date_str user_id). fold base.
  split; [now destruct (tipo =? "entrada")%string|].
  split; [intros ->; simpl; tauto|].
  split; [intros ->; simpl; tauto|].
  intros Hnone. unfold base. rewrite Hnone. simpl. tauto.
Qed.

Lemma gravar_ponto_moldura_witness :
  exists conf w' d',
    gravar_ponto (mk_datetime 2025 11 28 9 0) "42" "alice" "entrada"
      (mk_mundo None true [] 1000 sem_falhas []) = (Ok conf, w')
    /\ guarda w' d'
    /\ mensagens d' = mensagens dados_vazios
    /\ (forall k, k <> "2025-11-28" ->
                  dict_get k (ou (registros d') [])
                  = dict_get k (ou (registros dados_vazios) []))
    /\ (forall u, u <> "42" ->
                  registro_de d' "2025-11-28" u = registro_de dados_vazios "2025-11-28" u)
    /\ exists info',
        registro_de d' "2025-11-28" "42" = Some info'
        /\ name info' = Some "alice"
        /\ ("entrada" = "entrada" ->
            entrada info' = Some "2025-11-28 09:00" /\ saida info' = Some sem_hora)
        /\ ("entrada" = "saida" ->
            saida info' = Some "2025-11-28 09:00" /\ entrada info' = Some sem_hora)
        /\ (registro_de dados_vazios "2025-11-28" "42" = None ->
            Some "alice" = Some "alice" /\ Some sem_hora = Some sem_hora
            /\ Some sem_hora = Some sem_hora).
Proof.
  apply (gravar_ponto_moldura (mk_mundo None true [] 1000 sem_falhas [])
           (mk_mundo (Some dados_vazios) true [] 1000 sem_falhas
              [EvArquivoCriado; EvArquivoLido])
           dados_vazios
           (mk_datetime 2025 11 28 9 0) "42" "alice" "entrada").
  reflexivity.
Defined.

(** ** The publisher leaves the records alone *)

Lemma estavel_guarda_registros (R : option Registros) :
  estavel (guarda_registros R) (fun _ => True).
Proof. split; intros; assumption. Qed.

Lemma estavel_guarda_em_silencio (R : option Registros) (ev0 : list Evento) :
  estavel (guarda_em_silencio R ev0) silencioso.
Proof.
  split.
  - intros ev w Hev [Hg [evs [He Hs]]]. split; [exact Hg|].
    exists (evs ++ [ev])%list. simpl. rewrite He, <- app_assoc. split; [reflexivity|].
    apply Forall_app. split; [exact Hs | now constructor].
  - intros ms prox w H. exact H.
Qed.

Lemma mantem_carregar_registros (R : option Registros) :
  mantem (guarda_registros R) carregar_dados (fun d => registros d = R).
Proof.
  intros w [d [Hg HR]]. rewrite (carregar_dados_guarda w d Hg).
  split; [|exact HR]. now exists d.
Qed.

Lemma mantem_salvar_registros (R : option Registros) (d : Dados) :
  registros d = R -> mantem (guarda_registros R) (salvar_dados d) (fun _ => True).
Proof.
  intros HR w _. rewrite salvar_dados_eq. split; [|trivial].
  exists d. split; [apply guarda_salvar | exact HR].
Qed.

Lemma mantem_carregar_em_silencio (R : option Registros) (ev0 : list Evento) :
  mantem (guarda_em_silencio R ev0) carregar_dados (fun d => registros d = R).
Proof.
  intros w [[d [Hg HR]] [evs [He Hs]]]. rewrite (carregar_dados_guarda w d Hg).
  split; [|exact HR]. split; [now exists d|].
  exists (evs ++ [EvArquivoLido])%list. simpl. rewrite He, <- app_assoc.
  split; [reflexivity|]. apply Forall_app. split; [exact Hs | now repeat constructor].
Qed.

Lemma mantem_salvar_em_silencio (R : option Registros) (ev0 : list Evento) (d : Dados) :
  registros d = R -> mantem (guarda_em_silencio R ev0) (salvar_dados d) (fun _ => True).
Proof.
  intros HR w [_ [evs [He Hs]]]. rewrite salvar_dados_eq. split; [|trivial]. split.
  - exists d. split; [apply guarda_salvar | exact HR].
  - exists (evs ++ [EvArquivoEscrito d])%list. simpl. rewrite He, <- app_assoc.
    split; [reflexivity|]. apply Forall_app. split; [exact Hs | now repeat constructor].
Qed.

(** Lines 159-191 keep every invariant that loading, saving the same records
    and silent events keep. *)
Lemma mantem_atualizar (I : Mundo -> Prop) (evento_ok : Evento -> Prop)
  (R : option Registros) (cid year month : Z) :
  estavel I evento_ok ->
  (forall ev, silencioso ev -> evento_ok ev) ->
  cid <> 0 ->
  mantem I carregar_dados (fun d => registros d = R) ->
  (forall d, registros d = R -> mantem I (salvar_dados d) (fun _ => True)) ->
  mantem I (atualizar_mensagem_calendario cid year month) (fun _ => True).
Proof.
  intros HI Hev Hcid Hload Hsave. unfold atualizar_mensagem_calendario.
  destruct (Z.eqb_spec cid 0) as [E|_]; [contradiction|].
  eapply mantem_bind; [exact Hload|]. intros dados Hdados.
  eapply mantem_bind; [eapply mantem_obter_canal; [exact HI | now apply Hev]|].
  intros _ _.
  eapply mantem_bind; [apply mantem_eleva with (Q := fun _ => True); trivial|].
  intros descricao _.
  eapply mantem_bind; [apply mantem_eleva with (Q := fun _ => True); trivial|].
  intros nome_mes _.
  eapply mantem_bind with (Q := fun _ => True).
  - destruct (dict_get _ _) as [[[message_id|]]|]; try (now apply mantem_ret).
    eapply mantem_tenta_not_found.
    eapply mantem_bind; [eapply mantem_fetch_message; [exact HI | now apply Hev]|].
    intros msg _. eapply mantem_msg_edit; [exact HI | now apply Hev].
  - intros [|] _; [now apply mantem_ret|].
    eapply mantem_bind; [eapply mantem_canal_send; [exact HI|]|].
    + intros id. now apply Hev.
    + intros id _. apply Hsave. exact Hdados.
Qed.

Lemma atualizar_guarda_registros (R : option Registros) (cid year month : Z) :
  mantem (guarda_registros R) (atualizar_mensagem_calendario cid year month)
         (fun _ => True).
Proof.
  destruct (Z.eq_dec cid 0) as [->|Hcid].
  - unfold atualizar_mensagem_calendario. simpl.
    eapply mantem_registra; [apply estavel_guarda_registros | exact Logic.I].
  - eapply mantem_atualizar;
      [apply estavel_guarda_registros | intros; exact Logic.I | exact Hcid
      | apply mantem_carregar_registros | apply mantem_salvar_registros ].
Qed.

Lemma atualizar_guarda_em_silencio (R : option Registros) (ev0 : list Evento)
  (cid year month : Z) :
  cid <> 0 ->
  mantem (guarda_em_silencio R ev0) (atualizar_mensagem_calendario cid year month)
         (fun _ => True).
Proof.
  intros Hcid.
  eapply mantem_atualizar;
    [apply estavel_guarda_em_silencio | intros ev Hev; exact Hev | exact Hcid
    | apply mantem_carregar_em_silencio | apply mantem_salvar_em_silencio ].
Qed.

Lemma mantem_responde (R : option Registros) (texto : string) :
  mantem (guarda_registros R) (responde texto) (fun _ => True).
Proof.
  unfold responde. apply mantem_chamada.
  eapply mantem_registra; [apply estavel_guarda_registros | exact Logic.I].
Qed.

(** Whatever the publisher and the reply do, the handler ends with the
    records it saved at line 239. *)
Lemma registrar_ponto_guarda (cid : Z) (agora : datetime) (user_id nome tipo : string)
  (w w0 : Mundo) (d : Dados) :
  carregar_dados w = (Ok d, w0) ->
  guarda_registros (registros (dados_marcados agora user_id nome tipo d))
                   (snd (registrar_ponto cid agora user_id nome tipo w)).
Proof.
  intros H. unfold registrar_ponto, bind at 1.
  rewrite (gravar_ponto_eq agora user_id nome tipo w w0 d H). cbv zeta.
  set (d' := dados_marcados agora user_id nome tipo d).
  set (w1 := com_evento (EvArquivoEscrito d') (com_arquivo d' w0)).
  assert (guarda_registros (registros d') w1) as H1.
  { exists d'. split; [apply guarda_salvar | reflexivity]. }
  assert (mantem (guarda_registros (registros d'))
            (atualizar_mensagem_calendario cid (year agora) (month agora) ;;;
             responde (msg_conf (strftime_YmdHM agora) nome tipo))
            (fun _ => True)) as Hm.
  { eapply mantem_bind; [apply atualizar_guarda_registros|].
    intros _ _. apply mantem_responde. }
  specialize (Hm w1 H1).
  destruct (bind _ _ w1) as [[a|e] w2]; simpl; tauto.
Qed.

(** ** The display name of a record *)

(** C3, as stated, fails: alice clocks in, changes her display name to alicia
    and clocks out on the same day; the stored name is still alice. *)
Lemma nome_ultimo_nao_vence :
  let w1 := snd (registrar_ponto 77 manha "42" "alice" "entrada" mundo_novo) in
  let r2 := registrar_ponto 77 tarde "42" "alicia" "saida" w1 in
  fst r2 = Ok tt
  /\ exists d info,
      guarda (snd r2) d
      /\ registro_de d "2025-11-28" "42" = Some info
      /\ name info = Some "alice"
      /\ name info <> Some "alicia".
Proof.
  vm_compute. split; [reflexivity|].
  do 2 eexists. split; [reflexivity|]. split; [reflexivity|].
  split; [reflexivity | discriminate].
Qed.

(** C3, amended.  The name of a record is the display name of the invocation
    that created it: when the handler is done, whatever the publisher and the
    reply did, the record of [(date, user)] is stored, with the name it had
    before the invocation when it existed and the supplied display name when
    the invocation created it. *)
Theorem nome_primeiro_vence (cid : Z) (agora : datetime) (user_id nome tipo : string)
  (w w0 : Mundo) (d : Dados) :
  carregar_dados w = (Ok d, w0) ->
  exists d' info',
    guarda (snd (registrar_ponto cid agora user_id nome tipo w)) d'
    /\ registro_de d' (get_date_str agora) user_id = Some info'
    /\ match registro_de d (get_date_str agora) user_id with
       | Some info => name info' = name info
       | None => name info' = Some nome
       end.
Proof.
  intros H.
  destruct (registrar_ponto_guarda cid agora user_id nome tipo w w0 d H)
    as [d' [Hg HR]].
  destruct (gravar_ponto_efeito w w0 d agora user_id nome tipo H)
    as [conf [w1 [d1 [Hgravar [Hg1 [_ [_ [_ [info' [Hinfo [Hname _]]]]]]]]]]].
  rewrite (gravar_ponto_eq agora user_id nome tipo w w0 d H) in Hgravar.
  injection Hgravar as _ <-. unfold guarda in Hg1. simpl in Hg1. injection Hg1 as <-.
  exists d', info'. split; [exact Hg|]. split.
  - unfold registro_de in *. rewrite HR. exact Hinfo.
  - destruct (registro_de d (get_date_str agora) user_id); exact Hname.
Qed.

Lemma nome_primeiro_vence_witness :
  let w1 := snd (registrar_ponto 77 manha "42" "alice" "entrada" mundo_novo) in
  exists d' info',
    guarda (snd (registrar_ponto 77 tarde "42" "alicia" "saida" w1)) d'
    /\ registro_de d' "2025-11-28" "42" = Some info'
    /\ name info' = Some "alice".
Proof.
  refine (nome_primeiro_vence 77 tarde "42" "alicia" "saida"
            (snd (registrar_ponto 77 manha "42" "alice" "entrada" mundo_novo))
            (snd (carregar_dados
                    (snd (registrar_ponto 77 manha "42" "alice" "entrada" mundo_novo))))
            (mk_dados
               (Some [("2025-11-28",
                       [("42", mk_info (Some "alice") (Some "2025-11-28 09:00")
                                       (Some "--:--"))])])
               (Some [("2025-11", mk_message_info (Some 1000))]))
            _).
  vm_compute. reflexivity.
Defined.

(** ** Errors of the platform during the publish *)

(** C1, as stated, fails: when the platform refuses the new calendar message,
    the handler raises that error: nothing is logged and no confirmation is
    sent, while the record stays in the file. *)
Lemma erro_da_plataforma_nao_capturado :
  let r := registrar_ponto 77 manha "42" "alice" "entrada" mundo_sem_permissao in
  fst r = Levanta Forbidden
  /\ eventos (snd r)
     = [ EvArquivoCriado; EvArquivoLido;
         EvArquivoEscrito (dados_marcados manha "42" "alice" "entrada" dados_vazios);
         EvArquivoLido ]
  /\ ~ In (EvResposta "Entrada registrada para alice às **09:00**.") (eventos (snd r))
  /\ (forall texto, ~ In (EvPrint texto) (eventos (snd r)))
  /\ exists d,
      guarda (snd r) d
      /\ registro_de d "2025-11-28" "42"
         = Some (mk_info (Some "alice") (Some "2025-11-28 09:00") (Some "--:--")).
Proof.
  cbv zeta. split; [reflexivity|]. split; [reflexivity|].
  split; [|split].
  - intros H. simpl in H. repeat (destruct H as [H | H]; [discriminate H|]). exact H.
  - intros texto H. simpl in H.
    repeat (destruct H as [H | H]; [discriminate H|]). exact H.
  - eexists. split; reflexivity.
Qed.

(** C1, amended.  An error that the publish raises is not caught by the
    handler: the handler raises the same error in the same world, so it sends
    no confirmation, and, the channel being configured, the publish added
    only silent events to the trace: no log line.  In every case, error or
    not, the file still holds the records saved at line 239: the record write
    is not undone. *)
Theorem erro_da_plataforma_propaga (cid : Z) (agora : datetime)
  (user_id nome tipo : string) (w w0 : Mundo) (d : Dados) :
  carregar_dados w = (Ok d, w0) ->
  let salvo := dados_marcados agora user_id nome tipo d in
  guarda_registros (registros salvo)
                   (snd (registrar_ponto cid agora user_id nome tipo w))
  /\ forall conf w1 e w2,
      gravar_ponto agora user_id nome tipo w = (Ok conf, w1) ->
      atualizar_mensagem_calendario cid (year agora) (month agora) w1 = (Levanta e, w2) ->
      registrar_ponto cid agora user_id nome tipo w = (Levanta e, w2)
      /\ cid <> 0
      /\ guarda_em_silencio (registros salvo) (eventos w1) w2.
Proof.
  intros H salvo. split; [now apply registrar_ponto_guarda with (w0 := w0)|].
  intros conf w1 e w2 Hgravar Hpub. split; [|split].
  - unfold registrar_ponto, bind. now rewrite Hgravar, Hpub.
  - intros ->. unfold atualizar_mensagem_calendario in Hpub. simpl in Hpub. discriminate.
  - assert (cid <> 0) as Hcid
      by (intros ->; unfold atualizar_mensagem_calendario in Hpub; discriminate).
    rewrite (gravar_ponto_eq agora user_id nome tipo w w0 d H) in Hgravar.
    injection Hgravar as _ <-. fold salvo in Hpub |- *.
    pose proof (atualizar_guarda_em_silencio (registros salvo)
                  (eventos (com_evento (EvArquivoEscrito salvo) (com_arquivo salvo w0)))
                  cid (year agora) (month agora) Hcid
                  (com_evento (EvArquivoEscrito salvo) (com_arquivo salvo w0))) as Hm.
    rewrite Hpub in Hm. apply Hm. split.
    + exists salvo. split; [apply guarda_salvar | reflexivity].
    + exists []. rewrite app_nil_r. split; [reflexivity | constructor].
Qed.

Lemma erro_da_plataforma_propaga_witness :
  registrar_ponto 77 manha "42" "alice" "entrada" mundo_sem_permissao
  = (Levanta Forbidden,
     snd (atualizar_mensagem_calendario 77 2025 11
            (snd (gravar_ponto manha "42" "alice" "entrada" mundo_sem_permissao)))).
Proof.
  apply (proj2 (erro_da_plataforma_propaga 77 manha "42" "alice" "entrada"
                  mundo_sem_permissao
                  (snd (carregar_dados mundo_sem_permissao)) dados_vazios eq_refl)
               "Entrada registrada para alice às **09:00**."
               (snd (gravar_ponto manha "42" "alice" "entrada" mundo_sem_permissao))
               Forbidden).
  - reflexivity.
  - reflexivity.
Defined.

(** ** The two branches of the publisher *)

Lemma obter_canal_ok (w : Mundo) :
  falha_fetch_channel (falhas w) = None ->
  obter_canal w = (Ok tt, com_canal_obtido w).
Proof.
  intros H. unfold obter_canal, com_canal_obtido, bind, le_mundo, chamada, bind, le_mundo.
  destruct (canal_em_cache w) eqn:E; simpl; [reflexivity|]. now rewrite H.
Qed.

(** Lines 176-179 when the stored message exists: it is edited. *)
Lemma atualizar_edita (cid year month : Z) (w : Mundo) (d : Dados)
  (id : Z) (antigo embed : Embed) :
  cid <> 0 -> guarda w d -> plataforma_ok w ->
  embed_do_mes year month d = Ok embed ->
  referencia d year month = Some (mk_message_info (Some id)) ->
  busca_mensagem id (canal_mensagens w) = Some antigo ->
  atualizar_mensagem_calendario cid year month w
  = (Ok tt,
     let w1 := com_evento (EvFetchMessage id) (com_canal_obtido (com_evento EvArquivoLido w)) in
     com_evento (EvMsgEdit id embed)
       (com_canal (troca_mensagem id embed (canal_mensagens w)) (proximo_id w) w1)).
Proof.
  intros Hcid Hg [Hfc [Hfm [Hfe Hfs]]] Hembed Href Hbusca.
  unfold atualizar_mensagem_calendario.
  destruct (Z.eqb_spec cid 0) as [E|_]; [contradiction|].
  unfold bind at 1. rewrite (carregar_dados_guarda w d Hg).
  fold (com_evento EvArquivoLido w).
  unfold bind at 1. rewrite obter_canal_ok by exact Hfc.
  unfold embed_do_mes in Hembed. unfold referencia, chave_do_mes in Href.
  destruct (renderizar_calendario year month (ou (registros d) [])) as [descricao|];
    [|discriminate].
  destruct (MESES_PT month) as [nome_mes|]; [|discriminate].
  injection Hembed as <-.
  unfold bind at 1, eleva at 1. unfold bind at 1, eleva at 1.
  rewrite Href.
  unfold com_canal_obtido.
  simpl (canal_em_cache _).
  destruct (canal_em_cache w) eqn:Ec;
    unfold bind, tenta_not_found, fetch_message, msg_edit, chamada, bind, le_mundo,
      registra, poe_canal, ret; simpl;
    repeat (first [rewrite Ec | rewrite Hfm | rewrite Hfe | rewrite Hbusca]; simpl);
    unfold com_evento, com_canal; simpl; rewrite ?Ec; reflexivity.
Qed.

(** Lines 184-191: no usable reference, or the message is gone: a message is
    created and its identifier stored. *)
Lemma atualizar_cria (cid year month : Z) (w : Mundo) (d : Dados) (embed : Embed) :
  cid <> 0 -> guarda w d -> plataforma_ok w ->
  embed_do_mes year month d = Ok embed ->
  match referencia d year month with
  | Some (mk_message_info (Some id)) => busca_mensagem id (canal_mensagens w) = None
  | _ => True
  end ->
  atualizar_mensagem_calendario cid year month w
  = (Ok tt,
     let w1 := com_canal_obtido (com_evento EvArquivoLido w) in
     let w2 := match referencia d year month with
               | Some (mk_message_info (Some id)) => com_evento (EvFetchMessage id) w1
               | _ => w1
               end in
     let novo := proximo_id w in
     let d' := mk_dados (registros d)
                 (Some (dict_set (chave_do_mes year month) (mk_message_info (Some novo))
                          (ou (mensagens d) []))) in
     com_evento (EvArquivoEscrito d')
       (com_arquivo d'
          (com_evento (EvCanalSend novo embed)
             (com_canal (canal_mensagens w ++ [(novo, embed)]) (novo + 1) w2)))).
Proof.
  intros Hcid Hg [Hfc [Hfm [Hfe Hfs]]] Hembed Href.
  unfold atualizar_mensagem_calendario.
  destruct (Z.eqb_spec cid 0) as [E|_]; [contradiction|].
  unfold bind at 1. rewrite (carregar_dados_guarda w d Hg).
  fold (com_evento EvArquivoLido w).
  unfold bind at 1. rewrite obter_canal_ok by exact Hfc.
  unfold embed_do_mes in Hembed. unfold referencia, chave_do_mes in *.
  destruct (renderizar_calendario year month (ou (registros d) [])) as [descricao|];
    [|discriminate].
  destruct (MESES_PT month) as [nome_mes|]; [|discriminate].
  injection Hembed as <-.
  unfold bind at 1, eleva at 1. unfold bind at 1, eleva at 1.
  unfold com_canal_obtido.
  simpl (canal_em_cache _).
  destruct (dict_get _ (ou (mensagens d) [])) as [[[id|]]|];
    destruct (canal_em_cache w) eqn:Ec;
    unfold bind, tenta_not_found, fetch_message, msg_edit, canal_send, salvar_dados,
      chamada, bind, le_mundo, registra, poe_canal, poe_arquivo, ret; simpl;
    repeat (first [rewrite Ec | rewrite Hfm | rewrite Hfs | rewrite Href]; simpl);
    unfold com_evento, com_canal, com_arquivo; simpl; rewrite ?Ec; reflexivity.
Qed.

(** ** Messages of the channel *)

Lemma busca_troca (id : Z) (antigo novo : Embed) (ms : list (Z * Embed)) :
  busca_mensagem id ms = Some antigo ->
  busca_mensagem id (troca_mensagem id novo ms) = Some novo.
Proof.
  induction ms as [|[i e] ms IH]; simpl; [discriminate|].
  destruct (Z.eqb_spec i id) as [->|Hne]; simpl.
  - now rewrite Z.eqb_refl.
  - destruct (Z.eqb_spec i id); [contradiction | exact IH].
Qed.

Lemma troca_igual (id : Z) (embed : Embed) (ms : list (Z * Embed)) :
  busca_mensagem id ms = Some embed -> troca_mensagem id embed ms = ms.
Proof.
  induction ms as [|[i e] ms IH]; simpl; [reflexivity|].
  destruct (Z.eqb_spec i id) as [->|Hne].
  - now intros [= ->].
  - intros H. now rewrite IH.
Qed.

Lemma busca_nova (id : Z) (embed : Embed) (ms : list (Z * Embed)) :
  busca_mensagem id ms = None ->
  busca_mensagem id (ms ++ [(id, embed)]) = Some embed.
Proof.
  induction ms as [|[i e] ms IH]; simpl.
  - now rewrite Z.eqb_refl.
  - destruct (i =? id); [discriminate | exact IH].
Qed.

Lemma envios_app (a b : list Evento) : envios (a ++ b) = (envios a ++ envios b)%list.
Proof.
  induction a as [|ev a IH]; simpl; [reflexivity|].
  destruct ev; simpl; now rewrite ?IH.
Qed.

Lemma eventos_canal_obtido (w : Mundo) :
  exists evs,
    eventos (com_canal_obtido w) = (eventos w ++ evs)%list /\ envios evs = [].
Proof.
  unfold com_canal_obtido. destruct (canal_em_cache w).
  - exists []. now rewrite app_nil_r.
  - now exists [EvFetchChannel].
Qed.

Lemma arquivo_canal_obtido (w : Mundo) : arquivo (com_canal_obtido w) = arquivo w.
Proof. unfold com_canal_obtido. now destruct (canal_em_cache w). Qed.

Lemma falhas_canal_obtido (w : Mundo) : falhas (com_canal_obtido w) = falhas w.
Proof. unfold com_canal_obtido. now destruct (canal_em_cache w). Qed.

(** ** The publisher on a deleted message *)

(** C5.  The channel being configured, the platform refusing nothing and the
    rendering of the month succeeding: when the stored reference of the month
    names a message that the channel no longer has (fetching reports not
    found), the publisher returns normally, creates exactly one message, with
    the calendar of the month, and saves a document in which the reference of
    that month is the identifier of the new message, every other reference and
    the records being as before and no key being added. *)
Theorem publicar_recria_mensagem (cid year month : Z) (w : Mundo) (d : Dados)
  (id : Z) (embed : Embed) :
  cid <> 0 -> guarda w d -> plataforma_ok w ->
  embed_do_mes year month d = Ok embed ->
  referencia d year month = Some (mk_message_info (Some id)) ->
  busca_mensagem id (canal_mensagens w) = None ->
  exists w' d' evs,
    atualizar_mensagem_calendario cid year month w = (Ok tt, w')
    /\ eventos w' = (eventos w ++ evs ++ [EvArquivoEscrito d'])%list
    /\ envios evs = [(proximo_id w, embed)]
    /\ canal_mensagens w' = (canal_mensagens w ++ [(proximo_id w, embed)])%list
    /\ guarda w' d'
    /\ referencia d' year month = Some (mk_message_info (Some (proximo_id w)))
    /\ (forall k, k <> chave_do_mes year month ->
                  dict_get k (ou (mensagens d') []) = dict_get k (ou (mensagens d) []))
    /\ dict_keys (ou (mensagens d') []) = dict_keys (ou (mensagens d) [])
    /\ registros d' = registros d.
Proof.
  intros Hcid Hg Hok Hembed Href Hbusca.
  rewrite (atualizar_cria cid year month w d embed Hcid Hg Hok Hembed)
    by (rewrite Href; exact Hbusca).
  rewrite Href. cbv zeta.
  destruct (eventos_canal_obtido (com_evento EvArquivoLido w)) as [evs0 [Hev0 Hen0]].
  do 2 eexists.
  exists ([EvArquivoLido] ++ evs0 ++ [EvFetchMessage id; EvCanalSend (proximo_id w) embed])%list.
  split; [reflexivity|]. split; [|split; [|split; [reflexivity|split; [reflexivity|]]]].
  - simpl. rewrite Hev0. simpl. rewrite <- !app_assoc. reflexivity.
  - rewrite !envios_app, Hen0. reflexivity.
  - unfold referencia. simpl. split; [apply dict_get_set_eq|]. split; [|split].
    + intros k Hk. now apply dict_get_set_neq.
    + rewrite dict_keys_set. unfold dict_in. unfold referencia in Href. now rewrite Href.
    + reflexivity.
Qed.

Lemma publicar_recria_mensagem_witness :
  let d := mk_dados (Some []) (Some [("2025-11", mk_message_info (Some 900))]) in
  let w := mk_mundo (Some d) true [] 1000 sem_falhas [] in
  exists w' d' evs,
    atualizar_mensagem_calendario 77 2025 11 w = (Ok tt, w')
    /\ eventos w' = (eventos w ++ evs ++ [EvArquivoEscrito d'])%list
    /\ envios evs = [(1000, mk_embed "Calendário de ponto - Novembro/2025"
                              (match renderizar_calendario 2025 11 [] with
                               | Ok s => s
                               | Levanta _ => ""
                               end))]
    /\ canal_mensagens w'
       = [(1000, mk_embed "Calendário de ponto - Novembro/2025"
                   (match renderizar_calendario 2025 11 [] with
                    | Ok s => s
                    | Levanta _ => ""
                    end))]
    /\ guarda w' d'
    /\ referencia d' 2025 11 = Some (mk_message_info (Some 1000))
    /\ (forall k, k <> chave_do_mes 2025 11 ->
                  dict_get k (ou (mensagens d') []) = dict_get k (ou (mensagens d) []))
    /\ dict_keys (ou (mensagens d') []) = dict_keys (ou (mensagens d) [])
    /\ registros d' = registros d.
Proof.
  cbv zeta.
  apply (publicar_recria_mensagem 77 2025 11
           (mk_mundo (Some (mk_dados (Some [])
                              (Some [("2025-11", mk_message_info (Some 900))])))
                     true [] 1000 sem_falhas [])
           (mk_dados (Some []) (Some [("2025-11", mk_message_info (Some 900))]))
           900).
  - lia.
  - reflexivity.
  - repeat split.
  - reflexivity.
  - reflexivity.
  - reflexivity.
Defined.

(** ** Publishing twice *)

(** The second of two publishes in a row: the reference names a message that
    already shows the calendar, and the publisher edits it in place. *)
Lemma atualizar_de_novo (cid year month : Z) (w : Mundo) (d : Dados)
  (id : Z) (embed : Embed) :
  cid <> 0 -> guarda w d -> plataforma_ok w ->
  embed_do_mes year month d = Ok embed ->
  referencia d year month = Some (mk_message_info (Some id)) ->
  busca_mensagem id (canal_mensagens w) = Some embed ->
  exists w' evs,
    atualizar_mensagem_calendario cid year month w = (Ok tt, w')
    /\ eventos w' = (eventos w ++ evs ++ [EvMsgEdit id embed])%list
    /\ envios evs = []
    /\ canal_mensagens w' = canal_mensagens w
    /\ proximo_id w' = proximo_id w
    /\ arquivo w' = arquivo w.
Proof.
  intros Hcid Hg Hok Hembed Href Hbusca.
  rewrite (atualizar_edita cid year month w d id embed embed Hcid Hg Hok Hembed Href Hbusca).
  cbv zeta.
  destruct (eventos_canal_obtido (com_evento EvArquivoLido w)) as [evs0 [Hev0 Hen0]].
  eexists. exists ([EvArquivoLido] ++ evs0 ++ [EvFetchMessage id])%list.
  split; [reflexivity|]. split; [|split; [|split; [|split]]].
  - simpl. rewrite Hev0. simpl. rewrite <- !app_assoc. reflexivity.
  - rewrite !envios_app, Hen0. reflexivity.
  - simpl. now apply troca_igual.
  - reflexivity.
  - simpl. now rewrite arquivo_canal_obtido.
Qed.

(** C4.  The channel being configured, the platform refusing nothing, new
    identifiers being fresh and the rendering of the month succeeding: two
    publishes in a row for the same month both return normally; the first
    leaves a message [id] showing the calendar, referenced by the saved
    document; the second edits that same message with the same content,
    creates no message and leaves the channel and the file as they were. *)
Theorem publicar_idempotente (cid year month : Z) (w : Mundo) (d : Dados)
  (embed : Embed) :
  cid <> 0 -> guarda w d -> plataforma_ok w -> ids_frescos w ->
  embed_do_mes year month d = Ok embed ->
  exists w1 w2 id d1 evs1 evs2,
    atualizar_mensagem_calendario cid year month w = (Ok tt, w1)
    /\ atualizar_mensagem_calendario cid year month w1 = (Ok tt, w2)
    /\ eventos w1 = (eventos w ++ evs1)%list
    /\ (In (EvCanalSend id embed) evs1 \/ In (EvMsgEdit id embed) evs1)
    /\ busca_mensagem id (canal_mensagens w1) = Some embed
    /\ guarda w1 d1
    /\ referencia d1 year month = Some (mk_message_info (Some id))
    /\ eventos w2 = (eventos w1 ++ evs2 ++ [EvMsgEdit id embed])%list
    /\ envios evs2 = []
    /\ canal_mensagens w2 = canal_mensagens w1
    /\ arquivo w2 = arquivo w1.
Proof.
  intros Hcid Hg Hok Hfresco Hembed.
  assert (forall w1 d1 id evs1,
             atualizar_mensagem_calendario cid year month w = (Ok tt, w1) ->
             eventos w1 = (eventos w ++ evs1)%list ->
             In (EvCanalSend id embed) evs1 \/ In (EvMsgEdit id embed) evs1 ->
             falhas w1 = falhas w ->
             guarda w1 d1 -> registros d1 = registros d ->
             referencia d1 year month = Some (mk_message_info (Some id)) ->
             busca_mensagem id (canal_mensagens w1) = Some embed ->
             exists w1 w2 id d1 evs1 evs2,
               atualizar_mensagem_calendario cid year month w = (Ok tt, w1)
               /\ atualizar_mensagem_calendario cid year month w1 = (Ok tt, w2)
               /\ eventos w1 = (eventos w ++ evs1)%list
               /\ (In (EvCanalSend id embed) evs1 \/ In (EvMsgEdit id embed) evs1)
               /\ busca_mensagem id (canal_mensagens w1) = Some embed
               /\ guarda w1 d1
               /\ referencia d1 year month = Some (mk_message_info (Some id))
               /\ eventos w2 = (eventos w1 ++ evs2 ++ [EvMsgEdit id embed])%list
               /\ envios evs2 = []
               /\ canal_mensagens w2 = canal_mensagens w1
               /\ arquivo w2 = arquivo w1) as Hsegundo.
  { intros w1 d1 id evs1 H1 Hev1 Hin Hfalhas Hg1 Hregs Href1 Hbusca1.
    assert (plataforma_ok w1) as Hok1 by (unfold plataforma_ok; now rewrite Hfalhas).
    assert (embed_do_mes year month d1 = Ok embed) as Hembed1
      by (unfold embed_do_mes in *; now rewrite Hregs).
    destruct (atualizar_de_novo cid year month w1 d1 id embed
                Hcid Hg1 Hok1 Hembed1 Href1 Hbusca1)
      as [w2 [evs2 [H2 [Hev2 [Hen2 [Hcanal2 [_ Harq2]]]]]]].
    exists w1, w2, id, d1, evs1, evs2. tauto. }
  destruct (eventos_canal_obtido (com_evento EvArquivoLido w)) as [evs0 [Hev0 _]].
  assert (forall id, busca_mensagem id (canal_mensagens w) = None \/
                     exists antigo, busca_mensagem id (canal_mensagens w) = Some antigo)
    as Hcasos by (intros id; destruct (busca_mensagem id _); eauto).
  destruct (referencia d year month) as [[[id|]]|] eqn:Href;
    [destruct (Hcasos id) as [Hnone | [antigo Hsome]]| |].
  2:{ (* the referenced message exists: the first publish edits it *)
      eapply (Hsegundo _ d id).
      - apply (atualizar_edita cid year month w d id antigo embed); assumption.
      - cbv zeta. simpl. rewrite Hev0. simpl. rewrite <- !app_assoc. reflexivity.
      - right. rewrite !in_app_iff. right. right. simpl. tauto.
      - cbv zeta. simpl. now rewrite falhas_canal_obtido.
      - cbv zeta. unfold guarda. simpl. now rewrite arquivo_canal_obtido.
      - reflexivity.
      - exact Href.
      - cbv zeta. simpl. eapply busca_troca, Hsome. }
  all: (eapply (Hsegundo _ _ (proximo_id w));
        [ apply (atualizar_cria cid year month w d embed); try assumption;
          rewrite Href; trivial
        | rewrite Href; cbv zeta; simpl; rewrite ?Hev0; simpl;
          rewrite <- ?app_assoc; reflexivity
        | left; rewrite ?in_app_iff; simpl; tauto
        | rewrite Href; cbv zeta; simpl; now rewrite falhas_canal_obtido
        | cbv zeta; apply guarda_salvar
        | reflexivity
        | unfold referencia; simpl; apply dict_get_set_eq
        | rewrite Href; cbv zeta; simpl; apply busca_nova, Hfresco; lia ]).
Qed.

Lemma publicar_idempotente_witness :
  let embed := mk_embed "Calendário de ponto - Maio/2024" maio_2024_vazio in
  exists w1 w2 id d1 evs1 evs2,
    atualizar_mensagem_calendario 77 2024 5 mundo_novo_com_arquivo = (Ok tt, w1)
    /\ atualizar_mensagem_calendario 77 2024 5 w1 = (Ok tt, w2)
    /\ eventos w1 = (eventos mundo_novo_com_arquivo ++ evs1)%list
    /\ (In (EvCanalSend id embed) evs1 \/ In (EvMsgEdit id embed) evs1)
    /\ busca_mensagem id (canal_mensagens w1) = Some embed
    /\ guarda w1 d1
    /\ referencia d1 2024 5 = Some (mk_message_info (Some id))
    /\ eventos w2 = (eventos w1 ++ evs2 ++ [EvMsgEdit id embed])%list
    /\ envios evs2 = []
    /\ canal_mensagens w2 = canal_mensagens w1
    /\ arquivo w2 = arquivo w1.
Proof.
  apply (publicar_idempotente 77 2024 5 mundo_novo_com_arquivo dados_vazios).
  - lia.
  - reflexivity.
  - repeat split.
  - intros id _. reflexivity.
  - reflexivity.
Defined.

(** ** The commands on a month outside 1..12 *)

Lemma comando_calendario_recusa (ano mes : Z) (w : Mundo) :
  mes < 1 \/ 12 < mes ->
  comando_calendario ano mes w
  = match falha_ctx_send (falhas w) with
    | None => (Ok tt, com_evento (EvCtxSend mes_invalido) w)
    | Some e => (Levanta e, w)
    end.
Proof.
  intros H. unfold comando_calendario.
  replace ((mes <? 1) || (12 <? mes)) with true.
  - unfold ctx_send, chamada, bind, le_mundo, levanta.
    destruct (falha_ctx_send (falhas w)); reflexivity.
  - symmetry. apply orb_true_iff. destruct H; [left | right]; now apply Z.ltb_lt.
Qed.

(** X1.  [!calendario] with a month outside 1..12 neither reads nor creates
    the data file and calls nothing of the calendar channel: when the reply is
    not refused, the world changes by one event, the invalid-month message;
    when it is refused with [e], the command raises [e] in the same world. *)
Theorem comando_calendario_mes_invalido (ano mes : Z) (w : Mundo) :
  mes < 1 \/ 12 < mes ->
  comando_calendario ano mes w
  = match falha_ctx_send (falhas w) with
    | None => (Ok tt, com_evento (EvCtxSend mes_invalido) w)
    | Some e => (Levanta e, w)
    end.
Proof.
  intros H. unfold comando_calendario.
  replace ((mes <? 1) || (12 <? mes)) with true.
  - unfold ctx_send, chamada, bind, le_mundo, levanta.
    destruct (falha_ctx_send (falhas w)); reflexivity.
  - symmetry. apply orb_true_iff. destruct H; [left | right]; now apply Z.ltb_lt.
Qed.

Lemma comando_calendario_mes_invalido_witness :
  comando_calendario 2024 13 mundo_novo
  = (Ok tt, com_evento (EvCtxSend mes_invalido) mundo_novo).
Proof.
  apply (comando_calendario_mes_invalido 2024 13 mundo_novo). right. lia.
Defined.

Lemma renderizar_mes_invalido (year month : Z) (regs : list (string * list (string * Info))) :
  month < 1 \/ 12 < month ->
  renderizar_calendario year month regs = Levanta (IllegalMonthError month).
Proof.
  intros H. unfold renderizar_calendario, linhas_calendario, monthdayscalendar,
    itermonthdays, monthrange.
  replace ((1 <=? month) && (month <=? 12)) with false; [reflexivity|].
  symmetry. apply andb_false_iff. destruct H; [left; apply Z.leb_gt | right; apply Z.leb_gt]; lia.
Qed.

Lemma MESES_PT_invalido (mes : Z) : mes < 1 \/ 12 < mes -> MESES_PT mes = Levanta KeyError.
Proof.
  intros H. unfold MESES_PT.
  destruct mes as [|p|p]; try reflexivity.
  do 4 (try (destruct p as [p|p|]; try reflexivity; try lia)).
Qed.

(** X2.  [!atualizar_calendario] has no check of the month.  With a month
    outside 1..12 it never returns normally and sends no reply: when the
    channel is not configured it logs the notice and raises [KeyError] at
    line 282; when it is configured and the channel is obtained, it has
    already read the data file, creating it when absent, and raises
    [IllegalMonthError] from the renderer. *)
Theorem comando_atualizar_calendario_mes_invalido (cid : Z) (agora : datetime)
  (ano : option Z) (mes : Z) (w : Mundo) :
  mes < 1 \/ 12 < mes ->
  (cid = 0 ->
   comando_atualizar_calendario cid agora ano (Some mes) w
   = (Levanta KeyError,
      com_evento (EvPrint "CALENDAR_CHANNEL_ID não configurado no .env.") w))
  /\ (cid <> 0 -> falha_fetch_channel (falhas w) = None ->
      exists d w0,
        carregar_dados w = (Ok d, w0)
        /\ comando_atualizar_calendario cid agora ano (Some mes) w
           = (Levanta (IllegalMonthError mes), com_canal_obtido w0))
  /\ exists e w',
      comando_atualizar_calendario cid agora ano (Some mes) w = (Levanta e, w')
      /\ exists evs, eventos w' = (eventos w ++ evs)%list
                     /\ Forall (fun ev => ~ resposta_de_comando ev) evs.
Proof.
  intros H.
  assert (cid = 0 ->
          comando_atualizar_calendario cid agora ano (Some mes) w
          = (Levanta KeyError,
             com_evento (EvPrint "CALENDAR_CHANNEL_ID não configurado no .env.") w)) as H0.
  { intros ->. unfold comando_atualizar_calendario, atualizar_mensagem_calendario.
    simpl. unfold bind, registra, eleva. simpl. now rewrite MESES_PT_invalido. }
  assert (cid <> 0 ->
          forall d w0, carregar_dados w = (Ok d, w0) ->
          comando_atualizar_calendario cid agora ano (Some mes) w
          = match falha_fetch_channel (falhas w0) with
            | Some e => if canal_em_cache w0
                        then (Levanta (IllegalMonthError mes), w0)
                        else (Levanta e, w0)
            | None => (Levanta (IllegalMonthError mes), com_canal_obtido w0)
            end) as H1.
  { intros Hcid d w0 Hload.
    unfold comando_atualizar_calendario, atualizar_mensagem_calendario. simpl ou.
    destruct (Z.eqb_spec cid 0) as [E|_]; [contradiction|].
    unfold bind at 1 2. rewrite Hload. unfold bind at 1.
    unfold obter_canal, com_canal_obtido, bind at 1, le_mundo, chamada, bind at 1, le_mundo.
    destruct (canal_em_cache w0) eqn:Ec.
    - unfold ret, bind, eleva. rewrite renderizar_mes_invalido by exact H.
      now destruct (falha_fetch_channel (falhas w0)).
    - destruct (falha_fetch_channel (falhas w0)); [reflexivity|].
      unfold bind, eleva, registra. now rewrite renderizar_mes_invalido by exact H. }
  split; [exact H0|]. split.
  - intros Hcid Hfc. destruct (carregar_dados_nao_levanta w) as [d [w0 Hload]].
    exists d, w0. split; [exact Hload|]. rewrite (H1 Hcid d w0 Hload).
    destruct (carregar_dados_inv w w0 d Hload) as [_ [_ [_ [_ [Hf _]]]]].
    now rewrite Hf, Hfc.
  - destruct (Z.eq_dec cid 0) as [E|Hcid].
    + rewrite (H0 E). do 2 eexists. split; [reflexivity|].
      eexists. split; [reflexivity|]. repeat constructor. simpl. tauto.
    + destruct (carregar_dados_nao_levanta w) as [d [w0 Hload]].
      rewrite (H1 Hcid d w0 Hload).
      destruct (carregar_dados_inv w w0 d Hload) as [_ [_ [_ [_ [_ [evs [Hev Hs]]]]]]].
      assert (Forall (fun ev => ~ resposta_de_comando ev) evs) as Hs'.
      { eapply Forall_impl; [|exact Hs]. intros ev Hev'. now destruct ev. }
      assert (exists evs', eventos (com_canal_obtido w0) = (eventos w ++ evs')%list
                           /\ Forall (fun ev => ~ resposta_de_comando ev) evs') as Hobt.
      { unfold com_canal_obtido. destruct (canal_em_cache w0).
        - now exists evs.
        - exists (evs ++ [EvFetchChannel])%list. simpl. rewrite Hev, <- app_assoc.
          split; [reflexivity|]. apply Forall_app. split; [exact Hs'|].
          repeat constructor. simpl. tauto. }
      destruct (falha_fetch_channel (falhas w0)); [destruct (canal_em_cache w0)|];
        do 2 eexists; (split; [reflexivity|]); eauto.
Qed.

Lemma comando_atualizar_calendario_mes_invalido_witness :
  exists d w0,
    carregar_dados mundo_novo = (Ok d, w0)
    /\ comando_atualizar_calendario 77 manha (Some 2025) (Some 13) mundo_novo
       = (Levanta (IllegalMonthError 13), com_canal_obtido w0).
Proof.
  destruct (comando_atualizar_calendario_mes_invalido 77 manha (Some 2025) 13 mundo_novo)
    as [_ [H _]].
  - right. lia.
  - apply H; [lia | reflexivity].
Defined.

(** ** What the publisher leaves alone *)

Lemma mantem_atualizar_geral (I : Mundo -> Prop) (evento_ok : Evento -> Prop)
  (Q : Dados -> Prop) (cid year month : Z) :
  estavel I evento_ok ->
  (forall ev, silencioso ev -> evento_ok ev) ->
  cid <> 0 ->
  mantem I carregar_dados Q ->
  (forall d id, Q d ->
     mantem I (salvar_dados
                 (mk_dados (registros d)
                    (Some (dict_set (chave_do_mes year month) (mk_message_info (Some id))
                             (ou (mensagens d) [])))))
            (fun _ => True)) ->
  mantem I (atualizar_mensagem_calendario cid year month) (fun _ => True).
Proof.
  intros HI Hev Hcid Hload Hsave. unfold atualizar_mensagem_calendario.
  destruct (Z.eqb_spec cid 0) as [E|_]; [contradiction|].
  eapply mantem_bind; [exact Hload|]. intros dados Hdados.
  eapply mantem_bind; [eapply mantem_obter_canal; [exact HI | now apply Hev]|].
  intros _ _.
  eapply mantem_bind; [apply mantem_eleva with (Q := fun _ => True); trivial|].
  intros descricao _.
  eapply mantem_bind; [apply mantem_eleva with (Q := fun _ => True); trivial|].
  intros nome_mes _.
  eapply mantem_bind with (Q := fun _ => True).
  - destruct (dict_get _ _) as [[[message_id|]]|]; try (now apply mantem_ret).
    eapply mantem_tenta_not_found.
    eapply mantem_bind; [eapply mantem_fetch_message; [exact HI | now apply Hev]|].
    intros msg _. eapply mantem_msg_edit; [exact HI | now apply Hev].
  - intros [|] _; [now apply mantem_ret|].
    eapply mantem_bind; [eapply mantem_canal_send; [exact HI|]|].
    + intros id. now apply Hev.
    + intros id _. now apply Hsave.
Qed.

Lemma estavel_guarda_outros_meses R M chave :
  estavel (guarda_outros_meses R M chave) (fun _ => True).
Proof. split; intros; assumption. Qed.

(** X4.  Whatever the platform answers and whether the publisher returns or
    raises, it leaves the records of the stored document and the references
    of every other month as they were. *)
Theorem publicar_moldura (cid year month : Z) (w : Mundo) (d : Dados) :
  guarda w d ->
  exists d',
    guarda (snd (atualizar_mensagem_calendario cid year month w)) d'
    /\ registros d' = registros d
    /\ forall k, k <> chave_do_mes year month ->
                 dict_get k (ou (mensagens d') []) = dict_get k (ou (mensagens d) []).
Proof.
  intros Hg.
  set (I := guarda_outros_meses (registros d) (ou (mensagens d) [])
              (chave_do_mes year month)).
  assert (I w) as Hw by (exists d; auto).
  assert (mantem I (atualizar_mensagem_calendario cid year month) (fun _ => True)) as Hm.
  { destruct (Z.eq_dec cid 0) as [->|Hcid].
    - unfold atualizar_mensagem_calendario. simpl.
      eapply mantem_registra; [apply estavel_guarda_outros_meses | exact Logic.I].
    - eapply mantem_atualizar_geral
        with (Q := fun d' => registros d' = registros d
                             /\ forall k, k <> chave_do_mes year month ->
                                  dict_get k (ou (mensagens d') [])
                                  = dict_get k (ou (mensagens d) []));
        [apply estavel_guarda_outros_meses | intros; exact Logic.I | exact Hcid | |].
      + intros w1 [d1 [Hg1 [HR HM]]]. rewrite (carregar_dados_guarda w1 d1 Hg1).
        split; [|split; assumption]. now exists d1.
      + intros d1 id [HR HM] w1 _. rewrite salvar_dados_eq. split; [|trivial].
        eexists. split; [apply guarda_salvar|]. split; [exact HR|].
        intros k Hk. simpl. rewrite dict_get_set_neq by exact Hk. now apply HM. }
  specialize (Hm w Hw).
  destruct (atualizar_mensagem_calendario cid year month w) as [[a|e] w']; simpl;
    [destruct Hm as [Hm _]|]; exact Hm.
Qed.

Lemma publicar_moldura_witness :
  exists d',
    guarda (snd (atualizar_mensagem_calendario 77 2024 5 mundo_novo_com_arquivo)) d'
    /\ registros d' = registros dados_vazios
    /\ forall k, k <> chave_do_mes 2024 5 ->
                 dict_get k (ou (mensagens d') [])
                 = dict_get k (ou (mensagens dados_vazios) []).
Proof.
  apply (publicar_moldura 77 2024 5 mundo_novo_com_arquivo dados_vazios). reflexivity.
Defined.

(** ** Errors inside the publisher *)

(** X5.  The handler of lines 176-182 recovers from [NotFound] only.  When the
    platform refuses the fetch of the stored message with another error, the
    publisher raises that error: no message is created or edited and the file
    is not written; the world differs only by the events of reading the file
    and obtaining the channel. *)
Theorem publicar_erro_no_fetch (cid year month : Z) (w : Mundo) (d : Dados)
  (id : Z) (embed : Embed) (e : excecao) :
  cid <> 0 -> guarda w d ->
  falha_fetch_channel (falhas w) = None ->
  embed_do_mes year month d = Ok embed ->
  referencia d year month = Some (mk_message_info (Some id)) ->
  falha_fetch_message (falhas w) = Some e -> e <> NotFound ->
  atualizar_mensagem_calendario cid year month w
  = (Levanta e, com_canal_obtido (com_evento EvArquivoLido w)).
Proof.
  intros Hcid Hg Hfc Hembed Href Hfm Hne.
  unfold atualizar_mensagem_calendario.
  destruct (Z.eqb_spec cid 0) as [E|_]; [contradiction|].
  unfold bind at 1. rewrite (carregar_dados_guarda w d Hg).
  fold (com_evento EvArquivoLido w).
  unfold bind at 1. rewrite obter_canal_ok by exact Hfc.
  unfold embed_do_mes in Hembed. unfold referencia, chave_do_mes in Href.
  destruct (renderizar_calendario year month (ou (registros d) [])) as [descricao|];
    [|discriminate].
  destruct (MESES_PT month) as [nome_mes|]; [|discriminate].
  unfold bind at 1, eleva at 1. unfold bind at 1, eleva at 1.
  rewrite Href.
  assert (falha_fetch_message (falhas (com_canal_obtido (com_evento EvArquivoLido w)))
          = Some e) as Hfm' by (rewrite falhas_canal_obtido; exact Hfm).
  unfold bind at 1, tenta_not_found, fetch_message, chamada, bind at 1, le_mundo.
  unfold bind at 1. rewrite Hfm'. unfold levanta.
  destruct e; try reflexivity. contradiction.
Qed.

Lemma publicar_erro_no_fetch_witness :
  atualizar_mensagem_calendario 77 2024 5 mundo_fetch_recusado
  = (Levanta Forbidden, com_canal_obtido (com_evento EvArquivoLido mundo_fetch_recusado)).
Proof.
  apply (publicar_erro_no_fetch 77 2024 5 mundo_fetch_recusado dados_maio 900
           embed_maio Forbidden).
  - lia.
  - reflexivity.
  - reflexivity.
  - reflexivity.
  - reflexivity.
  - reflexivity.
  - discriminate.
Defined.

(** X6.  When the stored message is fetched but the edit answers [NotFound]
    (the message was deleted in between), the publisher falls through to the
    creation branch: it sends one new message and saves its identifier as the
    reference of the month. *)
Theorem publicar_edit_not_found (cid year month : Z) (w : Mundo) (d : Dados)
  (id : Z) (antigo embed : Embed) :
  cid <> 0 -> guarda w d ->
  falha_fetch_channel (falhas w) = None ->
  falha_fetch_message (falhas w) = None ->
  falha_edit (falhas w) = Some NotFound ->
  falha_send (falhas w) = None ->
  embed_do_mes year month d = Ok embed ->
  referencia d year month = Some (mk_message_info (Some id)) ->
  busca_mensagem id (canal_mensagens w) = Some antigo ->
  exists w' d' evs,
    atualizar_mensagem_calendario cid year month w = (Ok tt, w')
    /\ eventos w' = (eventos w ++ evs ++ [EvArquivoEscrito d'])%list
    /\ envios evs = [(proximo_id w, embed)]
    /\ canal_mensagens w' = (canal_mensagens w ++ [(proximo_id w, embed)])%list
    /\ guarda w' d'
    /\ referencia d' year month = Some (mk_message_info (Some (proximo_id w))).
Proof.
  intros Hcid Hg Hfc Hfm Hfe Hfs Hembed Href Hbusca.
  unfold atualizar_mensagem_calendario.
  destruct (Z.eqb_spec cid 0) as [E|_]; [contradiction|].
  unfold bind at 1. rewrite (carregar_dados_guarda w d Hg).
  fold (com_evento EvArquivoLido w).
  unfold bind at 1. rewrite obter_canal_ok by exact Hfc.
  unfold embed_do_mes in Hembed. unfold referencia, chave_do_mes in *.
  destruct (renderizar_calendario year month (ou (registros d) [])) as [descricao|];
    [|discriminate].
  destruct (MESES_PT month) as [nome_mes|]; [|discriminate].
  injection Hembed as <-.
  unfold bind at 1, eleva at 1. unfold bind at 1, eleva at 1.
  rewrite Href.
  destruct (eventos_canal_obtido (com_evento EvArquivoLido w)) as [evs0 [Hev0 Hen0]].
  pose proof (falhas_canal_obtido (com_evento EvArquivoLido w)) as Hf0.
  pose proof (arquivo_canal_obtido (com_evento EvArquivoLido w)) as Ha0.
  assert (canal_mensagens (com_canal_obtido (com_evento EvArquivoLido w))
          = canal_mensagens w) as Hc0
    by (unfold com_canal_obtido; simpl; now destruct (canal_em_cache w)).
  assert (proximo_id (com_canal_obtido (com_evento EvArquivoLido w)) = proximo_id w) as Hp0
    by (unfold com_canal_obtido; simpl; now destruct (canal_em_cache w)).
  simpl in Hf0, Ha0, Hev0.
  set (w0 := com_canal_obtido (com_evento EvArquivoLido w)) in *. clearbody w0.
  unfold bind, tenta_not_found, fetch_message, msg_edit, canal_send, salvar_dados,
    chamada, bind, le_mundo, registra, poe_canal, poe_arquivo, ret, levanta; simpl.
  repeat (first [rewrite Hf0 | rewrite Hfm | rewrite Hc0 | rewrite Hbusca
                | rewrite Hfe | rewrite Hfs | rewrite Hp0]; simpl).
  do 2 eexists.
  exists ([EvArquivoLido] ++ evs0
          ++ [EvFetchMessage id;
              EvCanalSend (proximo_id w)
                (mk_embed (titulo_calendario nome_mes year) descricao)])%list.
  split; [reflexivity|]. simpl. split; [|split; [|split; [reflexivity|split]]].
  - rewrite Hev0. rewrite <- !app_assoc. reflexivity.
  - rewrite envios_app, Hen0. reflexivity.
  - reflexivity.
  - unfold referencia. simpl. apply dict_get_set_eq.
Qed.

Lemma publicar_edit_not_found_witness :
  exists w' d' evs,
    atualizar_mensagem_calendario 77 2024 5 mundo_edit_not_found = (Ok tt, w')
    /\ eventos w' = (eventos mundo_edit_not_found ++ evs ++ [EvArquivoEscrito d'])%list
    /\ envios evs = [(1000, embed_maio)]
    /\ canal_mensagens w' = [(900, mk_embed "antigo" ""); (1000, embed_maio)]
    /\ guarda w' d'
    /\ referencia d' 2024 5 = Some (mk_message_info (Some 1000)).
Proof.
  apply (publicar_edit_not_found 77 2024 5 mundo_edit_not_found dados_maio 900
           (mk_embed "antigo" "") embed_maio).
  - lia.
  - reflexivity.
  - reflexivity.
  - reflexivity.
  - reflexivity.
  - reflexivity.
  - reflexivity.
  - reflexivity.
  - reflexivity.
Defined.

(** ** Date keys: written by [strftime], read back by [strptime] *)

Lemma barra_d_ascii (a : ascii) (x : Z) (r : string) :
  digito_ascii a = Some x -> barra_d (String a r) = [(x, r)].
Proof.
  destruct a as [b0 b1 b2 b3 b4 b5 b6 b7].
  destruct b0, b1, b2, b3, b4, b5, b6, b7; try discriminate;
    intros [= <-]; reflexivity.
Qed.

Lemma ano_ok_todos (y : Z) : 0 <= y <= 9999 -> ano_ok y = true.
Proof.
  intros H.
  assert (forallb ano_ok (intervalo 0 (Z.to_nat 10000)) = true) as Hall
    by (vm_compute; reflexivity).
  rewrite forallb_forall in Hall. apply Hall, In_intervalo. lia.
Qed.

Lemma le_Y_fmt (y : Z) (r : string) :
  0 <= y <= 9999 -> le_Y (fmt_0d 4 y ++ r) = [(y, r)].
Proof.
  intros H. pose proof (ano_ok_todos y H) as A. unfold ano_ok in A.
  destruct (fmt_0d 4 y) as [|a [|b [|c [|d [|e t]]]]]; try discriminate.
  destruct (digito_ascii a) as [xa|] eqn:Ea; [|discriminate].
  destruct (digito_ascii b) as [xb|] eqn:Eb; [|discriminate].
  destruct (digito_ascii c) as [xc|] eqn:Ec; [|discriminate].
  destruct (digito_ascii d) as [xd|] eqn:Ed; [|discriminate].
  apply Z.eqb_eq in A. subst y.
  unfold le_Y, dois. cbn [append].
  rewrite (barra_d_ascii a xa _ Ea). cbn -[barra_d Z.mul Z.add]. rewrite ?app_nil_r.
  rewrite (barra_d_ascii b xb _ Eb). cbn -[barra_d Z.mul Z.add]. rewrite ?app_nil_r.
  rewrite (barra_d_ascii c xc _ Ec). cbn -[barra_d Z.mul Z.add]. rewrite ?app_nil_r.
  rewrite (barra_d_ascii d xd _ Ed). reflexivity.
Qed.

Lemma ano_sem_zeros_todos (y : Z) : 1000 <= y <= 9999 -> str_int y = fmt_0d 4 y.
Proof.
  intros H.
  assert (forallb ano_sem_zeros (intervalo 1000 (Z.to_nat 9000)) = true) as Hall
    by (vm_compute; reflexivity).
  rewrite forallb_forall in Hall. apply String.eqb_eq. apply Hall, In_intervalo. lia.
Qed.

(** From year 1000 on, a date key is the month key, a hyphen and the day. *)
Lemma strftime_Ymd_chave (dt : datetime) :
  1000 <= year dt <= 9999 ->
  strftime_Ymd dt
  = fmt_0d 4 (year dt) ++ "-" ++ fmt_0d 2 (month dt) ++ "-" ++ fmt_0d 2 (day dt).
Proof. intros H. unfold strftime_Ymd. now rewrite ano_sem_zeros_todos. Qed.

Lemma dia_ok_todos (d : Z) :
  1 <= d <= 31 -> exists mais, le_d (fmt_0d 2 d) = (d, EmptyString) :: mais.
Proof.
  intros H.
  assert (forallb dia_ok (intervalo 1 31) = true) as Hall by (vm_compute; reflexivity).
  rewrite forallb_forall in Hall.
  assert (In d (intervalo 1 31)) as Hin by (apply In_intervalo; lia).
  specialize (Hall d Hin). unfold dia_ok in Hall.
  destruct (le_d (fmt_0d 2 d)) as [|[v [|c t]] l]; try discriminate.
  apply Z.eqb_eq in Hall. subst v. now exists l.
Qed.

Lemma doze_meses (m : Z) (P : Z -> Prop) :
  1 <= m <= 12 ->
  P 1 -> P 2 -> P 3 -> P 4 -> P 5 -> P 6 -> P 7 -> P 8 -> P 9 -> P 10 -> P 11 -> P 12 ->
  P m.
Proof.
  intros H. intros.
  assert (m = 1 \/ m = 2 \/ m = 3 \/ m = 4 \/ m = 5 \/ m = 6 \/ m = 7 \/ m = 8
          \/ m = 9 \/ m = 10 \/ m = 11 \/ m = 12) as C by lia.
  repeat (destruct C as [-> | C]; [assumption|]). now subst.
Qed.

(** After the year and its hyphen: the month, its hyphen, and what follows. *)
Lemma casa_mes (y m : Z) (r : string) :
  1 <= m <= 12 ->
  flat_map (fun '(m', r3) =>
              flat_map (fun r4 => map (fun '(d, r5) => (y, m', d, r5)) (le_d r4))
                       (le_hifen r3))
           (le_m (fmt_0d 2 m ++ String "-" r))
  = map (fun '(d, r5) => (y, m, d, r5)) (le_d r).
Proof.
  intros H. pattern m. apply doze_meses; [exact H|..];
    cbn -[le_d]; rewrite ?app_nil_r; reflexivity.
Qed.

Lemma casa_Ymd_strftime (dt : datetime) :
  data_valida dt -> 1000 <= year dt ->
  exists mais,
    casa_Ymd (strftime_Ymd dt)
    = (year dt, month dt, day dt, EmptyString) :: mais.
Proof.
  intros [Hy [Hm Hd]] Hy4.
  assert (1 <= day dt <= 31) as Hd31.
  { pose proof (monthlen_bounds (year dt) (month dt) Hm). lia. }
  destruct (dia_ok_todos (day dt) Hd31) as [mais Hdia].
  rewrite strftime_Ymd_chave by lia. unfold casa_Ymd.
  rewrite le_Y_fmt by lia. cbn [flat_map le_hifen append Ascii.eqb Bool.eqb].
  rewrite !app_nil_r.
  change ("-" ++ fmt_0d 2 (day dt)) with (String "-" (fmt_0d 2 (day dt))).
  rewrite casa_mes by exact Hm. rewrite Hdia. simpl. eauto.
Qed.

Lemma strptime_strftime_Ymd (dt : datetime) :
  data_valida dt -> 1000 <= year dt ->
  strptime_Ymd (strftime_Ymd dt)
  = Ok (mk_datetime (year dt) (month dt) (day dt) 0 0).
Proof.
  intros H H4. destruct (casa_Ymd_strftime dt H H4) as [mais Hc].
  destruct H as [Hy [Hm Hd]].
  unfold strptime_Ymd. rewrite Hc. simpl.
  replace ((MINYEAR <=? year dt) && (day dt <=? monthlen (year dt) (month dt))) with true;
    [reflexivity|].
  symmetry. apply andb_true_iff. unfold MINYEAR. split; apply Z.leb_le; lia.
Qed.

(** X7.  Round trip of a date key: the text [get_date_str] writes for a date
    of the calendar from year 1000 on (the years [%Y] writes with four
    digits) is read back by the renderer's [strptime(..., "%Y-%m-%d")] as
    that same year, month and day, at midnight. *)
Theorem strptime_get_date_str (dt : datetime) :
  data_valida dt -> 1000 <= year dt ->
  strptime_Ymd (get_date_str dt)
  = Ok (mk_datetime (year dt) (month dt) (day dt) 0 0).
Proof. intros H H4. unfold get_date_str. now apply strptime_strftime_Ymd. Qed.

Lemma strptime_get_date_str_witness :
  strptime_Ymd (get_date_str (mk_datetime 2024 2 29 23 59))
  = Ok (mk_datetime 2024 2 29 0 0).
Proof.
  apply (strptime_get_date_str (mk_datetime 2024 2 29 23 59)).
  - unfold data_valida. cbn [year month day]. change (monthlen 2024 2) with 29. lia.
  - cbn [year]. lia.
Defined.

(** ** The month filter on keys written by the handler *)

Lemma prefix_append (p r : string) : String.prefix p (p ++ r) = true.
Proof.
  induction p as [|c p IH]; simpl; [now destruct r|].
  destruct (ascii_dec c c) as [_|N]; [exact IH | contradiction].
Qed.

Lemma append_vazio (s : string) : s ++ "" = s.
Proof. induction s as [|c s IH]; simpl; [reflexivity | now rewrite IH]. Qed.

Lemma append_assoc (a b c : string) : (a ++ b) ++ c = a ++ (b ++ c).
Proof. induction a as [|x a IH]; simpl; [reflexivity | now rewrite IH]. Qed.

Lemma prefix_app_inv (a a' b b' : string) :
  String.length a = String.length a' ->
  String.prefix (a ++ b) (a' ++ b') = true -> a = a' /\ String.prefix b b' = true.
Proof.
  revert a'. induction a as [|c a IH]; intros [|c' a'] Hlen H; try discriminate.
  - now split.
  - simpl in H. destruct (ascii_dec c c') as [->|_]; [|discriminate].
    injection Hlen as Hlen. destruct (IH a' Hlen H) as [-> Hb]. now split.
Qed.

Lemma length_fmt_ano (y : Z) : 0 <= y <= 9999 -> String.length (fmt_0d 4 y) = 4%nat.
Proof.
  intros H. pose proof (ano_ok_todos y H) as A. unfold ano_ok in A.
  destruct (fmt_0d 4 y) as [|a [|b [|c [|d [|e t]]]]]; try discriminate. reflexivity.
Qed.

Lemma fmt_ano_inj (y y' : Z) :
  0 <= y <= 9999 -> 0 <= y' <= 9999 -> fmt_0d 4 y = fmt_0d 4 y' -> y = y'.
Proof.
  intros H H' E. pose proof (ano_ok_todos y H) as A.
  pose proof (ano_ok_todos y' H') as A'. unfold ano_ok in A, A'.
  rewrite E in A.
  destruct (fmt_0d 4 y') as [|a [|b [|c [|d [|e t]]]]]; try discriminate.
  destruct (digito_ascii a), (digito_ascii b), (digito_ascii c), (digito_ascii d);
    try discriminate.
  apply Z.eqb_eq in A, A'. lia.
Qed.

Lemma dois_digitos_todos (n : Z) : 0 <= n <= 99 -> dois_digitos n = true.
Proof.
  intros H.
  assert (forallb dois_digitos (intervalo 0 100) = true) as Hall by (vm_compute; reflexivity).
  rewrite forallb_forall in Hall. apply Hall, In_intervalo. lia.
Qed.

Lemma length_fmt_2 (n : Z) : 0 <= n <= 99 -> String.length (fmt_0d 2 n) = 2%nat.
Proof.
  intros H. pose proof (dois_digitos_todos n H) as D. unfold dois_digitos in D.
  destruct (fmt_0d 2 n) as [|a [|b [|c s]]]; try discriminate. reflexivity.
Qed.

Lemma fmt_2_inj (n n' : Z) :
  0 <= n <= 99 -> 0 <= n' <= 99 -> fmt_0d 2 n = fmt_0d 2 n' -> n = n'.
Proof.
  intros H H' E. pose proof (dois_digitos_todos n H) as D.
  pose proof (dois_digitos_todos n' H') as D'. unfold dois_digitos in D, D'.
  rewrite E in D.
  destruct (fmt_0d 2 n') as [|a [|b [|c s]]]; try discriminate.
  destruct (digito_ascii a), (digito_ascii b); try discriminate.
  apply Z.eqb_eq in D, D'. lia.
Qed.

Lemma length_chave_do_mes (y m : Z) :
  0 <= y <= 9999 -> 0 <= m <= 99 -> String.length (chave_do_mes y m) = 7%nat.
Proof.
  intros Hy Hm. unfold chave_do_mes.
  rewrite !length_append, length_fmt_ano, length_fmt_2 by assumption. reflexivity.
Qed.

Lemma chave_do_mes_inj (y m y' m' : Z) :
  0 <= y <= 9999 -> 0 <= m <= 99 -> 0 <= y' <= 9999 -> 0 <= m' <= 99 ->
  chave_do_mes y m = chave_do_mes y' m' -> y = y' /\ m = m'.
Proof.
  intros Hy Hm Hy' Hm' E. unfold chave_do_mes in E.
  assert (String.prefix (fmt_0d 4 y ++ "-" ++ fmt_0d 2 m)
                        (fmt_0d 4 y' ++ "-" ++ fmt_0d 2 m') = true) as P.
  { rewrite E. rewrite <- (append_vazio (fmt_0d 4 y' ++ "-" ++ fmt_0d 2 m')) at 2.
    apply prefix_append. }
  apply prefix_app_inv in P; [|now rewrite !length_fmt_ano].
  destruct P as [Ey _]. apply fmt_ano_inj in Ey; trivial. subst y'.
  split; [reflexivity|].
  assert (fmt_0d 2 m = fmt_0d 2 m') as Em.
  { clear -E. induction (fmt_0d 4 y) as [|c s IH]; simpl in E; [now injection E|].
    injection E as E. now apply IH. }
  now apply fmt_2_inj in Em.
Qed.

Lemma prefixo_do_mes (dt : datetime) (y m : Z) :
  1000 <= year dt <= 9999 -> 1 <= month dt <= 12 ->
  0 <= y <= 9999 -> 1 <= m <= 12 ->
  startswith (strftime_Ymd dt) (chave_do_mes y m) = true
  <-> year dt = y /\ month dt = m.
Proof.
  intros Hy Hm Hy' Hm'. unfold startswith. rewrite strftime_Ymd_chave by exact Hy.
  fold (chave_do_mes (year dt) (month dt)).
  assert (fmt_0d 4 (year dt) ++ "-" ++ fmt_0d 2 (month dt) ++ "-" ++ fmt_0d 2 (day dt)
          = chave_do_mes (year dt) (month dt) ++ "-" ++ fmt_0d 2 (day dt)) as ->.
  { unfold chave_do_mes. now rewrite append_assoc. }
  split.
  - intros P.
    rewrite <- (append_vazio (chave_do_mes y m)) in P.
    apply prefix_app_inv in P; [|rewrite !length_chave_do_mes; trivial; lia].
    destruct P as [E _]. symmetry in E. apply chave_do_mes_inj in E; try lia.
  - intros [<- <-]. apply prefix_append.
Qed.

(** X8.  The month filter is exact on keys the handler writes from year 1000
    on: for a date in the years 1000..9999 and a month key of the years
    0..9999, the key [get_date_str dt] starts with the month key of
    [(y, m)] exactly when [dt] is in that year and month. *)
Theorem filtro_do_mes_exato (dt : datetime) (y m : Z) :
  1000 <= year dt <= 9999 -> 1 <= month dt <= 12 ->
  0 <= y <= 9999 -> 1 <= m <= 12 ->
  startswith (get_date_str dt) (chave_do_mes y m) = true
  <-> year dt = y /\ month dt = m.
Proof. intros Hy Hm Hy' Hm'. unfold get_date_str. now apply prefixo_do_mes. Qed.

Lemma filtro_do_mes_exato_witness :
  startswith (get_date_str manha) (chave_do_mes 2025 11) = true
  <-> year manha = 2025 /\ month manha = 11.
Proof.
  apply (filtro_do_mes_exato manha 2025 11); simpl; lia.
Defined.

(** ** When the renderer raises *)

Lemma strptime_so_ValueError (s : string) (e : excecao) :
  strptime_Ymd s = Levanta e -> e = ValueError.
Proof.
  unfold strptime_Ymd. destruct (casa_Ymd s) as [|[[[y m] d] resto] l].
  - now intros [= <-].
  - destruct (negb (resto =? "")%string); [now intros [= <-]|].
    destruct ((MINYEAR <=? y) && (d <=? monthlen y m)); [discriminate | now intros [= <-]].
Qed.

Lemma dict_get_chave {V} (k : string) (d : list (string * V)) :
  In k (dict_keys d) -> exists v, dict_get k d = Some v.
Proof.
  intros H. destruct (dict_get k d) as [v|] eqn:E; [eauto|].
  apply dict_get_None in E. contradiction.
Qed.

Lemma chaves_filtra_mes (month_key : string) (regs : list (string * list (string * Info)))
  (k : string) :
  In k (dict_keys (filtra_mes month_key regs))
  <-> In k (dict_keys regs) /\ startswith k month_key = true.
Proof.
  unfold filtra_mes.
  enough (forall acc : list (string * list (string * Info)),
             In k (dict_keys
                     (fold_left (fun acc '(data_str, usuarios) =>
                                   if startswith data_str month_key
                                   then dict_set data_str usuarios acc else acc)
                                regs acc))
             <-> In k (dict_keys acc)
                 \/ (In k (dict_keys regs) /\ startswith k month_key = true)) as H.
  { rewrite H. simpl. tauto. }
  induction regs as [|[k' us] regs IH]; intros acc; simpl.
  - tauto.
  - rewrite IH. destruct (startswith k' month_key) eqn:E.
    + rewrite dict_keys_set. destruct (dict_in k' acc) eqn:Ein.
      * split; [tauto|]. intros [H | [[-> | H] Hs]]; auto.
        left. unfold dict_in in Ein. destruct (dict_get k acc) eqn:Eg; [|discriminate].
        apply dict_get_In in Eg. apply in_map_iff. now exists (k, l).
      * rewrite in_app_iff. simpl. split.
        -- intros [[H | [<- | []]] | H]; auto. tauto.
        -- intros [H | [[<- | H] Hs]]; auto.
    + split; [tauto|]. intros [H | [[<- | H] Hs]]; auto. congruence.
Qed.

Lemma detalhes_ok (month : Z) (rm : list (string * list (string * Info)))
  (datas : list string) :
  (forall k, In k datas -> In k (dict_keys rm)) ->
  (forall k, In k datas -> exists dt, strptime_Ymd k = Ok dt) ->
  exists ds, detalhes month rm datas = Ok ds.
Proof.
  induction datas as [|k datas IH]; intros Hk Hp; simpl; [eauto|].
  destruct (Hp k (or_introl eq_refl)) as [dt ->].
  destruct (dict_get_chave k rm (Hk k (or_introl eq_refl))) as [us ->].
  destruct IH as [ds ->]; [intros; apply Hk; now right | intros; apply Hp; now right|].
  eauto.
Qed.

Lemma detalhes_levanta (month : Z) (rm : list (string * list (string * Info)))
  (datas : list string) (k : string) :
  (forall k, In k datas -> In k (dict_keys rm)) ->
  In k datas -> strptime_Ymd k = Levanta ValueError ->
  detalhes month rm datas = Levanta ValueError.
Proof.
  induction datas as [|k' datas IH]; intros Hk Hin Hbad; [destruct Hin|]. simpl.
  destruct (strptime_Ymd k') as [dt|e] eqn:Ep.
  - destruct (dict_get_chave k' rm (Hk k' (or_introl eq_refl))) as [us ->].
    rewrite IH; [reflexivity | intros; apply Hk; now right | | exact Hbad].
    destruct Hin as [-> | Hin]; [congruence | exact Hin].
  - now rewrite (strptime_so_ValueError k' e Ep).
Qed.

Lemma renderizar_retorna (year month : Z) (regs : list (string * list (string * Info))) :
  1 <= month <= 12 ->
  (forall k, chave_no_mes year month regs k -> exists dt, strptime_Ymd k = Ok dt) ->
  exists s, renderizar_calendario year month regs = Ok s.
Proof.
  intros Hm Hp. destruct (monthdayscalendar_ok year month Hm) as [weeks [Hw _]].
  unfold renderizar_calendario, linhas_calendario. rewrite Hw.
  fold (chave_do_mes year month).
  set (rm := filtra_mes (chave_do_mes year month) regs).
  assert (forall k, In k (sorted (dict_keys rm)) -> In k (dict_keys rm)) as Hs
    by (intros k; apply In_sorted).
  assert (forall k, In k (dict_keys rm) <-> chave_no_mes year month regs k) as Hrm
    by (intros k; apply chaves_filtra_mes).
  destruct rm as [|par rm'] eqn:E; [eauto|]. rewrite <- E in *.
  destruct (detalhes_ok month rm (sorted (dict_keys rm)) Hs) as [ds ->]; [|eauto].
  intros k Hk. apply Hp, Hrm, Hs, Hk.
Qed.

Lemma renderizar_levanta (year month : Z) (regs : list (string * list (string * Info)))
  (k : string) :
  1 <= month <= 12 ->
  chave_no_mes year month regs k ->
  strptime_Ymd k = Levanta ValueError ->
  renderizar_calendario year month regs = Levanta ValueError.
Proof.
  intros Hm Hk Hbad. destruct (monthdayscalendar_ok year month Hm) as [weeks [Hw _]].
  unfold renderizar_calendario, linhas_calendario. rewrite Hw.
  fold (chave_do_mes year month).
  set (rm := filtra_mes (chave_do_mes year month) regs).
  assert (forall k, In k (sorted (dict_keys rm)) -> In k (dict_keys rm)) as Hs
    by (intros k'; apply In_sorted).
  assert (forall k, In k (dict_keys rm) <-> chave_no_mes year month regs k) as Hrm
    by (intros k'; apply chaves_filtra_mes).
  apply Hrm in Hk.
  destruct rm as [|par rm'] eqn:E; [destruct Hk|]. rewrite <- E in *.
  rewrite (detalhes_levanta month rm (sorted (dict_keys rm)) k Hs); trivial.
  now apply In_sorted.
Qed.

(** A key whose day is written with a digit of another script: [\d] and
    [int] accept it, and the renderer lists the day as 28. *)
Lemma strptime_digito_arabe :
  strptime_Ymd ("2025-11-2" ++ String (ascii_of_nat 217) (String (ascii_of_nat 168) ""))
  = Ok (mk_datetime 2025 11 28 0 0).
Proof. reflexivity. Qed.

(** X9.  For a month in 1..12 the renderer returns exactly when every stored
    date key of the month parses as a date; one key of the month that does
    not parse makes it raise [ValueError]. *)
Theorem renderizar_levanta_sse (year month : Z) (regs : list (string * list (string * Info))) :
  1 <= month <= 12 ->
  ((forall k, chave_no_mes year month regs k -> exists dt, strptime_Ymd k = Ok dt) ->
   exists s, renderizar_calendario year month regs = Ok s)
  /\ (forall k, chave_no_mes year month regs k ->
                strptime_Ymd k = Levanta ValueError ->
                renderizar_calendario year month regs = Levanta ValueError).
Proof.
  intros Hm. split.
  - now apply renderizar_retorna.
  - intros k. now apply renderizar_levanta.
Qed.

Lemma renderizar_levanta_sse_witness :
  renderizar_calendario 2025 2 [("2025-02-30", [])] = Levanta ValueError.
Proof.
  destruct (renderizar_levanta_sse 2025 2 [("2025-02-30", [])]) as [_ H]; [lia|].
  apply (H "2025-02-30").
  - split; [now left | reflexivity].
  - reflexivity.
Defined.

(** ** From the click to the calendar *)

Lemma dict_ok_garantido {V} (k : string) (v : V) (d : list (string * V)) :
  dict_ok d -> dict_ok (if dict_in k d then d else dict_set k v d).
Proof. intros H. destruct (dict_in k d); [exact H | now apply dict_ok_set]. Qed.

Lemma dict_ok_marca_ponto (date_str hora_str user_id nome tipo : string)
  (regs : list (string * list (string * Info))) :
  dict_ok regs -> dict_ok (marca_ponto date_str hora_str user_id nome tipo regs).
Proof. intros H. unfold marca_ponto. now apply dict_ok_set, dict_ok_garantido. Qed.

Lemma chaves_marca_ponto (date_str hora_str user_id nome tipo : string)
  (regs : list (string * list (string * Info))) (k : string) :
  In k (dict_keys (marca_ponto date_str hora_str user_id nome tipo regs)) ->
  k = date_str \/ In k (dict_keys regs).
Proof.
  unfold marca_ponto. cbv zeta. rewrite dict_keys_set.
  set (r1 := if dict_in date_str regs then regs else dict_set date_str [] regs).
  assert (forall k, In k (dict_keys r1) -> k = date_str \/ In k (dict_keys regs)) as H.
  { intros k0. unfold r1. destruct (dict_in date_str regs) eqn:E; [tauto|].
    rewrite dict_keys_set, E, in_app_iff. simpl. intuition. }
  destruct (dict_in date_str r1).
  - apply H.
  - rewrite in_app_iff. simpl. intros [Hk | [<- | []]]; [now apply H | now left].
Qed.

(** X10.  From the click to the calendar.  When the stored records form a
    dictionary whose keys of the current month parse as dates, a clock-in at
    a valid moment [agora] of the years 1000..9999 is saved and the calendar
    of [agora]'s month,
    rendered from the saved document, does not raise and contains the line
    of the user, with the hour and minute of [agora] as entry time. *)
Theorem ponto_aparece_no_calendario (agora : datetime) (user_id nome : string)
  (w w0 : Mundo) (d : Dados) :
  momento_valido agora ->
  carregar_dados w = (Ok d, w0) ->
  dict_ok (ou (registros d) []) ->
  (forall k, chave_no_mes (year agora) (month agora) (ou (registros d) []) k ->
             exists dt, strptime_Ymd k = Ok dt) ->
  exists conf w' d' info' s antes depois,
    gravar_ponto agora user_id nome "entrada" w = (Ok conf, w')
    /\ guarda w' d'
    /\ registro_de d' (get_date_str agora) user_id = Some info'
    /\ renderizar_calendario (year agora) (month agora) (ou (registros d') []) = Ok s
    /\ s = join nl
             (antes
              ++ ("- " ++ ou (name info') user_id ++ ": entrada " ++ hora_minuto agora
                  ++ " | saída " ++ so_hora (ou (saida info') sem_hora))
              :: depois).
Proof.
  intros [[Hy [Hm Hd]] [Hy4 [Hh Hmin]]] Hload Hok Hparse.
  rewrite (gravar_ponto_eq agora user_id nome "entrada" w w0 d Hload). cbv zeta.
  set (d' := dados_marcados agora user_id nome "entrada" d).
  set (regs' := marca_ponto (get_date_str agora) (strftime_YmdHM agora) user_id nome
                  "entrada" (ou (registros d) [])).
  assert (ou (registros d') [] = regs') as Hregs' by reflexivity.
  destruct (marca_ponto_spec (get_date_str agora) (strftime_YmdHM agora) user_id nome
              "entrada" (ou (registros d) []))
    as [_ [usuarios' [Hdata [_ Hinfo]]]].
  fold regs' in Hdata. cbv zeta in Hinfo. simpl (_ =? _)%string in Hinfo.
  set (base := ou (dict_get user_id (ou (dict_get (get_date_str agora)
                                             (ou (registros d) [])) []))
                  (info_inicial nome)) in *.
  set (info' := mk_info (name base) (Some (strftime_YmdHM agora)) (saida base)) in *.
  assert (dict_ok regs') as Hok' by (now apply dict_ok_marca_ponto).
  assert (startswith (get_date_str agora) (chave_do_mes (year agora) (month agora)) = true)
    as Hpre by (unfold get_date_str; apply prefixo_do_mes; try lia; tauto).
  destruct (renderizar_retorna (year agora) (month agora) regs' Hm) as [s Hs].
  { intros k [Hk Hsk]. apply chaves_marca_ponto in Hk. destruct Hk as [-> | Hk].
    - eexists. unfold get_date_str. apply strptime_strftime_Ymd; [repeat split|]; lia.
    - apply Hparse. now split. }
  exists (msg_conf (strftime_YmdHM agora) nome "entrada"). eexists. exists d', info', s.
  assert (exists antes depois, s = join nl (antes ++ linha_usuario (user_id, info') :: depois))
    as [antes [depois Hlinha]].
  { unfold renderizar_calendario in Hs.
    destruct (linhas_calendario (year agora) (month agora) regs') as [linhas|] eqn:Hl;
      [|discriminate].
    injection Hs as <-.
    assert (In (linha_usuario (user_id, info')) linhas) as Hin.
    { eapply linhas_calendario_In; [exact Hok' | | exact Hpre | | exact Hl].
      - apply dict_get_In, Hdata.
      - apply dict_get_In, Hinfo. }
    apply in_split in Hin. destruct Hin as [antes [depois ->]]. eauto. }
  exists antes, depois. split; [reflexivity|]. split; [apply guarda_salvar|].
  split; [|split].
  - unfold registro_de. rewrite Hregs', Hdata. exact Hinfo.
  - rewrite Hregs'. exact Hs.
  - rewrite Hlinha. unfold linha_usuario, info'. cbn [name entrada saida ou].
    now rewrite so_hora_carimbo.
Qed.

Lemma ponto_aparece_no_calendario_witness :
  exists conf w' d' info' s antes depois,
    gravar_ponto manha "42" "alice" "entrada" mundo_novo = (Ok conf, w')
    /\ guarda w' d'
    /\ registro_de d' (get_date_str manha) "42" = Some info'
    /\ renderizar_calendario 2025 11 (ou (registros d') []) = Ok s
    /\ s = join nl
             (antes
              ++ ("- " ++ ou (name info') "42" ++ ": entrada " ++ hora_minuto manha
                  ++ " | saída " ++ so_hora (ou (saida info') sem_hora))
              :: depois).
Proof.
  apply (ponto_aparece_no_calendario manha "42" "alice" mundo_novo
           (snd (carregar_dados mundo_novo)) dados_vazios).
  - unfold momento_valido, data_valida. cbn [manha year month day hour minute].
    change (monthlen 2025 11) with 30. lia.
  - reflexivity.
  - constructor.
  - intros k [[] _].
Defined.

(** ** Clock-in, then clock-out *)

Lemma carregar_dados_guarda_registros (R : option (list (string * list (string * Info))))
  (w : Mundo) :
  guarda_registros R w ->
  exists d w0, carregar_dados w = (Ok d, w0) /\ registros d = R.
Proof.
  intros [d [Hg HR]]. rewrite (carregar_dados_guarda w d Hg). eauto.
Qed.

(** X11.  Pressing ENTRADA and later SAÍDA on the same day, whatever the
    publisher and the replies did in between: the stored record of the user
    for that day has the first click as entry and the second as exit, and the
    name it had before the first click, or the display name of the first
    click when it was created by it. *)
Theorem entrada_depois_saida (cid : Z) (t1 t2 : datetime) (user_id nome1 nome2 : string)
  (w w0 : Mundo) (d : Dados) :
  get_date_str t1 = get_date_str t2 ->
  carregar_dados w = (Ok d, w0) ->
  let w1 := snd (botao_entrada cid t1 user_id nome1 w) in
  let w2 := snd (botao_saida cid t2 user_id nome2 w1) in
  exists d2 info,
    guarda w2 d2
    /\ registro_de d2 (get_date_str t1) user_id = Some info
    /\ entrada info = Some (strftime_YmdHM t1)
    /\ saida info = Some (strftime_YmdHM t2)
    /\ name info = name (ou (registro_de d (get_date_str t1) user_id) (info_inicial nome1)).
Proof.
  intros Hdia Hload w1 w2. unfold botao_entrada, botao_saida in *.
  pose proof (registrar_ponto_guarda cid t1 user_id nome1 "entrada" w w0 d Hload) as H1.
  fold w1 in H1.
  destruct (carregar_dados_guarda_registros _ w1 H1) as [d1 [w10 [Hload1 HR1]]].
  pose proof (registrar_ponto_guarda cid t2 user_id nome2 "saida" w1 w10 d1 Hload1) as H2.
  fold w2 in H2. destruct H2 as [d2 [Hg2 HR2]].
  destruct (gravar_ponto_efeito w w0 d t1 user_id nome1 "entrada" Hload)
    as [c1 [w1' [d1' [Hg1 [Hgd1 [_ [_ [_ [i1 [Hi1 [Hn1 [He1 _]]]]]]]]]]]].
  destruct (He1 eq_refl) as [He1a He1b].
  destruct (gravar_ponto_efeito w1 w10 d1 t2 user_id nome2 "saida" Hload1)
    as [c2 [w2' [d2' [Hgr2 [Hgd2 [_ [_ [_ [i2 [Hi2 [Hn2 [_ [Hs2 _]]]]]]]]]]]]].
  destruct (Hs2 eq_refl) as [Hs2a Hs2b].
  assert (registros d1' = registros d1) as E1.
  { rewrite (gravar_ponto_eq t1 user_id nome1 "entrada" w w0 d Hload) in Hg1.
    injection Hg1 as _ <-. unfold guarda in Hgd1. simpl in Hgd1. injection Hgd1 as <-.
    now rewrite HR1. }
  assert (registros d2' = registros d2) as E2.
  { rewrite (gravar_ponto_eq t2 user_id nome2 "saida" w1 w10 d1 Hload1) in Hgr2.
    injection Hgr2 as _ <-. unfold guarda in Hgd2. simpl in Hgd2. injection Hgd2 as <-.
    now rewrite HR2. }
  assert (registro_de d1 (get_date_str t2) user_id = Some i1) as Hr1
    by (unfold registro_de in *; now rewrite <- Hdia, <- E1).
  rewrite Hr1 in Hn2, Hs2b. simpl in Hn2, Hs2b.
  exists d2, i2. split; [exact Hg2|]. split; [|split; [|split]].
  - unfold registro_de in *. now rewrite Hdia, <- E2.
  - congruence.
  - exact Hs2a.
  - congruence.
Qed.

Lemma entrada_depois_saida_witness :
  let w1 := snd (botao_entrada 0 manha "42" "alice" mundo_novo) in
  let w2 := snd (botao_saida 0 tarde "42" "alicia" w1) in
  exists d2 info,
    guarda w2 d2
    /\ registro_de d2 (get_date_str manha) "42" = Some info
    /\ entrada info = Some (strftime_YmdHM manha)
    /\ saida info = Some (strftime_YmdHM tarde)
    /\ name info
       = name (ou (registro_de dados_vazios (get_date_str manha) "42")
                  (info_inicial "alice")).
Proof.
  apply (entrada_depois_saida 0 manha tarde "42" "alice" "alicia" mundo_novo
           (snd (carregar_dados mundo_novo)) dados_vazios).
  - reflexivity.
  - reflexivity.
Defined.

(** ** The handler without a calendar channel *)

(** X12.  With the calendar channel not configured, a clock event is still
    saved and confirmed: the handler loads, saves the stamped document, logs
    the notice of the publisher and sends the confirmation (or raises the
    error of the refused reply); no message of the channel is read, created
    or edited. *)
Theorem registrar_ponto_sem_canal (agora : datetime) (user_id nome tipo : string)
  (w w0 : Mundo) (d : Dados) :
  carregar_dados w = (Ok d, w0) ->
  let salvo := dados_marcados agora user_id nome tipo d in
  let w1 := com_evento (EvPrint aviso_sem_canal)
              (com_evento (EvArquivoEscrito salvo) (com_arquivo salvo w0)) in
  registrar_ponto 0 agora user_id nome tipo w
  = match falha_resposta (falhas w) with
    | None => (Ok tt, com_evento (EvResposta (msg_conf (strftime_YmdHM agora) nome tipo)) w1)
    | Some e => (Levanta e, w1)
    end.
Proof.
  intros Hload salvo w1.
  destruct (carregar_dados_inv w w0 d Hload) as [_ [_ [_ [_ [Hf _]]]]].
  unfold registrar_ponto, bind at 1.
  rewrite (gravar_ponto_eq agora user_id nome tipo w w0 d Hload). cbv zeta.
  fold salvo. unfold atualizar_mensagem_calendario. simpl (0 =? 0).
  rewrite <- Hf.
  unfold bind, registra, responde, chamada, bind, le_mundo, levanta. simpl.
  destruct (falha_resposta (falhas w0)); reflexivity.
Qed.

Lemma registrar_ponto_sem_canal_witness :
  registrar_ponto 0 manha "42" "alice" "entrada" mundo_novo
  = (Ok tt,
     com_evento (EvResposta "Entrada registrada para alice às **09:00**.")
       (com_evento (EvPrint aviso_sem_canal)
          (com_evento (EvArquivoEscrito (dados_marcados manha "42" "alice" "entrada" dados_vazios))
             (com_arquivo (dados_marcados manha "42" "alice" "entrada" dados_vazios)
                (snd (carregar_dados mundo_novo)))))).
Proof.
  apply (registrar_ponto_sem_canal manha "42" "alice" "entrada" mundo_novo
           (snd (carregar_dados mundo_novo)) dados_vazios).
  reflexivity.
Defined.

(** ** The confirmation shows the time of the click *)

Lemma substring_append (a b : string) (n : nat) :
  substring (String.length a) n (a ++ b) = substring 0 n b.
Proof. induction a as [|c a IH]; simpl; [reflexivity | exact IH]. Qed.

Lemma substring_tudo (b : string) : substring 0 (String.length b) b = b.
Proof. induction b as [|c b IH]; simpl; [reflexivity | now rewrite IH]. Qed.

Lemma length_strftime_Ymd (dt : datetime) :
  1000 <= year dt <= 9999 -> 0 <= month dt <= 99 -> 0 <= day dt <= 99 ->
  String.length (strftime_Ymd dt) = 10%nat.
Proof.
  intros Hy Hm Hd. rewrite strftime_Ymd_chave by exact Hy.
  rewrite !length_append, length_fmt_ano, !length_fmt_2 by (assumption || lia).
  reflexivity.
Qed.

Lemma length_hora_minuto (dt : datetime) :
  0 <= hour dt <= 99 -> 0 <= minute dt <= 99 ->
  String.length (hora_minuto dt) = 5%nat.
Proof.
  intros Hh Hm. unfold hora_minuto.
  rewrite !length_append, !length_fmt_2 by assumption. reflexivity.
Qed.

Lemma hora_str_11_16 (dt : datetime) :
  1000 <= year dt <= 9999 -> 0 <= month dt <= 99 -> 0 <= day dt <= 99 ->
  0 <= hour dt <= 99 -> 0 <= minute dt <= 99 ->
  substring 11 5 (strftime_YmdHM dt) = hora_minuto dt.
Proof.
  intros Hy Hm Hd Hh Hmin. unfold strftime_YmdHM. fold (hora_minuto dt).
  change (strftime_Ymd dt ++ " " ++ hora_minuto dt)
    with (strftime_Ymd dt ++ String " " (hora_minuto dt)).
  rewrite <- (append_vazio (strftime_Ymd dt)) at 1.
  rewrite append_assoc. simpl ("" ++ _).
  replace (strftime_Ymd dt ++ String " " (hora_minuto dt))
    with ((strftime_Ymd dt ++ " ") ++ hora_minuto dt) by (now rewrite append_assoc).
  replace 11%nat with (String.length (strftime_Ymd dt ++ " "))
    by (rewrite length_append, length_strftime_Ymd by assumption; reflexivity).
  rewrite substring_append.
  rewrite <- (length_hora_minuto dt Hh Hmin). apply substring_tudo.
Qed.

(** X13.  When the handler returns normally at a valid moment of the years
    1000..9999, where the stamp has its time at positions 11 to 15, the last
    thing it did was to send the user the confirmation naming the kind of
    stamp, the display name and the hour and minute of the click. *)
Theorem confirmacao_da_hora (cid : Z) (agora : datetime) (user_id nome tipo : string)
  (w w' : Mundo) :
  momento_valido agora ->
  registrar_ponto cid agora user_id nome tipo w = (Ok tt, w') ->
  exists evs, eventos w' = (evs ++ [EvResposta (confirmacao agora nome tipo)])%list.
Proof.
  intros [[Hy [Hm Hd]] [Hy4 [Hh Hmin]]] H.
  assert (msg_conf (strftime_YmdHM agora) nome tipo = confirmacao agora nome tipo) as Hconf.
  { pose proof (monthlen_bounds (year agora) (month agora) Hm).
    unfold msg_conf, confirmacao. rewrite hora_str_11_16 by lia.
    now destruct (tipo =? "entrada")%string. }
  destruct (carregar_dados_nao_levanta w) as [d [w0 Hload]].
  unfold registrar_ponto, bind at 1 in H.
  rewrite (gravar_ponto_eq agora user_id nome tipo w w0 d Hload) in H. cbv zeta in H.
  rewrite Hconf in H. unfold bind in H.
  destruct (atualizar_mensagem_calendario cid (year agora) (month agora) _)
    as [[[]|e] w2]; [|discriminate].
  unfold responde, chamada, bind, le_mundo, levanta, registra in H.
  destruct (falha_resposta (falhas w2)); [discriminate|].
  injection H as <-. simpl. eauto.
Qed.

Lemma confirmacao_da_hora_witness :
  exists evs,
    eventos (snd (registrar_ponto 77 manha "42" "alice" "entrada" mundo_novo))
    = (evs ++ [EvResposta "Entrada registrada para alice às **09:00**."])%list.
Proof.
  apply (confirmacao_da_hora 77 manha "42" "alice" "entrada" mundo_novo).
  - unfold momento_valido, data_valida. cbn [manha year month day hour minute].
    change (monthlen 2025 11) with 30. lia.
  - vm_compute. reflexivity.
Defined.

(** ** Start-up *)

(** X14.  Start-up never overwrites the data file: [on_ready] returns
    normally, leaves an existing document in place, and creates the empty
    document only when the file is absent; either way the file exists
    afterwards and a following load returns its document. *)
Theorem on_ready_arquivo (bot_user : string) (bot_id : Z) (w : Mundo) :
  let w' := snd (on_ready bot_user bot_id w) in
  fst (on_ready bot_user bot_id w) = Ok tt
  /\ (forall d, guarda w d -> guarda w' d)
  /\ (arquivo w = None -> guarda w' dados_vazios)
  /\ exists d, guarda w' d /\ fst (carregar_dados w') = Ok d
               /\ arquivo (snd (carregar_dados w')) = arquivo w'.
Proof.
  assert (on_ready bot_user bot_id w
          = (Ok tt,
             let w1 := com_evento
                         (EvPrint ("Bot conectado como " ++ bot_user ++ " (ID: "
                                   ++ str_int bot_id ++ ")")) w in
             match arquivo w with
             | Some _ => w1
             | None => com_evento EvArquivoCriado (com_arquivo dados_vazios w1)
             end)) as E.
  { unfold on_ready, garantir_arquivo, bind, registra, le_mundo, poe_arquivo, ret.
    simpl. destruct (arquivo w) eqn:Ea; unfold com_evento, com_arquivo; simpl;
      rewrite ?Ea; reflexivity. }
  rewrite E. cbv zeta. cbn [fst snd]. split; [reflexivity|].
  destruct (arquivo w) as [d|] eqn:Ea.
  - split; [intros d' Hd'; unfold guarda in *; simpl; congruence|].
    split; [discriminate|].
    exists d. split; [exact Ea|].
    rewrite (carregar_dados_guarda _ d) by exact Ea. simpl. tauto.
  - split; [intros d' Hd'; unfold guarda in Hd'; congruence|]. split; [reflexivity|].
    exists dados_vazios. split; [reflexivity|].
    rewrite (carregar_dados_guarda _ dados_vazios) by reflexivity. simpl. tauto.
Qed.

(** ** The show-calendar command only reads *)

Lemma comando_calendario_apos_carga (ano mes : Z) (w w0 : Mundo) (d : Dados) :
  (mes <? 1) || (12 <? mes) = false ->
  carregar_dados w = (Ok d, w0) ->
  exists r wf,
    comando_calendario ano mes w = (r, wf)
    /\ (wf = w0 \/ exists embed, wf = com_evento (EvCtxSendEmbed embed) w0).
Proof.
  intros Hmes Hload. unfold comando_calendario. rewrite Hmes.
  unfold bind at 1. rewrite Hload.
  unfold bind, eleva, ctx_send_embed, chamada, bind, le_mundo, levanta, registra.
  destruct (renderizar_calendario ano mes (ou (registros d) [])) as [descricao|e1];
    [destruct (MESES_PT mes) as [nome_mes|e2];
     [destruct (falha_ctx_send (falhas w0))|]|];
    do 2 eexists; (split; [reflexivity|]);
    first [left; reflexivity | right; eexists; reflexivity].
Qed.

(** X15.  [!calendario] never writes: whatever the year, the month and the
    outcome, it leaves the messages of the channel untouched, keeps an
    existing data file as it is (an absent one may be created empty by the
    load), and no event it adds is a write of the file or of the channel. *)
Theorem comando_calendario_so_le (ano mes : Z) (w : Mundo) :
  let w' := snd (comando_calendario ano mes w) in
  canal_mensagens w' = canal_mensagens w
  /\ proximo_id w' = proximo_id w
  /\ (forall d, guarda w d -> guarda w' d)
  /\ (arquivo w = None -> arquivo w' = None \/ guarda w' dados_vazios)
  /\ exists evs, eventos w' = (eventos w ++ evs)%list
                 /\ Forall (fun ev => ~ escrita ev) evs.
Proof.
  intros w'. destruct ((mes <? 1) || (12 <? mes)) eqn:Hmes.
  - assert (mes < 1 \/ 12 < mes) as H
      by (apply orb_true_iff in Hmes; destruct Hmes; [left | right]; now apply Z.ltb_lt).
    unfold w'. rewrite (comando_calendario_recusa ano mes w H).
    destruct (falha_ctx_send (falhas w)); simpl.
    + repeat split; auto. exists []. now rewrite app_nil_r.
    + repeat split; auto. exists [EvCtxSend mes_invalido]. split; [reflexivity|].
      repeat constructor. simpl. tauto.
  - destruct (arquivo w) as [d0|] eqn:Ea.
    + destruct (comando_calendario_apos_carga ano mes w _ d0 Hmes
                  (carregar_dados_guarda w d0 Ea)) as [r [wf [Hr [-> | [embed ->]]]]];
        unfold w'; rewrite Hr; simpl; unfold guarda; simpl;
        (split; [reflexivity|]); (split; [reflexivity|]); (split; [auto|]);
        (split; [discriminate|]).
      * exists [EvArquivoLido]. split; [reflexivity|]. repeat constructor. simpl. tauto.
      * exists [EvArquivoLido; EvCtxSendEmbed embed]. rewrite <- app_assoc.
        split; [reflexivity|]. repeat constructor; simpl; tauto.
    + destruct (comando_calendario_apos_carga ano mes w _ dados_vazios Hmes
                  (carregar_dados_ausente w Ea)) as [r [wf [Hr [-> | [embed ->]]]]];
        unfold w'; rewrite Hr; simpl; unfold guarda; simpl;
        (split; [reflexivity|]); (split; [reflexivity|]);
        (split; [intros d Hd; congruence|]); (split; [auto|]).
      * exists [EvArquivoCriado; EvArquivoLido]. split; [reflexivity|].
        repeat constructor; simpl; tauto.
      * exists [EvArquivoCriado; EvArquivoLido; EvCtxSendEmbed embed].
        rewrite <- app_assoc. split; [reflexivity|]. repeat constructor; simpl; tauto.
Qed.

(** ** The grid shows every day of the month once *)

Lemma firstn_soma {A} (n m : nat) (l : list A) :
  firstn (n + m) l = (firstn n l ++ firstn m (skipn n l))%list.
Proof.
  revert l. induction n as [|n IH]; intros l; simpl; [reflexivity|].
  destruct l as [|x l]; simpl; [now rewrite firstn_nil | now rewrite IH].
Qed.

Lemma concat_fatias_de {A} (l : list A) (c i : nat) :
  concat (map (fun k => fatia7 l (7 * k)) (seq i c))
  = firstn (7 * c) (skipn (7 * i) l).
Proof.
  revert i. induction c as [|c IH]; intros i; [reflexivity|].
  cbn [seq map concat]. rewrite IH. unfold fatia7.
  replace (7 * S c)%nat with (7 + 7 * c)%nat by lia.
  rewrite firstn_soma, skipn_skipn.
  replace (7 + 7 * i)%nat with (7 * S i)%nat by lia. reflexivity.
Qed.

(** Cutting a list in slices of seven and gluing them gives the list back. *)
Lemma concat_fatias {A} (l : list A) :
  concat (map (fatia7 l) (range_de_7 (List.length l))) = l.
Proof.
  unfold range_de_7. rewrite map_map. rewrite concat_fatias_de. simpl skipn.
  apply firstn_all2.
  pose proof (Nat.div_mod_eq (List.length l + 6) 7) as E.
  pose proof (Nat.mod_upper_bound (List.length l + 6) 7 ltac:(lia)) as B. lia.
Qed.

Lemma filter_repeat_0 (n : nat) : filter (fun d => negb (d =? 0)) (repeat 0 n) = [].
Proof. induction n as [|n IH]; simpl; [reflexivity | exact IH]. Qed.

Lemma filter_range1 (n : Z) : filter (fun d => negb (d =? 0)) (range1 n) = range1 n.
Proof.
  unfold range1. apply forallb_filter_id. apply forallb_forall. intros d Hd.
  apply in_map_iff in Hd. destruct Hd as [k [<- Hk]]. apply in_seq in Hk.
  apply negb_true_iff, Z.eqb_neq. lia.
Qed.

(** X16.  The grid shows the month: for a month in 1..12, the rows the
    renderer writes come from weeks whose cells, read row by row, are as many
    blanks as the weekday of the first (Monday is none), then the days 1 to
    the length of the month, each once and in order, then blanks up to the
    end of the last week. *)
Theorem grade_mostra_o_mes (year month : Z) (regs : list (string * list (string * Info)))
  (s : string) :
  1 <= month <= 12 ->
  renderizar_calendario year month regs = Ok s ->
  exists weeks resto depois,
    s = join nl (cerca :: cabecalho :: map linha_semana weeks ++ cerca :: resto)
    /\ concat weeks
       = (repeat 0 (Z.to_nat (weekday year month 1))
          ++ range1 (monthlen year month) ++ repeat 0 depois)%list
    /\ dias_mostrados weeks = range1 (monthlen year month)
    /\ (depois < 7)%nat.
Proof.
  intros Hm H. unfold renderizar_calendario in H.
  destruct (linhas_calendario year month regs) as [linhas|] eqn:Hl; [|discriminate].
  injection H as <-.
  destruct (linhas_calendario_forma _ _ _ _ Hl) as [weeks [resto [Hw [-> _]]]].
  unfold monthdayscalendar in Hw. rewrite itermonthdays_ok in Hw by exact Hm.
  injection Hw as <-.
  exists (map (fatia7 (dias_do_mes year month))
              (range_de_7 (List.length (dias_do_mes year month)))), resto.
  exists (Z.to_nat ((0 - weekday year month 1 - monthlen year month) mod 7)).
  split; [reflexivity|]. unfold dias_mostrados. rewrite concat_fatias.
  split; [reflexivity|]. split.
  - unfold dias_do_mes. rewrite !filter_app, !filter_repeat_0, filter_range1.
    now rewrite app_nil_r.
  - pose proof (Z.mod_pos_bound (0 - weekday year month 1 - monthlen year month) 7
                  ltac:(lia)). lia.
Qed.

Lemma grade_mostra_o_mes_witness :
  exists weeks resto depois,
    maio_2024_vazio
    = join nl (cerca :: cabecalho :: map linha_semana weeks ++ cerca :: resto)
    /\ concat weeks
       = (repeat 0 (Z.to_nat (weekday 2024 5 1))
          ++ range1 (monthlen 2024 5) ++ repeat 0 depois)%list
    /\ dias_mostrados weeks = range1 (monthlen 2024 5)
    /\ (depois < 7)%nat.
Proof.
  apply (grade_mostra_o_mes 2024 5 []).
  - lia.
  - reflexivity.
Defined.

(** ** The days are listed in ascending order *)

Lemma insere_ordenada (k : string) (l : list string) :
  Sorted antes_ou_igual l -> Sorted antes_ou_igual (insere k l).
Proof.
  induction l as [|x l IH]; intros Hs; simpl.
  - repeat constructor.
  - destruct (String.leb k x) eqn:E.
    + constructor; [exact Hs|]. now constructor.
    + inversion Hs as [|? ? Hs' Hhd]; subst. constructor; [now apply IH|].
      assert (antes_ou_igual x k) as Hxk.
      { destruct (String.leb_total k x) as [H|H]; [congruence | exact H]. }
      destruct l as [|y l]; simpl.
      * now constructor.
      * destruct (String.leb k y); constructor; trivial.
        now inversion Hhd.
Qed.

Lemma sorted_ordenada (l : list string) : Sorted antes_ou_igual (sorted l).
Proof.
  induction l as [|x l IH]; simpl; [constructor | now apply insere_ordenada].
Qed.

Lemma insere_permutation (k : string) (l : list string) : Permutation (insere k l) (k :: l).
Proof.
  induction l as [|x l IH]; simpl; [reflexivity|].
  destruct (String.leb k x); [reflexivity|].
  rewrite IH. apply perm_swap.
Qed.

Lemma sorted_permutation (l : list string) : Permutation (sorted l) l.
Proof.
  induction l as [|x l IH]; simpl; [reflexivity|].
  rewrite insere_permutation. now constructor.
Qed.

Lemma dict_ok_filtra_mes (month_key : string) (regs : list (string * list (string * Info))) :
  dict_ok (filtra_mes month_key regs).
Proof.
  unfold filtra_mes.
  enough (forall acc : list (string * list (string * Info)),
             dict_ok acc ->
             dict_ok (fold_left (fun acc '(data_str, usuarios) =>
                                   if startswith data_str month_key
                                   then dict_set data_str usuarios acc else acc)
                                regs acc)) as H by (apply H; constructor).
  induction regs as [|[k us] regs IH]; intros acc Hacc; simpl; [exact Hacc|].
  apply IH. destruct (startswith k month_key); [now apply dict_ok_set | exact Hacc].
Qed.

Lemma detalhes_forma (month : Z) (rm : list (string * list (string * Info)))
  (datas : list string) (ds : list string) :
  detalhes month rm datas = Ok ds -> ds = flat_map (bloco month rm) datas.
Proof.
  revert ds. induction datas as [|k datas IH]; intros ds H; simpl in *.
  - now injection H as <-.
  - unfold bloco at 1.
    destruct (strptime_Ymd k) as [dt|]; [|discriminate].
    destruct (dict_get k rm) as [us|]; [|discriminate].
    destruct (detalhes month rm datas) as [mais|]; [|discriminate].
    injection H as <-. now rewrite (IH mais eq_refl).
Qed.

(** X17.  The days are listed in order.  When the renderer returns and the
    month has records, the text after the grid is the title followed by one
    block per stored date key of the month, each key once, in ascending order
    of the keys; a block is the day's heading and one line per user in the
    order in which the users are stored. *)
Theorem calendario_em_ordem (year month : Z) (regs : list (string * list (string * Info)))
  (s : string) :
  renderizar_calendario year month regs = Ok s ->
  filtra_mes (chave_do_mes year month) regs <> [] ->
  exists weeks datas,
    monthdayscalendar 0 year month = Ok weeks
    /\ s = join nl (grade weeks
                    ++ titulo_registros
                    :: flat_map (bloco month (filtra_mes (chave_do_mes year month) regs))
                                datas)
    /\ Sorted antes_ou_igual datas
    /\ NoDup datas
    /\ (forall k, In k datas <-> chave_no_mes year month regs k).
Proof.
  intros H Hne. unfold renderizar_calendario, linhas_calendario in H.
  destruct (monthdayscalendar 0 year month) as [weeks|]; [|discriminate].
  fold (chave_do_mes year month) in H.
  set (rm := filtra_mes (chave_do_mes year month) regs) in *.
  destruct rm as [|par rm'] eqn:E; [contradiction|]. rewrite <- E in *.
  destruct (detalhes month rm (sorted (dict_keys rm))) as [ds|] eqn:Hd; [|discriminate].
  injection H as <-. apply detalhes_forma in Hd. subst ds.
  exists weeks, (sorted (dict_keys rm)).
  split; [reflexivity|]. split; [reflexivity|]. split; [apply sorted_ordenada|]. split.
  - eapply Permutation_NoDup; [symmetry; apply sorted_permutation|].
    apply dict_ok_filtra_mes.
  - intros k. rewrite In_sorted. apply chaves_filtra_mes.
Qed.

Lemma calendario_em_ordem_witness :
  let regs := [("2025-11-28", [("42", mk_info (Some "alice") None None)]);
               ("2025-11-03", [("7", mk_info None None None)])] in
  exists weeks datas,
    monthdayscalendar 0 2025 11 = Ok weeks
    /\ join nl (grade [[0; 0; 0; 0; 0; 1; 2]; [3; 4; 5; 6; 7; 8; 9];
                       [10; 11; 12; 13; 14; 15; 16]; [17; 18; 19; 20; 21; 22; 23];
                       [24; 25; 26; 27; 28; 29; 30]]
                ++ [titulo_registros;
                    nl ++ "__Dia 03/11__"; "- 7: entrada --:-- | saída --:--";
                    nl ++ "__Dia 28/11__"; "- alice: entrada --:-- | saída --:--"])
       = join nl (grade weeks
                  ++ titulo_registros
                  :: flat_map (bloco 11 (filtra_mes (chave_do_mes 2025 11) regs)) datas)
    /\ Sorted antes_ou_igual datas
    /\ NoDup datas
    /\ (forall k, In k datas <-> chave_no_mes 2025 11 regs k).
Proof.
  cbv zeta.
  apply (calendario_em_ordem 2025 11
           [("2025-11-28", [("42", mk_info (Some "alice") None None)]);
            ("2025-11-03", [("7", mk_info None None None)])]).
  - reflexivity.
  - discriminate.
Defined.

(** ** The first publish of a month, and a refused send *)

(** X18.  First publish of a month.  The channel being configured, the
    platform refusing nothing and the month rendering: when the stored
    document has no reference for the month, the publisher fetches no
    message, creates exactly one, and saves a document with the same records
    whose references are the old ones followed by the new key with the
    identifier of the message created. *)
Theorem publicar_primeira_vez (cid year month : Z) (w : Mundo) (d : Dados)
  (embed : Embed) :
  cid <> 0 -> guarda w d -> plataforma_ok w ->
  embed_do_mes year month d = Ok embed ->
  referencia d year month = None ->
  exists w' evs,
    atualizar_mensagem_calendario cid year month w = (Ok tt, w')
    /\ eventos w'
       = (eventos w ++ evs
          ++ [EvCanalSend (proximo_id w) embed;
              EvArquivoEscrito (com_referencia d year month (proximo_id w))])%list
    /\ Forall (fun ev => ev = EvArquivoLido \/ ev = EvFetchChannel) evs
    /\ canal_mensagens w' = (canal_mensagens w ++ [(proximo_id w, embed)])%list
    /\ proximo_id w' = proximo_id w + 1
    /\ guarda w' (com_referencia d year month (proximo_id w)).
Proof.
  intros Hcid Hg Hok Hembed Href.
  rewrite (atualizar_cria cid year month w d embed Hcid Hg Hok Hembed)
    by (now rewrite Href).
  rewrite Href. cbv zeta.
  rewrite dict_set_novo by (apply dict_get_None; exact Href).
  fold (com_referencia d year month (proximo_id w)).
  unfold com_canal_obtido. simpl (canal_em_cache _).
  destruct (canal_em_cache w) eqn:Ec.
  - eexists. exists [EvArquivoLido]. split; [reflexivity|]. simpl.
    rewrite <- !app_assoc. repeat split; auto.
  - eexists. exists [EvArquivoLido; EvFetchChannel]. split; [reflexivity|]. simpl.
    rewrite <- !app_assoc. repeat split; auto.
Qed.

Lemma publicar_primeira_vez_witness :
  exists w' evs,
    atualizar_mensagem_calendario 77 2024 5 mundo_novo_com_arquivo = (Ok tt, w')
    /\ eventos w'
       = (eventos mundo_novo_com_arquivo ++ evs
          ++ [EvCanalSend 1000 embed_maio;
              EvArquivoEscrito (com_referencia dados_vazios 2024 5 1000)])%list
    /\ Forall (fun ev => ev = EvArquivoLido \/ ev = EvFetchChannel) evs
    /\ canal_mensagens w' = ([] ++ [(1000, embed_maio)])%list
    /\ proximo_id w' = 1000 + 1
    /\ guarda w' (com_referencia dados_vazios 2024 5 1000).
Proof.
  apply (publicar_primeira_vez 77 2024 5 mundo_novo_com_arquivo dados_vazios embed_maio).
  - lia.
  - reflexivity.
  - repeat split.
  - reflexivity.
  - reflexivity.
Defined.



(** ** The time shown for a stored value *)

Lemma split_espaco_sem_espacos (t : string) :
  Forall (fun p => tem_espaco p = false) (split_espaco t).
Proof.
  induction t as [|c t IH]; simpl; [now repeat constructor|].
  destruct (Ascii.eqb c " ") eqn:E.
  - constructor; [reflexivity | exact IH].
  - destruct (split_espaco t) as [|p ps].
    + constructor; [simpl; now rewrite E | constructor].
    + inversion IH as [|? ? Hp Hps]; subst. constructor; [|exact Hps].
      simpl. now rewrite E.
Qed.

Lemma tem_espaco_slice_ate (n : nat) (s : string) :
  tem_espaco s = false -> tem_espaco (slice_ate n s) = false.
Proof.
  revert n. induction s as [|c s IH]; intros n H; simpl in *; [reflexivity|].
  destruct (Ascii.eqb c " ") eqn:E; [discriminate|].
  destruct (continuacao c); simpl.
  - rewrite E. now apply IH.
  - destruct n as [|n]; simpl; [reflexivity|]. rewrite E. now apply IH.
Qed.

Lemma slice_ate_ascii (n : nat) (s : string) :
  so_ascii s = true -> slice_ate n s = substring 0 n s.
Proof.
  revert n. induction s as [|c s IH]; intros n H; simpl in *.
  - now destruct n.
  - apply andb_true_iff in H. destruct H as [Hc Hs].
    assert (continuacao c = false) as ->.
    { unfold continuacao. apply N.ltb_lt in Hc.
      apply andb_false_iff. left. apply N.leb_gt. exact Hc. }
    destruct n as [|n]; [reflexivity|]. now rewrite IH.
Qed.

Lemma so_hora_segunda_parte (a c : string) (resto : list string) :
  tem_espaco a = false ->
  split_espaco (a ++ String " " c) = a :: resto ->
  so_hora (a ++ String " " c) = slice_ate 5 (nth 0 resto EmptyString).
Proof.
  intros Ha Hs. unfold so_hora.
  assert (tem_espaco (a ++ String " " c) = true) as Ht.
  { rewrite tem_espaco_append. simpl. apply orb_true_r. }
  rewrite Ht.
  destruct (String.eqb_spec (a ++ String " " c) sem_hora) as [E|_].
  - rewrite E in Ht. discriminate Ht.
  - simpl. now rewrite Hs.
Qed.

(** X20.  The time the renderer shows for a stored value.  A value without a
    space (the placeholder, or any other text) is shown as it is.  A value
    with a space is replaced by the first five characters of its second
    space-separated part, which for ASCII text are its first five bytes.  In
    every case what is shown holds no space. *)
Theorem so_hora_sem_espaco (t a c r : string) :
  tem_espaco (so_hora t) = false
  /\ (tem_espaco t = false -> so_hora t = t)
  /\ (tem_espaco a = false -> tem_espaco c = false ->
      so_hora (a ++ " " ++ c) = slice_ate 5 c
      /\ so_hora (a ++ " " ++ c ++ " " ++ r) = slice_ate 5 c)
  /\ (so_ascii c = true -> slice_ate 5 c = substring 0 5 c).
Proof.
  split; [|split; [|split]].
  - unfold so_hora.
    destruct (String.eqb_spec t sem_hora) as [->|Hne]; [reflexivity|]. simpl.
    destruct (tem_espaco t) eqn:E; [|exact E].
    apply tem_espaco_slice_ate.
    pose proof (split_espaco_sem_espacos t) as H.
    destruct (split_espaco t) as [|p [|q l]]; try reflexivity. simpl.
    inversion H as [|? ? _ H']; subst. now inversion H'.
  - unfold so_hora. intros ->. now rewrite andb_false_r.
  - intros Ha Hc. split.
    + change (a ++ " " ++ c) with (a ++ String " " c).
      rewrite (so_hora_segunda_parte a c [c] Ha); [reflexivity|].
      rewrite split_espaco_append by exact Ha.
      now rewrite split_espaco_sem_espaco.
    + change (a ++ " " ++ c ++ " " ++ r) with (a ++ String " " (c ++ String " " r)).
      rewrite (so_hora_segunda_parte a _ (c :: split_espaco r) Ha); [reflexivity|].
      rewrite split_espaco_append by exact Ha.
      now rewrite split_espaco_append by exact Hc.
  - apply slice_ate_ascii.
Qed.

Lemma so_hora_sem_espaco_witness :
  so_hora "2025-11-28 09:00:59" = "09:00".
Proof.
  destruct (so_hora_sem_espaco "" "2025-11-28" "09:00:59" "") as [_ [_ [H3 H4]]].
  destruct (H3 eq_refl eq_refl) as [E _]. rewrite (H4 eq_refl) in E. exact E.
Defined.

(** ** No history of clicks *)

Lemma dict_in_set {V} (k : string) (v : V) (d : list (string * V)) :
  dict_in k (dict_set k v d) = true.
Proof. unfold dict_in. now rewrite dict_get_set_eq. Qed.

Lemma dict_set_set {V} (k : string) (v1 v2 : V) (d : list (string * V)) :
  dict_set k v2 (dict_set k v1 d) = dict_set k v2 d.
Proof.
  induction d as [|[k' v'] d IH]; simpl.
  - now rewrite String.eqb_refl.
  - destruct (String.eqb_spec k' k) as [->|Hne]; simpl.
    + now rewrite String.eqb_refl.
    + destruct (String.eqb_spec k' k); [contradiction | now rewrite IH].
Qed.

(** X21.  No history is kept.  Stamping the same kind twice for the same user
    and day gives the records that the second stamp alone gives, with the
    display name of the first: the earlier time is overwritten and nothing
    else changes. *)
Theorem marca_ponto_sobrescreve (date_str h1 h2 user_id nome1 nome2 tipo : string)
  (regs : list (string * list (string * Info))) :
  marca_ponto date_str h2 user_id nome2 tipo
    (marca_ponto date_str h1 user_id nome1 tipo regs)
  = marca_ponto date_str h2 user_id nome1 tipo regs.
Proof.
  unfold marca_ponto at 1. cbv zeta.
  set (A := marca_ponto date_str h1 user_id nome1 tipo regs).
  assert (exists us1 r1 base,
             A = dict_set date_str
                   (dict_set user_id
                      (if (tipo =? "entrada")%string
                       then mk_info (name base) (Some h1) (saida base)
                       else mk_info (name base) (entrada base) (Some h1)) us1) r1
             /\ marca_ponto date_str h2 user_id nome1 tipo regs
                = dict_set date_str
                    (dict_set user_id
                       (if (tipo =? "entrada")%string
                        then mk_info (name base) (Some h2) (saida base)
                        else mk_info (name base) (entrada base) (Some h2)) us1) r1)
    as [us1 [r1 [base [EA EB]]]].
  { unfold A, marca_ponto. cbv zeta. do 3 eexists. split; reflexivity. }
  rewrite EB, EA.
  rewrite dict_in_set, dict_get_set_eq. cbn [ou].
  rewrite dict_in_set, dict_get_set_eq. cbn [ou].
  rewrite !dict_set_set.
  destruct (tipo =? "entrada")%string; reflexivity.
Qed.

Lemma meses_encaixam_todos :
  forallb (fun y => forallb (fun m => (y =? 9999) && (m =? 12) || meses_encaixam y m)
                      (intervalo 1 12))
    (intervalo 1 (Z.to_nat 9999)) = true.
Proof. vm_cast_no_check (eq_refl true). Qed.

Lemma em_intervalo (lo : Z) (n : nat) (x : Z) :
  lo <= x < lo + Z.of_nat n -> In x (intervalo lo n).
Proof.
  intros H. unfold intervalo. apply in_map_iff.
  exists (Z.to_nat (x - lo)). split; [lia|]. apply in_seq. lia.
Qed.

(** X22.  The grids of consecutive months fit together: the first week of the
    next month has as many blank cells before day 1 as the last week of this
    month has days, and none when that week is full. *)
Theorem grades_consecutivas (year month : Z) (ws ws' : list (list Z)) :
  1 <= year <= 9999 -> 1 <= month <= 12 -> (year, month) <> (9999, 12) ->
  monthdayscalendar 0 year month = Ok ws ->
  monthdayscalendar 0 (fst (mes_seguinte year month)) (snd (mes_seguinte year month)) = Ok ws' ->
  brancos_iniciais ws' = dias_na_ultima ws mod 7.
Proof.
  intros Hy Hm Hne E E'.
  pose proof meses_encaixam_todos as H.
  rewrite forallb_forall in H. assert (Iy : In year (intervalo 1 (Z.to_nat 9999))) by (apply em_intervalo; lia).
  specialize (H year Iy).
  rewrite forallb_forall in H. assert (Im : In month (intervalo 1 12)) by (apply em_intervalo; lia).
  specialize (H month Im).
  apply orb_true_iff in H. destruct H as [H|H].
  - apply andb_true_iff in H. destruct H as [H1 H2].
    apply Z.eqb_eq in H1, H2. subst. now contradiction Hne.
  - unfold meses_encaixam in H. destruct (mes_seguinte year month) as [y' m'].
    simpl in E'. rewrite E, E' in H. now apply Z.eqb_eq.
Qed.

Lemma grades_consecutivas_witness :
  brancos_iniciais [[0;0;0;0;0;1;2]; [3;4;5;6;7;8;9]; [10;11;12;13;14;15;16];
                    [17;18;19;20;21;22;23]; [24;25;26;27;28;29;30]]
  = dias_na_ultima [[0;0;1;2;3;4;5]; [6;7;8;9;10;11;12]; [13;14;15;16;17;18;19];
                    [20;21;22;23;24;25;26]; [27;28;29;30;31;0;0]] mod 7.
Proof.
  apply (grades_consecutivas 2024 5); try lia; try discriminate; reflexivity.
Defined.

(** ** The lines of the text *)

(** The Gregorian calendar repeats every 400 years, a whole number of weeks. *)
Lemma isleap_periodo (y : Z) : isleap (y + 400) = isleap y.
Proof.
  unfold isleap.
  replace ((y + 400) mod 4) with (y mod 4) by (Z.div_mod_to_equations; lia).
  replace ((y + 400) mod 100) with (y mod 100) by (Z.div_mod_to_equations; lia).
  replace ((y + 400) mod 400) with (y mod 400) by (Z.div_mod_to_equations; lia).
  reflexivity.
Qed.

Lemma bissexto_periodo (y : Z) : bissexto (y + 400) = bissexto y.
Proof.
  unfold bissexto.
  replace ((y + 400) mod 4) with (y mod 4) by (Z.div_mod_to_equations; lia).
  replace ((y + 400) mod 100) with (y mod 100) by (Z.div_mod_to_equations; lia).
  replace ((y + 400) mod 400) with (y mod 400) by (Z.div_mod_to_equations; lia).
  reflexivity.
Qed.

Lemma weekday_periodo (y m d : Z) :
  1 <= y -> y + 400 <= 9999 -> weekday (y + 400) m d = weekday y m d.
Proof.
  intros H1 H2. unfold weekday, MINYEAR, MAXYEAR.
  replace ((1 <=? y + 400) && (y + 400 <=? 9999)) with true
    by (symmetry; apply andb_true_iff; split; apply Z.leb_le; lia).
  replace ((1 <=? y) && (y <=? 9999)) with true
    by (symmetry; apply andb_true_iff; split; apply Z.leb_le; lia).
  unfold ymd2ord, days_before_month. rewrite isleap_periodo.
  unfold days_before_year. cbv zeta.
  replace (y + 400 - 1) with (y - 1 + 400) by lia.
  set (z := y - 1).
  replace ((z + 400) / 4) with (z / 4 + 100) by (Z.div_mod_to_equations; lia).
  replace ((z + 400) / 100) with (z / 100 + 4) by (Z.div_mod_to_equations; lia).
  replace ((z + 400) / 400) with (z / 400 + 1) by (Z.div_mod_to_equations; lia).
  Z.div_mod_to_equations. lia.
Qed.

Lemma monthlen_periodo (y m : Z) : monthlen (y + 400) m = monthlen y m.
Proof. unfold monthlen. now rewrite isleap_periodo. Qed.

Lemma dias_no_mes_periodo (y m : Z) : dias_no_mes (y + 400) m = dias_no_mes y m.
Proof. unfold dias_no_mes. now rewrite bissexto_periodo. Qed.

Lemma primeiro_dia_periodo (y m : Z) : primeiro_dia (y + 400) m = primeiro_dia y m.
Proof.
  unfold primeiro_dia.
  assert (forall z c, (c + (z + 400) mod 100 + (z + 400) mod 100 / 4
                       + (z + 400) / 100 / 4 + 5 * ((z + 400) / 100) + 5) mod 7
                      = (c + z mod 100 + z mod 100 / 4 + z / 100 / 4 + 5 * (z / 100) + 5)
                        mod 7) as H.
  { intros z c.
    replace ((z + 400) mod 100) with (z mod 100) by (Z.div_mod_to_equations; lia).
    replace ((z + 400) / 100) with (z / 100 + 4) by (Z.div_mod_to_equations; lia).
    replace ((z / 100 + 4) / 4) with (z / 100 / 4 + 1) by (Z.div_mod_to_equations; lia).
    Z.div_mod_to_equations. lia. }
  destruct (m <? 3); cbv zeta.
  - replace (y + 400 - 1) with (y - 1 + 400) by lia. apply H.
  - apply H.
Qed.

Lemma calendario_confere_periodo (y m : Z) :
  1 <= y -> y + 400 <= 9999 ->
  calendario_confere (y + 400) m = calendario_confere y m.
Proof.
  intros H1 H2. unfold calendario_confere.
  now rewrite weekday_periodo, monthlen_periodo, primeiro_dia_periodo,
    dias_no_mes_periodo.
Qed.

Lemma calendario_confere_400 (y m : Z) :
  1 <= y <= 400 -> 1 <= m <= 12 -> calendario_confere y m = true.
Proof.
  intros Hy Hm.
  assert (forallb (fun y => forallb (calendario_confere y) (intervalo 1 12))
            (intervalo 1 400) = true) as Hall by (vm_compute; reflexivity).
  rewrite forallb_forall in Hall.
  assert (In y (intervalo 1 400)) as Iy by (apply In_intervalo; lia).
  specialize (Hall y Iy). rewrite forallb_forall in Hall.
  apply Hall, In_intervalo. lia.
Qed.

Lemma calendario_confere_todos (year month : Z) :
  1 <= year <= 9999 -> 1 <= month <= 12 ->
  weekday year month 1 = primeiro_dia year month
  /\ monthlen year month = dias_no_mes year month.
Proof.
  intros Hy Hm.
  assert (calendario_confere year month = true) as H.
  { assert (forall k, 0 <= k -> forall y, 1 <= y <= 400 -> y + 400 * k <= 9999 ->
                      calendario_confere (y + 400 * k) month = true) as P.
    { intros k Hk. pattern k. apply natlike_ind; [| |exact Hk].
      - intros y Hy0 _. rewrite Z.mul_0_r, Z.add_0_r.
        now apply calendario_confere_400.
      - intros j Hj IH y Hy0 Hle.
        replace (y + 400 * Z.succ j) with (y + 400 * j + 400) by lia.
        rewrite calendario_confere_periodo by lia. apply IH; lia. }
    replace year with (((year - 1) mod 400 + 1) + 400 * ((year - 1) / 400))
      by (Z.div_mod_to_equations; lia).
    apply P; Z.div_mod_to_equations; lia. }
  unfold calendario_confere in H. apply andb_true_iff in H.
  destruct H as [H1 H2]. split; now apply Z.eqb_eq.
Qed.

Lemma semanas_do_calendario_ok (year month : Z) :
  1 <= year <= 9999 -> 1 <= month <= 12 ->
  semanas_do_mes year month = semanas_do_calendario year month.
Proof.
  intros Hy Hm. destruct (calendario_confere_todos year month Hy Hm) as [E1 E2].
  unfold semanas_do_mes, semanas_do_calendario. now rewrite E1, E2.
Qed.

Lemma tem_quebra_append (s t : string) :
  tem_quebra (s ++ t) = tem_quebra s || tem_quebra t.
Proof.
  induction s as [|c s IH]; simpl; [reflexivity|].
  destruct (Ascii.eqb c "010"); [reflexivity | exact IH].
Qed.

Lemma tem_quebra_repete (c : ascii) (n : nat) :
  Ascii.eqb c "010" = false -> tem_quebra (repete c n) = false.
Proof. intros H. induction n as [|n IH]; simpl; [reflexivity | now rewrite H]. Qed.

Lemma tem_quebra_uint (d : uint) : tem_quebra (NilEmpty.string_of_uint d) = false.
Proof. induction d; simpl; trivial. Qed.

Lemma tem_quebra_str_int (n : Z) : tem_quebra (str_int n) = false.
Proof.
  unfold str_int, NilZero.string_of_int, NilZero.string_of_uint.
  destruct (Z.to_int n) as [d | d]; destruct d; simpl; trivial; apply tem_quebra_uint.
Qed.

Lemma tem_quebra_fmt_0d (w : nat) (n : Z) : tem_quebra (fmt_0d w n) = false.
Proof.
  unfold fmt_0d. destruct (n <? 0); simpl;
    now rewrite tem_quebra_append, tem_quebra_repete, tem_quebra_str_int.
Qed.

Lemma tem_quebra_fmt_d (w : nat) (n : Z) : tem_quebra (fmt_d w n) = false.
Proof.
  unfold fmt_d. now rewrite tem_quebra_append, tem_quebra_repete, tem_quebra_str_int.
Qed.

Lemma tem_quebra_celula (d : Z) : tem_quebra (celula d) = false.
Proof.
  unfold celula. destruct (d =? 0); [reflexivity|].
  now rewrite tem_quebra_append, tem_quebra_fmt_d.
Qed.

Lemma tem_quebra_linha_semana (week : list Z) : tem_quebra (linha_semana week) = false.
Proof.
  unfold linha_semana, join. induction week as [|d [|d' week] IH]; simpl.
  - reflexivity.
  - apply tem_quebra_celula.
  - rewrite tem_quebra_append, tem_quebra_celula. simpl. exact IH.
Qed.

Lemma tem_quebra_slice_ate (n : nat) (s : string) :
  tem_quebra s = false -> tem_quebra (slice_ate n s) = false.
Proof.
  revert n. induction s as [|c s IH]; intros n H; simpl in *; [reflexivity|].
  destruct (Ascii.eqb c "010") eqn:E; [discriminate|].
  destruct (continuacao c); simpl.
  - rewrite E. now apply IH.
  - destruct n as [|n]; simpl; [reflexivity|]. rewrite E. now apply IH.
Qed.

Lemma tem_quebra_split_espaco (t : string) :
  tem_quebra t = false -> Forall (fun p => tem_quebra p = false) (split_espaco t).
Proof.
  induction t as [|c t IH]; simpl; intros H; [now repeat constructor|].
  destruct (Ascii.eqb c "010") eqn:E; [discriminate|].
  specialize (IH H). destruct (Ascii.eqb c " ").
  - constructor; [reflexivity | exact IH].
  - destruct (split_espaco t) as [|p ps].
    + constructor; [simpl; now rewrite E | constructor].
    + inversion IH as [|? ? Hp Hps]; subst. constructor; [|exact Hps].
      simpl. now rewrite E.
Qed.

Lemma tem_quebra_so_hora (t : string) :
  tem_quebra t = false -> tem_quebra (so_hora t) = false.
Proof.
  intros H. unfold so_hora.
  destruct (negb (t =? sem_hora)%string && tem_espaco t); [|exact H].
  apply tem_quebra_slice_ate.
  pose proof (tem_quebra_split_espaco t H) as F.
  destruct (split_espaco t) as [|p [|q r]]; try reflexivity. simpl.
  inversion F as [|? ? _ F']; subst. now inversion F'.
Qed.

Lemma linhas_de_nao_vazia (s : string) : linhas_de s <> [].
Proof.
  induction s as [|c s IH]; simpl; [discriminate|].
  destruct (Ascii.eqb c "010"); [discriminate|].
  destruct (linhas_de s); discriminate.
Qed.

Lemma linhas_de_sem_quebra (s : string) : tem_quebra s = false -> linhas_de s = [s].
Proof.
  induction s as [|c s IH]; simpl; [reflexivity|].
  destruct (Ascii.eqb c "010"); [discriminate|]. intros H. now rewrite IH.
Qed.

Lemma linhas_de_append (a b : string) :
  linhas_de (a ++ nl ++ b) = (linhas_de a ++ linhas_de b)%list.
Proof.
  induction a as [|c a IH]; cbn [append linhas_de]; [reflexivity|].
  destruct (Ascii.eqb c "010"); [now rewrite IH|].
  rewrite IH. pose proof (linhas_de_nao_vazia a) as N.
  destruct (linhas_de a) as [|l ls]; [contradiction | reflexivity].
Qed.

Lemma linhas_de_join (l : list string) :
  l <> [] -> linhas_de (join nl l) = flat_map linhas_de l.
Proof.
  unfold join. induction l as [|a [|b l] IH]; intros N; [contradiction| |].
  - simpl. now rewrite app_nil_r.
  - change (String.concat nl (a :: b :: l)) with (a ++ nl ++ String.concat nl (b :: l)).
    rewrite linhas_de_append, IH by discriminate. reflexivity.
Qed.

Lemma flat_map_linhas_de (l : list string) :
  Forall (fun s => tem_quebra s = false) l -> flat_map linhas_de l = l.
Proof.
  induction 1 as [|s l Hs _ IH]; simpl; [reflexivity|].
  now rewrite linhas_de_sem_quebra, IH.
Qed.

Lemma In_dict_set {V} (k : string) (v : V) (d : list (string * V)) (p : string * V) :
  In p (dict_set k v d) -> p = (k, v) \/ In p d.
Proof.
  induction d as [|[k' v'] d IH]; simpl.
  - intros [<- | []]. now left.
  - destruct (k' =? k)%string; simpl.
    + intros [<- | H]; auto.
    + intros [<- | H]; auto. destruct (IH H); auto.
Qed.

Lemma In_filtra_mes (month_key : string) (regs : list (string * list (string * Info)))
  (p : string * list (string * Info)) :
  In p (filtra_mes month_key regs) -> In p regs.
Proof.
  unfold filtra_mes.
  enough (forall acc : list (string * list (string * Info)),
             In p (fold_left (fun acc '(data_str, usuarios) =>
                                if startswith data_str month_key
                                then dict_set data_str usuarios acc else acc)
                             regs acc)
             -> In p acc \/ In p regs) as H.
  { intros Hin. destruct (H [] Hin) as [[] | Hr]. exact Hr. }
  induction regs as [|[k us] regs IH]; intros acc; simpl; [auto|].
  intros Hin. apply IH in Hin. destruct Hin as [Hin | Hin]; [|auto].
  destruct (startswith k month_key); [|auto].
  apply In_dict_set in Hin. destruct Hin as [-> | Hin]; auto.
Qed.

Lemma linhas_de_linha_dia (dia month : Z) :
  Forall linha_de_detalhe (linhas_de (linha_dia dia month)).
Proof.
  unfold linha_dia.
  change (linhas_de (nl ++ "__Dia " ++ fmt_0d 2 dia ++ "/" ++ fmt_0d 2 month ++ "__"))
    with ("" :: linhas_de ("__Dia " ++ fmt_0d 2 dia ++ "/" ++ fmt_0d 2 month ++ "__")).
  rewrite linhas_de_sem_quebra.
  - constructor; [now left|]. constructor; [|constructor]. right. simpl. now left.
  - repeat (rewrite ?tem_quebra_append, ?tem_quebra_fmt_0d; simpl). reflexivity.
Qed.

Lemma linhas_de_linha_usuario (user_id : string) (info : Info) :
  tem_quebra user_id = false ->
  tem_quebra (ou (name info) "") = false ->
  tem_quebra (ou (entrada info) "") = false ->
  tem_quebra (ou (saida info) "") = false ->
  Forall linha_de_detalhe (linhas_de (linha_usuario (user_id, info))).
Proof.
  intros Hu Hn He Hs. rewrite linhas_de_sem_quebra.
  - constructor; [|constructor]. right. simpl. right. right. now left.
  - unfold linha_usuario.
    assert (tem_quebra (ou (name info) user_id) = false) as Hn'
      by (destruct (name info); assumption).
    assert (tem_quebra (so_hora (ou (entrada info) sem_hora)) = false) as He'
      by (apply tem_quebra_so_hora; destruct (entrada info); [assumption | reflexivity]).
    assert (tem_quebra (so_hora (ou (saida info) sem_hora)) = false) as Hs'
      by (apply tem_quebra_so_hora; destruct (saida info); [assumption | reflexivity]).
    repeat (rewrite ?tem_quebra_append, ?Hn', ?He', ?Hs'; simpl). reflexivity.
Qed.

Lemma detalhes_linhas (month : Z) (rm : list (string * list (string * Info)))
  (datas ds : list string) :
  sem_quebras rm ->
  detalhes month rm datas = Ok ds ->
  Forall linha_de_detalhe (flat_map linhas_de ds).
Proof.
  intros Hq. revert ds. induction datas as [|k datas IH]; intros ds H; simpl in H.
  - injection H as <-. constructor.
  - destruct (strptime_Ymd k) as [dt|]; [|discriminate].
    destruct (dict_get k rm) as [us|] eqn:Hg; [|discriminate].
    destruct (detalhes month rm datas) as [mais|]; [|discriminate].
    injection H as <-. cbn [flat_map]. apply Forall_app.
    split; [apply linhas_de_linha_dia|].
    rewrite flat_map_app. apply Forall_app. split; [|now apply IH].
    apply dict_get_In in Hg.
    apply Forall_flat_map. rewrite Forall_map. rewrite Forall_forall.
    intros [user_id info] Hin.
    destruct (Hq k us user_id info Hg Hin) as [Hu [Hn [He Hs]]].
    now apply linhas_de_linha_usuario.
Qed.

Lemma filter_eqb_nenhum (x : string) (l : list string) :
  ~ In x l -> filter (String.eqb x) l = [].
Proof.
  induction l as [|y l IH]; simpl; [reflexivity|]. intros H.
  destruct (String.eqb_spec x y) as [->|_]; [exfalso; apply H; now left|].
  apply IH. intros Hin. apply H. now right.
Qed.

Lemma linha_de_detalhe_nao_grade (l : string) :
  linha_de_detalhe l -> l <> cabecalho /\ ~ linha_de_7_campos l.
Proof.
  intros [-> | H]; split.
  - discriminate.
  - intros Hc. now apply linha_de_7_campos_comeca in Hc.
  - intros ->. simpl in H.
    repeat (destruct H as [H | H]; [discriminate H|]). contradiction.
  - intros Hc. apply linha_de_7_campos_comeca in Hc.
    destruct l as [|c r]; [contradiction|]. simpl in H, Hc.
    repeat (destruct H as [<- | H];
            [repeat (destruct Hc as [Hc | Hc]; [discriminate Hc|]); contradiction|]).
    contradiction.
Qed.



